(** * ga4admin: cache store, query executor and filter translation

    A shallow embedding of the Go sources of the repository

    - [internal/query] executor ([Execute], [ExecuteTemplate], [validateQuery],
      [validateFilter], [validateOrderBy], [configToRequest], [convertFilters],
      [convertSingleFilter], [applyOverrides], [generateQueryID],
      [generateQueryHash]) and models ([QueryConfig], [FilterConfig], ...),
    - [internal/api] data client ([RunReport], [generateQueryHash] and the
      request/response structures),
    - [internal/cache] DuckDB cache client ([CacheMetadata],
      [GetCachedMetadata], [CacheQuery], [GetCachedQuery],
      [CleanupExpiredEntries]),

    together with the parts of the Go standard library these functions call
    ([strconv.FormatInt], [strconv.FormatFloat], [encoding/json.Marshal],
    [crypto/sha256.Sum256], [time.Time]).

    Conventions.  A Go [error] is its message ([string]); a nil pointer is
    [None]; Go strings are byte strings ([string], one [ascii] per byte);
    [int64] values are [Z] together with their range; a [float64] is a sign, a
    mantissa and a binary exponent.  Functions that mutate an argument through
    a pointer return the new value of that argument next to their result. *)

From Stdlib Require Import ZArith List String Ascii Bool Lia.
From Stdlib Require Import Permutation.
Import ListNotations.

#[global] Set Warnings "-register-all".

Local Open Scope string_scope.
Local Open Scope Z_scope.

(** String concatenation, whatever scope is open. *)
Infix "+++" := String.append (at level 60, right associativity).

(* ====================================================================== *)
(** * Go basics                                                           *)
(* ====================================================================== *)

Module Go.

(** [error]: nil or a message. *)
Definition error := option string.

(** Outcome of a function returning [(T, error)]. *)
Inductive result (A : Type) : Type :=
| Ok (a : A)
| Err (msg : string).
Arguments Ok {A} a.
Arguments Err {A} msg.

Definition bind {A B} (r : result A) (k : A -> result B) : result B :=
  match r with
  | Ok a => k a
  | Err m => Err m
  end.

(** [fmt.Errorf(prefix + ": %w", err)] *)
Definition wrap (prefix msg : string) : string := prefix +++ ": " +++ msg.

Definition int64_min : Z := - 2 ^ 63.
Definition int64_max : Z := 2 ^ 63 - 1.
Definition in_int64 (z : Z) : bool := (int64_min <=? z) && (z <=? int64_max).

(** Two's complement wrap-around into the [int64] range. *)
Definition wrap64 (z : Z) : Z := (z + 2 ^ 63) mod 2 ^ 64 - 2 ^ 63.

(** [len(s) == 0] for a slice: a nil slice and an empty one both have
    length zero, which is all the executor looks at.  A slice is a
    [list]; where [encoding/json] distinguishes nil from empty the
    structure carries an [option]. *)
Definition contains (slice : list string) (item : string) : bool :=
  existsb (String.eqb item) slice.

End Go.

Export Go.

Declare Scope go_scope.
Delimit Scope go_scope with go.
Notation "x <- c ;; k" := (Go.bind c (fun x => k))
  (at level 61, c at next level, right associativity) : go_scope.

(* ====================================================================== *)
(** * strconv: decimal numerals                                           *)
(* ====================================================================== *)

Module Strconv.

Definition digit_char (d : Z) : ascii := ascii_of_nat (48 + Z.to_nat d).

(** Decimal digits of a non-negative number, most significant first.
    [fuel] bounds the number of digits. *)
Fixpoint digits_aux (fuel : nat) (n : Z) (acc : string) : string :=
  match fuel with
  | O => acc
  | S k =>
      let acc' := String (digit_char (n mod 10)) acc in
      if n <? 10 then acc' else digits_aux k (n / 10) acc'
  end.

Definition decimal (n : Z) : string :=
  digits_aux (S (Z.to_nat (Z.log2 n))) n "".

(** [strconv.FormatInt(i, 10)] *)
Definition FormatInt (i : Z) : string :=
  if i <? 0 then String "-" (decimal (- i)) else decimal i.

Fixpoint zeros (n : nat) : string :=
  match n with
  | O => ""
  | S k => String "0" (zeros k)
  end.

(** [s[:n]] and [s[n:]] *)
Fixpoint take (n : nat) (s : string) : string :=
  match n, s with
  | S k, String c rest => String c (take k rest)
  | _, _ => ""
  end.

Fixpoint drop (n : nat) (s : string) : string :=
  match n, s with
  | S k, String _ rest => drop k rest
  | _, _ => s
  end.

End Strconv.

(* ====================================================================== *)
(** * float64                                                             *)
(* ====================================================================== *)

Module Float64.

(** A binary64 value: not-a-number, an infinity, or the finite value
    [(-1)^neg * m * 2^e].  Every finite binary64 value has such a form with
    [0 <= m < 2^53] and [-1074 <= e <= 971] (and every such form is a
    binary64 value); the forms of one value are identified by [eqb]. *)
Inductive float64 : Type :=
| NaN
| Inf (neg : bool)
| Fin (neg : bool) (m : Z) (e : Z).

Definition valid (f : float64) : bool :=
  match f with
  | Fin _ m e => (0 <=? m) && (m <? 2 ^ 53) && (-1074 <=? e) && (e <=? 971)
  | _ => true
  end.

Definition signed (neg : bool) (a : Z) : Z := if neg then - a else a.

(** Numerators of two finite values over the common denominator
    [2 ^ - Z.min e1 e2]. *)
Definition align (s1 : bool) (m1 e1 : Z) (s2 : bool) (m2 e2 : Z) : Z * Z :=
  let k := Z.min e1 e2 in
  (signed s1 (m1 * 2 ^ (e1 - k)), signed s2 (m2 * 2 ^ (e2 - k))).

(** Go's [==] on float64: NaN differs from everything, [-0 == +0]. *)
Definition eqb (a b : float64) : bool :=
  match a, b with
  | Fin s1 m1 e1, Fin s2 m2 e2 =>
      let '(x, y) := align s1 m1 e1 s2 m2 e2 in x =? y
  | Inf s1, Inf s2 => Bool.eqb s1 s2
  | _, _ => false
  end.

(** Go's [>=] on float64 (false as soon as one side is NaN). *)
Definition geb (a b : float64) : bool :=
  match a, b with
  | NaN, _ | _, NaN => false
  | Inf s1, Inf s2 => implb s1 s2
  | Inf s1, Fin _ _ _ => negb s1
  | Fin _ _ _, Inf s2 => s2
  | Fin s1 m1 e1, Fin s2 m2 e2 =>
      let '(x, y) := align s1 m1 e1 s2 m2 e2 in y <=? x
  end.

Definition ltb (a b : float64) : bool :=
  match a, b with
  | NaN, _ | _, NaN => false
  | _, _ => negb (geb a b)
  end.

Definition abs (a : float64) : float64 :=
  match a with
  | NaN => NaN
  | Inf _ => Inf false
  | Fin _ m e => Fin false m e
  end.

(** The value has no fractional part. *)
Definition is_integer (f : float64) : bool :=
  match f with
  | Fin _ m e => (0 <=? e) || (m mod 2 ^ (- e) =? 0)
  | _ => false
  end.

(** The value rounded towards zero ([Z.shiftl] by a negative amount is a
    right shift). *)
Definition trunc (f : float64) : Z :=
  match f with
  | Fin s m e => signed s (Z.shiftl m e)
  | _ => 0
  end.

(** [int64(f)].  The Go specification leaves the result of converting a
    value that [int64] cannot represent (too large, infinite, NaN) to the
    implementation; [overflow f] is what the platform produces there. *)
Definition to_int64 (overflow : float64 -> Z) (f : float64) : Z :=
  match f with
  | Fin _ _ _ =>
      let t := trunc f in
      if in_int64 t then t else wrap64 (overflow f)
  | _ => wrap64 (overflow f)
  end.

(** [float64(i)] for an [int64]: round to nearest, ties to even, at 53
    bits of precision. *)
Definition of_int64 (i : Z) : float64 :=
  let a := Z.abs i in
  if a <? 2 ^ 53 then Fin (i <? 0) a 0
  else
    let k := Z.log2 a - 52 in
    let q := a / 2 ^ k in
    let r := a mod 2 ^ k in
    let h := 2 ^ (k - 1) in
    let q' := if (h <? r) || ((r =? h) && Z.odd q) then q + 1 else q in
    Fin (i <? 0) q' k.

End Float64.

(* ====================================================================== *)
(** * strconv.FormatFloat with precision -1                               *)
(* ====================================================================== *)

Module Ftoa.
Import Float64 Strconv.

(** The binary64 encoding of a positive finite value: the mantissa has 53
    bits unless the exponent is the smallest one. *)
Definition normalize (m e : Z) : Z * Z :=
  let s := Z.max 0 (Z.min (52 - Z.log2 m) (e + 1074)) in
  (m * 2 ^ s, e - s).

(** The decimal numbers that round to [m * 2^e]: those between the
    midpoints to the two neighbouring floats, [lo / den] and [hi / den],
    the bounds included when the mantissa is even; [mid / den] is the
    value itself. *)
Record interval : Type := {
  lo : Z; mid : Z; hi : Z; den : Z; incl : bool
}.

Definition rounding_interval (m e : Z) : interval :=
  let '(mc, ec) := normalize m e in
  let w := 4 * mc in
  let l := if (mc =? 2 ^ 52) && (-1074 <? ec) then w - 1 else w - 2 in
  let b := ec - 2 in
  let num := if 0 <=? b then 2 ^ b else 1 in
  {| lo := l * num; mid := w * num; hi := (w + 2) * num;
     den := if 0 <=? b then 1 else 2 ^ (- b);
     incl := Z.even mc |}.

(** [Z.compare (d * 10^x) (num / den)] over the integers. *)
Definition cmp10 (d x num den : Z) : comparison :=
  if 0 <=? x then d * 10 ^ x * den ?= num
  else d * den ?= num * 10 ^ (- x).

(** [floor (num / den / 10^x)] *)
Definition floor10 (x num den : Z) : Z :=
  if 0 <=? x then num / (den * 10 ^ x) else (num * 10 ^ (- x)) / den.

Fixpoint first_k (fuel : nat) (num den k : Z) : Z :=
  match fuel with
  | O => k
  | S f => if den <=? num * 10 ^ k then k else first_k f num den (k + 1)
  end.

(** The position of the decimal point: [10^(p-1) <= num/den < 10^p]. *)
Definition point (num den : Z) : Z :=
  if den <=? num then Z.of_nat (length (decimal (num / den)))
  else 1 - first_k 400 num den 1.

(** One more digit at a time, until truncating or rounding up the decimal
    expansion of the value gives a number that still rounds to it; when
    both do, the nearer one (ties to the even digit). *)
Fixpoint search (fuel : nat) (iv : interval) (x : Z) : option (Z * Z) :=
  match fuel with
  | O => None
  | S f =>
      let d := floor10 x (mid iv) (den iv) in
      let okdown :=
        match cmp10 d x (lo iv) (den iv) with
        | Gt => true | Eq => incl iv | Lt => false
        end in
      let okup :=
        match cmp10 (d + 1) x (hi iv) (den iv) with
        | Lt => true | Eq => incl iv | Gt => false
        end in
      let nearest :=
        match cmp10 (2 * d + 1) x (2 * mid iv) (den iv) with
        | Gt => d
        | Lt => d + 1
        | Eq => if Z.even d then d else d + 1
        end in
      if okdown && okup then Some (nearest, x)
      else if okdown then Some (d, x)
      else if okup then Some (d + 1, x)
      else search f iv (x - 1)
  end.

(** The full decimal expansion of [mid / den], [den] a power of two. *)
Definition exact (iv : interval) : Z * Z :=
  let j := Z.log2 (den iv) in (mid iv * 5 ^ j, - j).

(** Trailing zero digits go to the exponent. *)
Fixpoint trim (fuel : nat) (d x : Z) : Z * Z :=
  match fuel with
  | O => (d, x)
  | S f => if (d mod 10 =? 0) && negb (d =? 0) then trim f (d / 10) (x + 1)
           else (d, x)
  end.

(** Shortest decimal [d * 10^x] that rounds to [m * 2^e], for [0 < m]. *)
Definition shortest (m e : Z) : Z * Z :=
  let iv := rounding_interval m e in
  let '(d, x) :=
    match search 17 iv (point (mid iv) (den iv) - 1) with
    | Some r => r
    | None => exact iv
    end in
  trim (S (Z.to_nat (Z.log2 d))) d x.

(** Layout [%f]: all digits, a point only before fractional digits. *)
Definition fmtF (d x : Z) : string :=
  let ds := decimal d in
  if 0 <=? x then ds +++ zeros (Z.to_nat x)
  else
    let k := Z.to_nat (- x) in
    let nd := length ds in
    if (k <? nd)%nat
    then take (nd - k) ds +++ String "." (drop (nd - k) ds)
    else String "0" (String "." (zeros (k - nd) +++ ds)).

(** Layout [%e]: one digit, the others behind the point, then the decimal
    exponent, of at least two digits when [pad] is set. *)
Definition fmtE (pad : bool) (d x : Z) : string :=
  let ds := decimal d in
  let ex := Z.of_nat (length ds) + x - 1 in
  let frac := drop 1 ds in
  let mant := match frac with
              | EmptyString => take 1 ds
              | _ => take 1 ds +++ String "." frac
              end in
  let exs := decimal (Z.abs ex) in
  let sgn : ascii := if ex <? 0 then "-"%char else "+"%char in
  let zero : string := if pad && (Z.abs ex <? 10) then "0" else "" in
  mant +++ String "e" (String sgn (zero +++ exs)).

Definition sign_prefix (neg : bool) (s : string) : string :=
  if neg then String "-" s else s.

(** [strconv.FormatFloat(f, 'f', -1, 64)] *)
Definition FormatFloat (f : float64) : string :=
  match f with
  | NaN => "NaN"
  | Inf false => "+Inf"
  | Inf true => "-Inf"
  | Fin s m e =>
      sign_prefix s
        (if m =? 0 then "0" else let '(d, x) := shortest m e in fmtF d x)
  end.

(** [strconv.FormatFloat(f, 'e', -1, 64)]; with [pad] unset, the exponent
    as [encoding/json] rewrites it ([e-09] becomes [e-9]). *)
Definition FormatFloatE (pad : bool) (f : float64) : string :=
  match f with
  | NaN => "NaN"
  | Inf false => "+Inf"
  | Inf true => "-Inf"
  | Fin s m e =>
      sign_prefix s
        (if m =? 0 then (if pad then "0e+00" else "0e+0")
         else let '(d, x) := shortest m e in fmtE pad d x)
  end.

End Ftoa.

(* ====================================================================== *)
(** * crypto/sha256                                                       *)
(* ====================================================================== *)

Module Sha256.

Definition w32 (x : Z) : Z := x mod 2 ^ 32.
Definition add32 (x y : Z) : Z := w32 (x + y).
Definition rotr (n x : Z) : Z :=
  Z.lor (Z.shiftr x n) (w32 (Z.shiftl x (32 - n))).
Definition not32 (x : Z) : Z := 2 ^ 32 - 1 - x.

Definition ch (x y z : Z) : Z := Z.lxor (Z.land x y) (Z.land (not32 x) z).
Definition maj (x y z : Z) : Z :=
  Z.lxor (Z.lxor (Z.land x y) (Z.land x z)) (Z.land y z).
Definition bsig0 (x : Z) : Z :=
  Z.lxor (Z.lxor (rotr 2 x) (rotr 13 x)) (rotr 22 x).
Definition bsig1 (x : Z) : Z :=
  Z.lxor (Z.lxor (rotr 6 x) (rotr 11 x)) (rotr 25 x).
Definition ssig0 (x : Z) : Z :=
  Z.lxor (Z.lxor (rotr 7 x) (rotr 18 x)) (Z.shiftr x 3).
Definition ssig1 (x : Z) : Z :=
  Z.lxor (Z.lxor (rotr 17 x) (rotr 19 x)) (Z.shiftr x 10).

(** The first primes, by trial division. *)
Fixpoint primes_from (fuel : nat) (n : Z) (found : list Z) (want : nat)
  : list Z :=
  match fuel, want with
  | O, _ | _, O => rev found
  | S f, S wn =>
      if existsb (fun p => n mod p =? 0) found
      then primes_from f (n + 1) found want
      else primes_from f (n + 1) (n :: found) wn
  end.

Definition primes (k : nat) : list Z := primes_from 400 2 [] k.

(** Integer cube root by bisection. *)
Fixpoint cbrt_aux (fuel : nat) (n l h : Z) : Z :=
  match fuel with
  | O => l
  | S f =>
      if h - l <=? 1 then l
      else
        let c := (l + h) / 2 in
        if c * c * c <=? n then cbrt_aux f n c h else cbrt_aux f n l c
  end.

Definition cbrt (n : Z) : Z := cbrt_aux 200 n 0 (2 ^ 40).

(** Initial hash value: the first 32 bits of the fractional parts of the
    square roots of the first 8 primes. *)
Definition H0 : list Z :=
  Eval vm_compute in map (fun p => w32 (Z.sqrt (p * 2 ^ 64))) (primes 8).

(** Round constants: the first 32 bits of the fractional parts of the
    cube roots of the first 64 primes. *)
Definition K : list Z :=
  Eval vm_compute in map (fun p => w32 (cbrt (p * 2 ^ 96))) (primes 64).

Definition bytes_of_string (s : string) : list Z :=
  map (fun c => Z.of_nat (nat_of_ascii c)) (list_ascii_of_string s).

(** Big-endian bytes of [x], [n] of them. *)
Fixpoint be_bytes (n : nat) (x : Z) : list Z :=
  match n with
  | O => []
  | S k => (Z.shiftr x (8 * Z.of_nat k)) mod 256 :: be_bytes k x
  end.

(** Message, the bit 1, zeros up to 56 modulo 64, the bit length. *)
Definition pad (msg : list Z) : list Z :=
  let l := Z.of_nat (List.length msg) in
  let z := Z.to_nat ((55 - l) mod 64) in
  (msg ++ 128 :: repeat 0 z ++ be_bytes 8 (8 * l))%list.

Fixpoint words (fuel : nat) (bs : list Z) : list Z :=
  match fuel, bs with
  | S f, a :: b :: c :: d :: rest =>
      (((a * 256 + b) * 256 + c) * 256 + d) :: words f rest
  | _, _ => []
  end.

(** The message schedule, most recent word first. *)
Fixpoint schedule (n : nat) (rw : list Z) : list Z :=
  match n with
  | O => rw
  | S k =>
      let x :=
        add32 (add32 (ssig1 (nth 1 rw 0)) (nth 6 rw 0))
              (add32 (ssig0 (nth 14 rw 0)) (nth 15 rw 0)) in
      schedule k (x :: rw)
  end.

Definition state := (Z * Z * Z * Z * Z * Z * Z * Z)%type.

Definition round (st : state) (kw : Z * Z) : state :=
  let '(a, b, c, d, e, f, g, h) := st in
  let '(k, w) := kw in
  let t1 := add32 (add32 (add32 h (bsig1 e)) (add32 (ch e f g) k)) w in
  let t2 := add32 (bsig0 a) (maj a b c) in
  (add32 t1 t2, a, b, c, add32 d t1, e, f, g).

Definition compress (st : state) (block : list Z) : state :=
  let ws := rev (schedule 48 (rev block)) in
  let '(a, b, c, d, e, f, g, h) := fold_left round (combine K ws) st in
  let '(a0, b0, c0, d0, e0, f0, g0, h0) := st in
  (add32 a0 a, add32 b0 b, add32 c0 c, add32 d0 d,
   add32 e0 e, add32 f0 f, add32 g0 g, add32 h0 h).

Fixpoint blocks (fuel : nat) (ws : list Z) (st : state) : state :=
  match fuel, ws with
  | S f, _ :: _ => blocks f (skipn 16 ws) (compress st (firstn 16 ws))
  | _, _ => st
  end.

Definition init : state :=
  match H0 with
  | [a; b; c; d; e; f; g; h] => (a, b, c, d, e, f, g, h)
  | _ => (0, 0, 0, 0, 0, 0, 0, 0)
  end.

(** [sha256.Sum256(data)] as eight 32-bit words. *)
Definition Sum256 (data : string) : list Z :=
  let bs := pad (bytes_of_string data) in
  let n := List.length bs in
  let '(a, b, c, d, e, f, g, h) := blocks n (words n bs) init in
  [a; b; c; d; e; f; g; h].

Definition hex_digit (d : Z) : ascii :=
  if d <? 10 then ascii_of_nat (48 + Z.to_nat d)
  else ascii_of_nat (87 + Z.to_nat d).

Fixpoint hex (n : nat) (x : Z) : string :=
  match n with
  | O => ""
  | S k => String (hex_digit ((Z.shiftr x (4 * Z.of_nat k)) mod 16)) (hex k x)
  end.

(** [fmt.Sprintf("%x", sha256.Sum256(data))] *)
Definition hexdigest (data : string) : string :=
  concat "" (map (hex 8) (Sum256 data)).

End Sha256.

(* ====================================================================== *)
(** * time.Time                                                           *)
(* ====================================================================== *)

Module time.
Import Strconv.

(** An instant (seconds and nanoseconds since the Unix epoch) and the
    offset of its location, in seconds east of UTC. *)
Record Time : Type := {
  unix : Z;
  nsec : Z;
  offset : Z
}.

(** [time.Time{}]: January 1, year 1, 00:00:00 UTC. *)
Definition zero : Time := {| unix := -62135596800; nsec := 0; offset := 0 |}.

(** Nanoseconds since the epoch. *)
Definition nanos (t : Time) : Z := unix t * 1000000000 + nsec t.

(** [t.After(u)] *)
Definition After (t u : Time) : bool := nanos u <? nanos t.

(** [t.Unix()] *)
Definition Unix (t : Time) : Z := unix t.

(** [time.Hour], a [time.Duration]: an [int64] count of nanoseconds. *)
Definition Hour : Z := 3600 * 1000000000.

(** [time.Duration(h) * time.Hour], with the wrap-around of [int64]. *)
Definition Hours (h : Z) : Z := wrap64 (h * Hour).

(** [t.Add(d)] *)
Definition Add (t : Time) (d : Z) : Time :=
  let n := nsec t + d in
  {| unix := unix t + n / 1000000000;
     nsec := n mod 1000000000;
     offset := offset t |}.

(** [t.Sub(u)], a [time.Duration]; the extreme durations stand for
    differences beyond them. *)
Definition Sub (t u : Time) : Z :=
  Z.max int64_min (Z.min int64_max (nanos t - nanos u)).

(** Year, month and day of a day number counted from 1970-01-01. *)
Definition civil (days : Z) : Z * Z * Z :=
  let z := days + 719468 in
  let era := z / 146097 in
  let doe := z - era * 146097 in
  let yoe := (doe - doe / 1460 + doe / 36524 - doe / 146096) / 365 in
  let doy := doe - (365 * yoe + yoe / 4 - yoe / 100) in
  let mp := (5 * doy + 2) / 153 in
  let d := doy - (153 * mp + 2) / 5 + 1 in
  let m := if mp <? 10 then mp + 3 else mp - 9 in
  let y := yoe + era * 400 + (if m <=? 2 then 1 else 0) in
  (y, m, d).

(** [n] in at least [width] decimal digits. *)
Definition padded (width : nat) (n : Z) : string :=
  let ds := decimal n in
  zeros (width - length ds) +++ ds.

Fixpoint strip_zeros (fuel : nat) (n : Z) (width : nat) : Z * nat :=
  match fuel with
  | O => (n, width)
  | S f => if n mod 10 =? 0 then strip_zeros f (n / 10) (width - 1)
           else (n, width)
  end.

(** The fraction of a second as [.999999999] prints it. *)
Definition fraction (ns : Z) : string :=
  if ns =? 0 then ""
  else let '(n, wd) := strip_zeros 9 ns 9 in String "." (padded wd n).

Definition zone (off : Z) : string :=
  if off =? 0 then "Z"
  else
    let z := Z.quot off 60 in
    let a := Z.abs z in
    let sgn : ascii := if z <? 0 then "-"%char else "+"%char in
    String sgn (padded 2 (a / 60) +++ String ":" (padded 2 (a mod 60))).

(** [t.MarshalJSON()] without the quotes: RFC 3339 with nanoseconds;
    an error for a year outside [0,9999] or a zone of 24 hours or
    more. *)
Definition MarshalText (t : Time) : option string :=
  let loc := unix t + offset t in
  let '(y, m, d) := civil (loc / 86400) in
  let sod := loc mod 86400 in
  if (y <? 0) || (10000 <=? y) then None
  else if 24 <=? Z.abs (Z.quot (offset t) 60) / 60 then None
  else
    Some (padded 4 y +++ String "-" (padded 2 m +++ String "-" (padded 2 d
          +++ String "T" (padded 2 (sod / 3600) +++ String ":"
             (padded 2 (sod mod 3600 / 60) +++ String ":"
                (padded 2 (sod mod 60) +++ fraction (nsec t)
                   +++ zone (offset t))))))).

(** The fractional part of [v / 10^prec] as [Duration.String] prints it,
    and the integral part. *)
Definition fmtFrac (v : Z) (prec : nat) : string * Z :=
  let p := 10 ^ Z.of_nat prec in
  let frac := v mod p in
  if frac =? 0 then ("", v / p)
  else let '(n, wd) := strip_zeros prec frac prec in
       (String "." (padded wd n), v / p).

(** [d.String()] for a [time.Duration] *)
Definition DurationString (d : Z) : string :=
  let u := Z.abs d in
  let body :=
    if u <? 1000000000 then
      if u =? 0 then "0s"
      else if u <? 1000 then decimal u +++ "ns"
      else if u <? 1000000 then
        let '(fr, i) := fmtFrac u 3 in
        decimal i +++ fr +++ String "194" (String "181" "s")
      else
        let '(fr, i) := fmtFrac u 6 in decimal i +++ fr +++ "ms"
    else
      let '(fr, secs) := fmtFrac u 9 in
      let sec := decimal (secs mod 60) +++ fr +++ "s" in
      let mins := secs / 60 in
      if 0 <? mins then
        let min := decimal (mins mod 60) +++ String "m" sec in
        let hrs := mins / 60 in
        if 0 <? hrs then decimal hrs +++ String "h" min else min
      else sec in
  if d <? 0 then String "-" body else body.

End time.

(* ====================================================================== *)
(** * encoding/json: values and their compact encoding                    *)
(* ====================================================================== *)

Module Json.
Import Float64 Ftoa Strconv.

Inductive json : Type :=
| JNull
| JBool (b : bool)
| JNumber (literal : string)
| JString (s : string)
| JArray (items : list json)
| JObject (fields : list (string * json)).

Definition byte (c : ascii) : Z := Z.of_nat (nat_of_ascii c).
Definition between (c : ascii) (l h : Z) : bool :=
  (l <=? byte c) && (byte c <=? h).

Definition dquote : ascii := "034"%char.
Definition backslash : ascii := "092"%char.

(** Length of the UTF-8 sequence that starts with byte [c] and goes on in
    [rest]; [O] when the bytes do not encode a rune. *)
Definition utf8_len (c : ascii) (rest : string) : nat :=
  let b := byte c in
  let tail2 (l h : Z) :=
    match rest with
    | String c1 _ => if between c1 l h then 2%nat else O
    | _ => O
    end in
  let tail3 (l h : Z) :=
    match rest with
    | String c1 (String c2 _) =>
        if between c1 l h && between c2 128 191 then 3%nat else O
    | _ => O
    end in
  let tail4 (l h : Z) :=
    match rest with
    | String c1 (String c2 (String c3 _)) =>
        if between c1 l h && between c2 128 191 && between c3 128 191
        then 4%nat else O
    | _ => O
    end in
  if b <? 194 then O
  else if b <? 224 then tail2 128 191
  else if b =? 224 then tail3 160 191
  else if b =? 237 then tail3 128 159
  else if b <? 240 then tail3 128 191
  else if b =? 240 then tail4 144 191
  else if b <? 244 then tail4 128 191
  else if b =? 244 then tail4 128 143
  else O.

(** U+2028 and U+2029 (E2 80 A8, E2 80 A9). *)
Definition line_sep (c : ascii) (rest : string) : option ascii :=
  match rest with
  | String c1 (String c2 _) =>
      if (byte c =? 226) && (byte c1 =? 128) then
        if byte c2 =? 168 then Some "8"%char
        else if byte c2 =? 169 then Some "9"%char
        else None
      else None
  | _ => None
  end.

Definition hex1 (d : Z) : ascii :=
  if d <? 10 then ascii_of_nat (48 + Z.to_nat d)
  else ascii_of_nat (87 + Z.to_nat d).

(** One byte below 0x80, with HTML escaping on (the default of
    [json.Marshal]). *)
Definition escape_ascii (c : ascii) : string :=
  let b := byte c in
  if (b =? 34) || (b =? 92) then String backslash (String c "")
  else if b =? 8 then String backslash "b"
  else if b =? 12 then String backslash "f"
  else if b =? 10 then String backslash "n"
  else if b =? 13 then String backslash "r"
  else if b =? 9 then String backslash "t"
  else if (b <? 32) || (b =? 60) || (b =? 62) || (b =? 38)
  then String backslash
         (String "u" (String "0" (String "0"
            (String (hex1 (b / 16)) (String (hex1 (b mod 16)) "")))))
  else String c "".

(** The body of a JSON string.  [keep] bytes are still to be copied,
    [skip] bytes to be dropped, from the rune met last. *)
Fixpoint escape (keep skip : nat) (s : string) : string :=
  match s with
  | EmptyString => EmptyString
  | String c rest =>
      match keep, skip with
      | S k, _ => String c (escape k skip rest)
      | O, S k => escape O k rest
      | O, O =>
          if byte c <? 128 then escape_ascii c +++ escape O O rest
          else
            match utf8_len c rest with
            | O => String backslash "ufffd" +++ escape O O rest
            | S n =>
                match line_sep c rest with
                | Some d =>
                    String backslash (String "u" (String "2" (String "0"
                      (String "2" (String d (escape O n rest))))))
                | None => String c (escape n O rest)
                end
            end
      end
  end.

Definition quote (s : string) : string :=
  String dquote (escape O O s +++ String dquote "").

Definition join (parts : list string) : string := concat "," parts.

Fixpoint encode (j : json) : string :=
  match j with
  | JNull => "null"
  | JBool true => "true"
  | JBool false => "false"
  | JNumber n => n
  | JString s => quote s
  | JArray l => String "[" (join (map encode l) +++ "]")
  | JObject fs =>
      String "{"
        (join (map (fun kv => quote (fst kv) +++ String ":" (encode (snd kv)))
                   fs) +++ "}")
  end.

(** ** Building objects field by field, as the struct encoder does. *)

(** A field that is always written, and one with [omitempty]. *)
Definition field (k : string) (v : json) : list (string * json) := [(k, v)].
Definition omitempty (k : string) (empty : bool) (v : json)
  : list (string * json) :=
  if empty then [] else [(k, v)].

Definition is_empty (s : string) : bool :=
  match s with EmptyString => true | _ => false end.

Definition jstr_omit (k s : string) := omitempty k (is_empty s) (JString s).
Definition jbool_omit (k : string) (b : bool) := omitempty k (negb b) (JBool b).
Definition jint (z : Z) : json := JNumber (FormatInt z).
Definition jint_omit (k : string) (z : Z) := omitempty k (z =? 0) (jint z).
Definition jstrings (l : list string) : json := JArray (map JString l).

(** A slice that may be nil encodes as [null]. *)
Definition jslice (l : option (list string)) : json :=
  match l with
  | None => JNull
  | Some xs => jstrings xs
  end.

(** A float64: no NaN, no infinity; exponent form below 1e-6 and from
    1e21 on. *)
Definition f_1e_6 : float64 := Fin false 4722366482869645 (-72).
Definition f_1e21 : float64 := Fin false (5 ^ 21) 21.

Definition jfloat (f : float64) : option json :=
  match f with
  | Fin _ m _ =>
      let a := Float64.abs f in
      if negb (m =? 0) && (Float64.ltb a f_1e_6 || Float64.geb a f_1e21)
      then Some (JNumber (FormatFloatE false f))
      else Some (JNumber (FormatFloat f))
  | _ => None
  end.

Definition float_is_zero (f : float64) : bool :=
  Float64.eqb f (Fin false 0 0).

End Json.

(* ====================================================================== *)
(** * package api: request and response structures (data.go)              *)
(* ====================================================================== *)

Module api.
Import Json.

Record Dimension : Type := {
  dim_Name : string;
  dim_DimensionExpression : string
}.

Record Metric : Type := {
  met_Name : string;
  met_Expression : string
}.

Record DateRange : Type := {
  dr_StartDate : string;
  dr_EndDate : string;
  dr_Name : string
}.

Record NumericValue : Type := {
  nv_Int64Value : string;
  nv_DoubleValue : string
}.

Record StringFilter : Type := {
  sf_MatchType : string;
  sf_Value : string;
  sf_CaseSensitive : bool
}.

Record NumericFilter : Type := {
  nf_Operation : string;
  nf_Value : NumericValue
}.

Record BetweenFilter : Type := {
  bf_FromValue : NumericValue;
  bf_ToValue : NumericValue
}.

Record InListFilter : Type := {
  il_Values : option (list string);
  il_CaseSensitive : bool
}.

Record Filter : Type := {
  flt_FieldName : string;
  flt_StringFilter : option StringFilter;
  flt_NumericFilter : option NumericFilter;
  flt_BetweenFilter : option BetweenFilter;
  flt_InListFilter : option InListFilter
}.

(** [FilterExpression]: four pointers, each nil or set.  An
    [*FilterExpressionList] is the list of its [Expressions]. *)
Inductive FilterExpression : Type := Build_FilterExpression {
  fe_AndGroup : option (list FilterExpression);
  fe_OrGroup : option (list FilterExpression);
  fe_NotExpression : option FilterExpression;
  fe_Filter : option Filter
}.

Record DimensionOrderBy : Type := {
  dob_DimensionName : string;
  dob_OrderType : string
}.

Record MetricOrderBy : Type := {
  mob_MetricName : string
}.

Record OrderBy : Type := {
  ob_Desc : bool;
  ob_Dimension : option DimensionOrderBy;
  ob_Metric : option MetricOrderBy
}.

Record RunReportRequest : Type := {
  req_Property : string;
  req_Dimensions : list Dimension;
  req_Metrics : list Metric;
  req_DateRanges : list DateRange;
  req_DimensionFilter : option FilterExpression;
  req_MetricFilter : option FilterExpression;
  req_Offset : Z;
  req_Limit : Z;
  req_MetricAggregations : list string;
  req_OrderBys : list OrderBy;
  req_CurrencyCode : string;
  req_KeepEmptyRows : bool;
  req_ReturnPropertyQuota : bool
}.

Definition set_req_Limit (r : RunReportRequest) (l : Z) : RunReportRequest :=
  {| req_Property := req_Property r;
     req_Dimensions := req_Dimensions r;
     req_Metrics := req_Metrics r;
     req_DateRanges := req_DateRanges r;
     req_DimensionFilter := req_DimensionFilter r;
     req_MetricFilter := req_MetricFilter r;
     req_Offset := req_Offset r;
     req_Limit := l;
     req_MetricAggregations := req_MetricAggregations r;
     req_OrderBys := req_OrderBys r;
     req_CurrencyCode := req_CurrencyCode r;
     req_KeepEmptyRows := req_KeepEmptyRows r;
     req_ReturnPropertyQuota := req_ReturnPropertyQuota r |}.

Record DimensionHeader : Type := { dh_Name : string }.
Record MetricHeader : Type := { mh_Name : string; mh_Type : string }.
Record DimensionValue : Type := { dv_Value : string }.
Record MetricValue : Type := { mv_Value : string }.

Record Row : Type := {
  row_DimensionValues : list DimensionValue;
  row_MetricValues : list MetricValue
}.

Record ResponseMetadata : Type := {
  rm_CurrencyCode : string;
  rm_TimeZone : string;
  rm_EmptyReason : string;
  rm_DataLossFromOtherRow : bool
}.

Record QuotaStatus : Type := { qs_Consumed : Z; qs_Remaining : Z }.

Record PropertyQuota : Type := {
  pq_TokensPerDay : option QuotaStatus;
  pq_TokensPerHour : option QuotaStatus;
  pq_ConcurrentRequests : option QuotaStatus;
  pq_ServerErrorsPerProjectPerHour : option QuotaStatus
}.

Record RunReportResponse : Type := {
  resp_DimensionHeaders : list DimensionHeader;
  resp_MetricHeaders : list MetricHeader;
  resp_Rows : list Row;
  resp_Totals : list Row;
  resp_Maximums : list Row;
  resp_Minimums : list Row;
  resp_RowCount : Z;
  resp_Metadata : ResponseMetadata;
  resp_PropertyQuota : option PropertyQuota;
  resp_Kind : string
}.

(** ** [json.Marshal(request)], following the struct tags *)

Definition json_of_NumericValue (v : NumericValue) : json :=
  JObject (jstr_omit "int64Value" (nv_Int64Value v)
           ++ jstr_omit "doubleValue" (nv_DoubleValue v)).

Definition json_of_Filter (f : Filter) : json :=
  JObject
    (field "fieldName" (JString (flt_FieldName f))
     ++ match flt_StringFilter f with
        | Some x =>
            field "stringFilter"
              (JObject [("matchType", JString (sf_MatchType x));
                        ("value", JString (sf_Value x));
                        ("caseSensitive", JBool (sf_CaseSensitive x))])
        | None => []
        end
     ++ match flt_NumericFilter f with
        | Some x =>
            field "numericFilter"
              (JObject [("operation", JString (nf_Operation x));
                        ("value", json_of_NumericValue (nf_Value x))])
        | None => []
        end
     ++ match flt_BetweenFilter f with
        | Some x =>
            field "betweenFilter"
              (JObject [("fromValue", json_of_NumericValue (bf_FromValue x));
                        ("toValue", json_of_NumericValue (bf_ToValue x))])
        | None => []
        end
     ++ match flt_InListFilter f with
        | Some x =>
            field "inListFilter"
              (JObject [("values", jslice (il_Values x));
                        ("caseSensitive", JBool (il_CaseSensitive x))])
        | None => []
        end).

Fixpoint json_of_FilterExpression (e : FilterExpression) : json :=
  match e with
  | Build_FilterExpression a o n f =>
      let group (k : string) (g : option (list FilterExpression)) :=
        match g with
        | Some l =>
            field k (JObject [("expressions",
                               JArray (map json_of_FilterExpression l))])
        | None => []
        end in
      JObject
        (group "andGroup" a
         ++ group "orGroup" o
         ++ match n with
            | Some x => field "notExpression" (json_of_FilterExpression x)
            | None => []
            end
         ++ match f with
            | Some x => field "filter" (json_of_Filter x)
            | None => []
            end)
  end.

Definition json_of_OrderBy (o : OrderBy) : json :=
  JObject
    (jbool_omit "desc" (ob_Desc o)
     ++ match ob_Dimension o with
        | Some d =>
            field "dimension"
              (JObject (field "dimensionName" (JString (dob_DimensionName d))
                        ++ jstr_omit "orderType" (dob_OrderType d)))
        | None => []
        end
     ++ match ob_Metric o with
        | Some m =>
            field "metric"
              (JObject [("metricName", JString (mob_MetricName m))])
        | None => []
        end).

Definition opt_list {A} (k : string) (l : list A) (enc : A -> json)
  : list (string * json) :=
  omitempty k (match l with [] => true | _ => false end) (JArray (map enc l)).

(** The [Property] field carries the tag [json:"-"]: it is not part of
    the encoding. *)
Definition json_of_RunReportRequest (r : RunReportRequest) : json :=
  JObject
    (opt_list "dimensions" (req_Dimensions r)
       (fun d => JObject (field "name" (JString (dim_Name d))
                          ++ jstr_omit "dimensionExpression"
                               (dim_DimensionExpression d)))
     ++ opt_list "metrics" (req_Metrics r)
          (fun m => JObject (field "name" (JString (met_Name m))
                             ++ jstr_omit "expression" (met_Expression m)))
     ++ field "dateRanges"
          (JArray (map (fun d =>
             JObject (field "startDate" (JString (dr_StartDate d))
                      ++ field "endDate" (JString (dr_EndDate d))
                      ++ jstr_omit "name" (dr_Name d)))
             (req_DateRanges r)))
     ++ match req_DimensionFilter r with
        | Some e => field "dimensionFilter" (json_of_FilterExpression e)
        | None => []
        end
     ++ match req_MetricFilter r with
        | Some e => field "metricFilter" (json_of_FilterExpression e)
        | None => []
        end
     ++ jint_omit "offset" (req_Offset r)
     ++ jint_omit "limit" (req_Limit r)
     ++ opt_list "metricAggregations" (req_MetricAggregations r) JString
     ++ opt_list "orderBys" (req_OrderBys r) json_of_OrderBy
     ++ jstr_omit "currencyCode" (req_CurrencyCode r)
     ++ jbool_omit "keepEmptyRows" (req_KeepEmptyRows r)
     ++ jbool_omit "returnPropertyQuota" (req_ReturnPropertyQuota r)).

Definition marshalRequest (r : RunReportRequest) : string :=
  encode (json_of_RunReportRequest r).

(** [(c *DataClient) generateQueryHash(request)] *)
Definition generateQueryHash (request : RunReportRequest) : string :=
  Sha256.hexdigest (marshalRequest request).

End api.

(* ====================================================================== *)
(** * package cache: the DuckDB cache client                              *)
(* ====================================================================== *)

Module cache.
Import time.

(** ** The tables of [initializeTables]

    A table is the list of its rows in storage order.  [metadata_cache]
    has primary key [property_id], [query_cache] has primary key
    [query_id]; [cache_stats] is represented by the row of the client's
    own preset, which [initializeTables] creates.  [named_tables] is left
    out: no function of the repository calls [CreateNamedTable], so the
    table stays empty and its foreign key never applies.  Statements are
    taken to succeed (no I/O failure, no cancelled context), and a
    timestamp is stored and read back exactly. *)

Record MetadataRow : Type := {
  mrow_property_id : string;
  mrow_cache_type : string;
  mrow_data : string;
  mrow_created_at : Time;
  mrow_expires_at : Time;
  mrow_last_accessed : Time
}.

Record QueryRow : Type := {
  qrow_query_id : string;
  qrow_property_id : string;
  qrow_query_hash : string;
  qrow_query_params : string;
  qrow_result_data : string;
  qrow_row_count : Z;
  qrow_created_at : Time;
  qrow_expires_at : option Time;
  qrow_last_accessed : Time
}.

Record StatsRow : Type := {
  total_hits : Z;
  total_misses : Z;
  last_cleanup : option Time;
  stats_created_at : Time;
  stats_updated_at : Time
}.

Record CacheClient : Type := {
  metadata_cache : list MetadataRow;
  query_cache : list QueryRow;
  cache_stats : StatsRow
}.

Definition with_metadata (c : CacheClient) (t : list MetadataRow) :=
  {| metadata_cache := t; query_cache := query_cache c;
     cache_stats := cache_stats c |}.
Definition with_query (c : CacheClient) (t : list QueryRow) :=
  {| metadata_cache := metadata_cache c; query_cache := t;
     cache_stats := cache_stats c |}.
Definition with_stats (c : CacheClient) (st : StatsRow) :=
  {| metadata_cache := metadata_cache c; query_cache := query_cache c;
     cache_stats := st |}.

(** ** SQL statements on one table *)

(** [INSERT OR REPLACE]: the row with the same primary key is replaced,
    otherwise the new row is added. *)
Fixpoint insert_or_replace {A} (same_key : A -> bool) (row : A) (t : list A)
  : list A :=
  match t with
  | [] => [row]
  | r :: rest =>
      if same_key r then row :: rest
      else r :: insert_or_replace same_key row rest
  end.

(** [DELETE FROM t WHERE p] and its [RowsAffected]. *)
Definition delete_where {A} (p : A -> bool) (t : list A) : list A :=
  filter (fun r => negb (p r)) t.
Definition rows_affected {A} (p : A -> bool) (t : list A) : Z :=
  Z.of_nat (List.length (filter p t)).

(** [UPDATE t SET ... WHERE p] *)
Definition update_where {A} (p : A -> bool) (set : A -> A) (t : list A)
  : list A :=
  map (fun r => if p r then set r else r) t.

(** [QueryRow]: the first row of [SELECT ... WHERE p], if any. *)
Definition query_row {A} (p : A -> bool) (t : list A) : option A := find p t.

Definition touch_metadata (now : Time) (r : MetadataRow) : MetadataRow :=
  {| mrow_property_id := mrow_property_id r;
     mrow_cache_type := mrow_cache_type r;
     mrow_data := mrow_data r;
     mrow_created_at := mrow_created_at r;
     mrow_expires_at := mrow_expires_at r;
     mrow_last_accessed := now |}.

Definition touch_query (now : Time) (r : QueryRow) : QueryRow :=
  {| qrow_query_id := qrow_query_id r;
     qrow_property_id := qrow_property_id r;
     qrow_query_hash := qrow_query_hash r;
     qrow_query_params := qrow_query_params r;
     qrow_result_data := qrow_result_data r;
     qrow_row_count := qrow_row_count r;
     qrow_created_at := qrow_created_at r;
     qrow_expires_at := qrow_expires_at r;
     qrow_last_accessed := now |}.

(** [expires_at < NOW()] and [expires_at IS NOT NULL AND expires_at <
    NOW()]; also [time.Now().After(expiresAt)]. *)
Definition metadata_expired (now : Time) (r : MetadataRow) : bool :=
  After now (mrow_expires_at r).
Definition query_expired (now : Time) (r : QueryRow) : bool :=
  match qrow_expires_at r with
  | Some e => After now e
  | None => false
  end.

(** ** Statistics *)

Definition incrementHits (now : Time) (c : CacheClient) : CacheClient :=
  let st := cache_stats c in
  with_stats c
    {| total_hits := total_hits st + 1;
       total_misses := total_misses st;
       last_cleanup := last_cleanup st;
       stats_created_at := stats_created_at st;
       stats_updated_at := now |}.

Definition incrementMisses (now : Time) (c : CacheClient) : CacheClient :=
  let st := cache_stats c in
  with_stats c
    {| total_hits := total_hits st;
       total_misses := total_misses st + 1;
       last_cleanup := last_cleanup st;
       stats_created_at := stats_created_at st;
       stats_updated_at := now |}.

(** ** Metadata *)

(** [CacheMetadata(ctx, propertyID, cacheType, data, ttlHours)];
    [jsonData] is the outcome of [json.Marshal(data)]. *)
Definition CacheMetadata (now : Time) (propertyID cacheType : string)
    (jsonData : result string) (ttlHours : Z) (c : CacheClient)
  : CacheClient * error :=
  match jsonData with
  | Err e => (c, Some (wrap "failed to marshal metadata" e))
  | Ok data =>
      let expiresAt := Add now (Hours ttlHours) in
      let row := {| mrow_property_id := propertyID;
                    mrow_cache_type := cacheType;
                    mrow_data := data;
                    mrow_created_at := now;
                    mrow_expires_at := expiresAt;
                    mrow_last_accessed := now |} in
      (with_metadata c
         (insert_or_replace
            (fun r => String.eqb (mrow_property_id r) propertyID)
            row (metadata_cache c)),
       None)
  end.

Definition metadata_key (propertyID cacheType : string) (r : MetadataRow)
  : bool :=
  String.eqb (mrow_property_id r) propertyID
  && String.eqb (mrow_cache_type r) cacheType.

(** [GetCachedMetadata(ctx, propertyID, cacheType, result)]; [unmarshal]
    is [json.Unmarshal] at the type of [result].  Returns what was
    stored into [result], the hit flag and the error. *)
Definition GetCachedMetadata {A} (now : Time) (propertyID cacheType : string)
    (unmarshal : string -> result A) (c : CacheClient)
  : CacheClient * (option A * bool * error) :=
  let key := metadata_key propertyID cacheType in
  match query_row key (metadata_cache c) with
  | None => (incrementMisses now c, (None, false, None))
  | Some row =>
      if After now (mrow_expires_at row) then
        let c1 := incrementMisses now c in
        (with_metadata c1 (delete_where key (metadata_cache c1)),
         (None, false, None))
      else
        let c1 := with_metadata c
                    (update_where key (touch_metadata now)
                       (metadata_cache c)) in
        match unmarshal (mrow_data row) with
        | Err e =>
            (c1, (None, false,
                  Some (wrap "failed to unmarshal cached data" e)))
        | Ok v => (incrementHits now c1, (Some v, true, None))
        end
  end.

(** ** Query results *)

(** [CacheQuery(ctx, queryID, propertyID, queryHash, queryParams,
    resultData, rowCount, ttlHours)]; [jsonParams] and [jsonData] are the
    outcomes of the two calls of [json.Marshal]. *)
Definition CacheQuery (now : Time) (queryID propertyID queryHash : string)
    (jsonParams jsonData : result string) (rowCount : Z)
    (ttlHours : option Z) (c : CacheClient)
  : CacheClient * error :=
  match jsonParams with
  | Err e => (c, Some (wrap "failed to marshal query params" e))
  | Ok params =>
      match jsonData with
      | Err e => (c, Some (wrap "failed to marshal result data" e))
      | Ok data =>
          let expiresAt :=
            match ttlHours with
            | Some h => Some (Add now (Hours h))
            | None => None
            end in
          let row := {| qrow_query_id := queryID;
                        qrow_property_id := propertyID;
                        qrow_query_hash := queryHash;
                        qrow_query_params := params;
                        qrow_result_data := data;
                        qrow_row_count := rowCount;
                        qrow_created_at := now;
                        qrow_expires_at := expiresAt;
                        qrow_last_accessed := now |} in
          (with_query c
             (insert_or_replace
                (fun r => String.eqb (qrow_query_id r) queryID)
                row (query_cache c)),
           None)
      end
  end.

Definition query_key (queryHash : string) (r : QueryRow) : bool :=
  String.eqb (qrow_query_hash r) queryHash.

(** [GetCachedQuery(ctx, queryHash, queryParams, resultData)] *)
Definition GetCachedQuery {A} (now : Time) (queryHash : string)
    (unmarshal : string -> result A) (c : CacheClient)
  : CacheClient * (option A * bool * error) :=
  let key := query_key queryHash in
  match query_row key (query_cache c) with
  | None => (incrementMisses now c, (None, false, None))
  | Some row =>
      if match qrow_expires_at row with
         | Some e => After now e
         | None => false
         end
      then
        let c1 := incrementMisses now c in
        (with_query c1 (delete_where key (query_cache c1)),
         (None, false, None))
      else
        let c1 := with_query c
                    (update_where key (touch_query now) (query_cache c)) in
        match unmarshal (qrow_result_data row) with
        | Err e =>
            (c1, (None, false,
                  Some (wrap "failed to unmarshal cached data" e)))
        | Ok v => (incrementHits now c1, (Some v, true, None))
        end
  end.

(** [CleanupExpiredEntries(ctx)] *)
Definition CleanupExpiredEntries (now : Time) (c : CacheClient)
  : CacheClient * (Z * error) :=
  let deleted1 := rows_affected (metadata_expired now) (metadata_cache c) in
  let c1 := with_metadata c
              (delete_where (metadata_expired now) (metadata_cache c)) in
  let deleted2 := rows_affected (query_expired now) (query_cache c1) in
  let c2 := with_query c1
              (delete_where (query_expired now) (query_cache c1)) in
  let st := cache_stats c2 in
  (with_stats c2
     {| total_hits := total_hits st;
        total_misses := total_misses st;
        last_cleanup := Some now;
        stats_created_at := stats_created_at st;
        stats_updated_at := now |},
   (deleted1 + deleted2, None)).

(** The primary keys. *)
Definition primary_keys (c : CacheClient) : Prop :=
  NoDup (map mrow_property_id (metadata_cache c))
  /\ NoDup (map qrow_query_id (query_cache c)).

End cache.

(* ====================================================================== *)
(** * package api: the data client (data.go)                              *)
(* ====================================================================== *)

Module dataclient.
Import api time Strconv.

(** [CacheInterface], the caching contract; every method is given the
    reading of the wall clock it runs at.  [Close] has no part in what
    follows. *)
Class CacheInterface (C : Type) : Type := {
  GetCachedMetadata :
    forall A : Type, Time -> string -> string -> (string -> result A) ->
                     C -> C * (option A * bool * error);
  CacheMetadata :
    Time -> string -> string -> result string -> Z -> C -> C * error;
  GetCachedQuery :
    forall A : Type, Time -> string -> (string -> result A) ->
                     C -> C * (option A * bool * error);
  CacheQuery :
    Time -> string -> string -> string -> result string -> result string ->
    Z -> option Z -> C -> C * error
}.

#[export] Instance CacheClient_CacheInterface
  : CacheInterface cache.CacheClient := {
  GetCachedMetadata := @cache.GetCachedMetadata;
  CacheMetadata := cache.CacheMetadata;
  GetCachedQuery := @cache.GetCachedQuery;
  CacheQuery := cache.CacheQuery
}.

(** ** The collaborators outside the repository *)

(** What [httpClient.Post] gives back: an error, or a response with its
    [StatusCode], [Status] and body. *)
Inductive HttpResult : Type :=
| PostError (msg : string)
| Response (StatusCode : Z) (Status : string) (Body : string).

(** The reporting gateway, the JSON codec of [RunReportResponse] and the
    wall clock: [authenticate] is the error of
    [authClient.AuthenticatedHTTPClient], [post url body] the outcome of
    the POST, [clock n] the n-th reading of [time.Now()]. *)
Record Remote : Type := {
  authenticate : error;
  post : string -> string -> HttpResult;
  decodeResponse : string -> result RunReportResponse;
  marshalResponse : RunReportResponse -> result string;
  unmarshalResponse : string -> result RunReportResponse;
  clock : nat -> Time
}.

(** What went out to the gateway. *)
Inductive Event : Type :=
| Authenticate
| Post (url body : string).

(** The data client with its surroundings: the cache client (nil for
    [NewDataClient]), the number of clock readings so far, and the calls
    made to the gateway, latest first. *)
Record DataClient (C : Type) : Type := {
  cacheClient : option C;
  ticks : nat;
  trace : list Event
}.
Arguments cacheClient {C} d.
Arguments ticks {C} d.
Arguments trace {C} d.

Definition baseURL : string := "https://analyticsdata.googleapis.com/v1beta".

Section Client.
Context {C : Type} `{CacheInterface C} (remote : Remote).

(** [time.Now()] *)
Definition time_Now (d : DataClient C) : Time * DataClient C :=
  (clock remote (ticks d),
   {| cacheClient := cacheClient d; ticks := S (ticks d);
      trace := trace d |}).

Definition emit (e : Event) (d : DataClient C) : DataClient C :=
  {| cacheClient := cacheClient d; ticks := ticks d;
     trace := e :: trace d |}.

Definition with_cache (d : DataClient C) (c : C) : DataClient C :=
  {| cacheClient := Some c; ticks := ticks d; trace := trace d |}.

(** The zero value of [RunReportResponse]. *)
Definition zero_response : RunReportResponse :=
  {| resp_DimensionHeaders := []; resp_MetricHeaders := [];
     resp_Rows := []; resp_Totals := []; resp_Maximums := [];
     resp_Minimums := []; resp_RowCount := 0;
     resp_Metadata := {| rm_CurrencyCode := ""; rm_TimeZone := "";
                         rm_EmptyReason := "";
                         rm_DataLossFromOtherRow := false |};
     resp_PropertyQuota := None; resp_Kind := "" |}.

(** "Try cache first if available": the hash and, on a hit, the cached
    response. *)
Definition probe (request : RunReportRequest) (d : DataClient C)
  : DataClient C * string * option RunReportResponse :=
  match cacheClient d with
  | None => (d, "", None)
  | Some c =>
      let queryHash := generateQueryHash request in
      let '(now, d1) := time_Now d in
      let '(c1, (cached, found, err)) :=
        GetCachedQuery RunReportResponse now queryHash
          (unmarshalResponse remote) c in
      let d2 := with_cache d1 c1 in
      match err, found with
      | None, true =>
          (d2, queryHash,
           Some match cached with Some r => r | None => zero_response end)
      | _, _ => (d2, queryHash, None)
      end
  end.

(** "Cache the result for 1 hour if caching is available" *)
Definition store (request : RunReportRequest) (queryHash : string)
    (reportResponse : RunReportResponse) (d : DataClient C)
  : DataClient C :=
  match cacheClient d with
  | None => d
  | Some c =>
      if String.eqb queryHash "" then d
      else
        let '(t, d1) := time_Now d in
        let queryID := "query_" +++ FormatInt (Unix t) in
        let ttl := 1 in
        let '(now, d2) := time_Now d1 in
        let '(c1, _) :=
          CacheQuery now queryID (req_Property request) queryHash
            (Ok (marshalRequest request))
            (marshalResponse remote reportResponse)
            (resp_RowCount reportResponse) (Some ttl) c in
        with_cache d2 c1
  end.

(** [(c *DataClient) RunReport(ctx, request)] *)
Definition RunReport (request : RunReportRequest) (d : DataClient C)
  : DataClient C * result RunReportResponse :=
  if String.eqb (req_Property request) "" then
    (d, Err "property ID is required")
  else if (List.length (req_DateRanges request) =? 0)%nat then
    (d, Err "at least one date range is required")
  else
    let request :=
      if req_Limit request =? 0 then set_req_Limit request 10000
      else request in
    if 250000 <? req_Limit request then
      (d, Err "limit cannot exceed 250,000 rows")
    else
      let '(d1, queryHash, cached) := probe request d in
      match cached with
      | Some r => (d1, Ok r)
      | None =>
          let d2 := emit Authenticate d1 in
          match authenticate remote with
          | Some e =>
              (d2, Err (wrap "failed to get authenticated HTTP client" e))
          | None =>
              let url := baseURL +++ "/properties/"
                         +++ req_Property request +++ ":runReport" in
              let jsonData := marshalRequest request in
              let d3 := emit (Post url jsonData) d2 in
              match post remote url jsonData with
              | PostError e =>
                  (d3, Err (wrap "failed to make request to GA4 Data API"
                              e))
              | Response code status body =>
                  if code =? 404 then
                    (d3, Err ("property " +++ req_Property request
                              +++ " not found or not accessible"))
                  else if negb (code =? 200) then
                    (d3, Err ("GA4 Data API returned status "
                              +++ FormatInt code +++ ": " +++ status))
                  else
                    match decodeResponse remote body with
                    | Err e =>
                        (d3, Err (wrap "failed to decode report response"
                                    e))
                    | Ok reportResponse =>
                        (store request queryHash reportResponse d3,
                         Ok reportResponse)
                    end
              end
          end
      end.

End Client.

End dataclient.

(* ====================================================================== *)
(** * package query: models (models.go)                                   *)
(* ====================================================================== *)

Module query.
Import api dataclient time Strconv Float64 Ftoa Json.

Record FilterConfig : Type := {
  fc_FieldName : string;
  fc_Type : string;
  fc_StringMatchType : string;
  fc_StringValue : string;
  fc_StringCaseSensitive : bool;
  fc_NumericOperation : string;
  fc_NumericValue : float64;
  fc_BetweenFrom : float64;
  fc_BetweenTo : float64;
  fc_InListValues : option (list string);
  fc_InListCaseSensitive : bool;
  fc_LogicOperator : string
}.

Record OrderByConfig : Type := {
  obc_FieldName : string;
  obc_FieldType : string;
  obc_Descending : bool;
  obc_OrderType : string
}.

(** [Dimensions], [Metrics] and [InListValues] are slices of which
    [encoding/json] tells nil ([None]) from empty. *)
Record QueryConfig : Type := {
  qc_PropertyID : string;
  qc_Name : string;
  qc_Description : string;
  qc_Dimensions : option (list string);
  qc_Metrics : option (list string);
  qc_StartDate : string;
  qc_EndDate : string;
  qc_Limit : Z;
  qc_Offset : Z;
  qc_KeepEmptyRows : bool;
  qc_MetricAggregations : list string;
  qc_CurrencyCode : string;
  qc_ReturnPropertyQuota : bool;
  qc_Filters : list FilterConfig;
  qc_OrderBy : list OrderByConfig;
  qc_CreatedAt : Time;
  qc_UpdatedAt : Time;
  qc_CreatedBy : string
}.

Record QueryResult : Type := {
  qr_QueryID : string;
  qr_PropertyID : string;
  qr_QueryHash : string;
  qr_QueryConfig : option QueryConfig;
  qr_ExecutedAt : Time;
  qr_ExecutionTime : string;
  qr_RowCount : Z;
  qr_FromCache : bool;
  qr_DimensionHeaders : list DimensionHeader;
  qr_MetricHeaders : list MetricHeader;
  qr_Rows : list Row;
  qr_Totals : list Row;
  qr_Maximums : list Row;
  qr_Minimums : list Row;
  qr_ResponseMetadata : option ResponseMetadata;
  qr_PropertyQuota : option PropertyQuota;
  qr_Error : string
}.

Record QueryTemplate : Type := {
  qt_Name : string;
  qt_Description : string;
  qt_Category : string;
  qt_Query : option QueryConfig;
  qt_CreatedAt : Time;
  qt_UpdatedAt : Time;
  qt_UsageCount : Z;
  qt_LastUsed : option Time
}.

(** The elements of a slice that may be nil. *)
Definition elems {A} (s : option (list A)) : list A :=
  match s with
  | Some l => l
  | None => []
  end.

Definition len {A} (l : list A) : Z := Z.of_nat (List.length l).

(** ** Assignments to single fields *)

Definition set_Limit (c : QueryConfig) (v : Z) : QueryConfig :=
  {| qc_PropertyID := qc_PropertyID c; qc_Name := qc_Name c;
     qc_Description := qc_Description c; qc_Dimensions := qc_Dimensions c;
     qc_Metrics := qc_Metrics c; qc_StartDate := qc_StartDate c;
     qc_EndDate := qc_EndDate c; qc_Limit := v; qc_Offset := qc_Offset c;
     qc_KeepEmptyRows := qc_KeepEmptyRows c;
     qc_MetricAggregations := qc_MetricAggregations c;
     qc_CurrencyCode := qc_CurrencyCode c;
     qc_ReturnPropertyQuota := qc_ReturnPropertyQuota c;
     qc_Filters := qc_Filters c; qc_OrderBy := qc_OrderBy c;
     qc_CreatedAt := qc_CreatedAt c; qc_UpdatedAt := qc_UpdatedAt c;
     qc_CreatedBy := qc_CreatedBy c |}.

Definition set_Offset (c : QueryConfig) (v : Z) : QueryConfig :=
  {| qc_PropertyID := qc_PropertyID c; qc_Name := qc_Name c;
     qc_Description := qc_Description c; qc_Dimensions := qc_Dimensions c;
     qc_Metrics := qc_Metrics c; qc_StartDate := qc_StartDate c;
     qc_EndDate := qc_EndDate c; qc_Limit := qc_Limit c; qc_Offset := v;
     qc_KeepEmptyRows := qc_KeepEmptyRows c;
     qc_MetricAggregations := qc_MetricAggregations c;
     qc_CurrencyCode := qc_CurrencyCode c;
     qc_ReturnPropertyQuota := qc_ReturnPropertyQuota c;
     qc_Filters := qc_Filters c; qc_OrderBy := qc_OrderBy c;
     qc_CreatedAt := qc_CreatedAt c; qc_UpdatedAt := qc_UpdatedAt c;
     qc_CreatedBy := qc_CreatedBy c |}.

Definition set_StartDate (c : QueryConfig) (v : string) : QueryConfig :=
  {| qc_PropertyID := qc_PropertyID c; qc_Name := qc_Name c;
     qc_Description := qc_Description c; qc_Dimensions := qc_Dimensions c;
     qc_Metrics := qc_Metrics c; qc_StartDate := v;
     qc_EndDate := qc_EndDate c; qc_Limit := qc_Limit c;
     qc_Offset := qc_Offset c; qc_KeepEmptyRows := qc_KeepEmptyRows c;
     qc_MetricAggregations := qc_MetricAggregations c;
     qc_CurrencyCode := qc_CurrencyCode c;
     qc_ReturnPropertyQuota := qc_ReturnPropertyQuota c;
     qc_Filters := qc_Filters c; qc_OrderBy := qc_OrderBy c;
     qc_CreatedAt := qc_CreatedAt c; qc_UpdatedAt := qc_UpdatedAt c;
     qc_CreatedBy := qc_CreatedBy c |}.

Definition set_EndDate (c : QueryConfig) (v : string) : QueryConfig :=
  {| qc_PropertyID := qc_PropertyID c; qc_Name := qc_Name c;
     qc_Description := qc_Description c; qc_Dimensions := qc_Dimensions c;
     qc_Metrics := qc_Metrics c; qc_StartDate := qc_StartDate c;
     qc_EndDate := v; qc_Limit := qc_Limit c;
     qc_Offset := qc_Offset c; qc_KeepEmptyRows := qc_KeepEmptyRows c;
     qc_MetricAggregations := qc_MetricAggregations c;
     qc_CurrencyCode := qc_CurrencyCode c;
     qc_ReturnPropertyQuota := qc_ReturnPropertyQuota c;
     qc_Filters := qc_Filters c; qc_OrderBy := qc_OrderBy c;
     qc_CreatedAt := qc_CreatedAt c; qc_UpdatedAt := qc_UpdatedAt c;
     qc_CreatedBy := qc_CreatedBy c |}.

Definition set_Type (f : FilterConfig) (v : string) : FilterConfig :=
  {| fc_FieldName := fc_FieldName f; fc_Type := v;
     fc_StringMatchType := fc_StringMatchType f;
     fc_StringValue := fc_StringValue f;
     fc_StringCaseSensitive := fc_StringCaseSensitive f;
     fc_NumericOperation := fc_NumericOperation f;
     fc_NumericValue := fc_NumericValue f;
     fc_BetweenFrom := fc_BetweenFrom f; fc_BetweenTo := fc_BetweenTo f;
     fc_InListValues := fc_InListValues f;
     fc_InListCaseSensitive := fc_InListCaseSensitive f;
     fc_LogicOperator := fc_LogicOperator f |}.

Definition set_StringMatchType (f : FilterConfig) (v : string)
  : FilterConfig :=
  {| fc_FieldName := fc_FieldName f; fc_Type := fc_Type f;
     fc_StringMatchType := v;
     fc_StringValue := fc_StringValue f;
     fc_StringCaseSensitive := fc_StringCaseSensitive f;
     fc_NumericOperation := fc_NumericOperation f;
     fc_NumericValue := fc_NumericValue f;
     fc_BetweenFrom := fc_BetweenFrom f; fc_BetweenTo := fc_BetweenTo f;
     fc_InListValues := fc_InListValues f;
     fc_InListCaseSensitive := fc_InListCaseSensitive f;
     fc_LogicOperator := fc_LogicOperator f |}.

Definition set_FieldType (o : OrderByConfig) (v : string) : OrderByConfig :=
  {| obc_FieldName := obc_FieldName o; obc_FieldType := v;
     obc_Descending := obc_Descending o; obc_OrderType := obc_OrderType o |}.

(** ** [json.Marshal(config)], following the struct tags; [None] is a
    marshalling error. *)

Definition fields_of (parts : list (option (list (string * json))))
  : option (list (string * json)) :=
  fold_right
    (fun p acc =>
       match p, acc with
       | Some a, Some b => Some (a ++ b)%list
       | _, _ => None
       end)
    (Some []) parts.

Definition jfloat_omit (k : string) (f : float64)
  : option (list (string * json)) :=
  if float_is_zero f then Some []
  else match jfloat f with
       | Some j => Some [(k, j)]
       | None => None
       end.

Definition jtime (k : string) (t : Time) : option (list (string * json)) :=
  match MarshalText t with
  | Some s => Some [(k, JString s)]
  | None => None
  end.

Definition json_of_FilterConfig (f : FilterConfig) : option json :=
  option_map JObject
    (fields_of
       [Some (field "field_name" (JString (fc_FieldName f)));
        Some (field "type" (JString (fc_Type f)));
        Some (jstr_omit "string_match_type" (fc_StringMatchType f));
        Some (jstr_omit "string_value" (fc_StringValue f));
        Some (jbool_omit "string_case_sensitive" (fc_StringCaseSensitive f));
        Some (jstr_omit "numeric_operation" (fc_NumericOperation f));
        jfloat_omit "numeric_value" (fc_NumericValue f);
        jfloat_omit "between_from" (fc_BetweenFrom f);
        jfloat_omit "between_to" (fc_BetweenTo f);
        Some (omitempty "in_list_values"
                (match elems (fc_InListValues f) with
                 | [] => true | _ => false end)
                (jstrings (elems (fc_InListValues f))));
        Some (jbool_omit "in_list_case_sensitive"
                (fc_InListCaseSensitive f));
        Some (jstr_omit "logic_operator" (fc_LogicOperator f))]).

Definition json_of_OrderByConfig (o : OrderByConfig) : json :=
  JObject
    (field "field_name" (JString (obc_FieldName o))
     ++ field "field_type" (JString (obc_FieldType o))
     ++ field "descending" (JBool (obc_Descending o))
     ++ jstr_omit "order_type" (obc_OrderType o)).

Fixpoint all_some {A} (l : list (option A)) : option (list A) :=
  match l with
  | [] => Some []
  | Some a :: rest => option_map (cons a) (all_some rest)
  | None :: _ => None
  end.

Definition json_of_QueryConfig (c : QueryConfig) : option json :=
  option_map JObject
    (fields_of
       [Some (field "property_id" (JString (qc_PropertyID c)));
        Some (jstr_omit "name" (qc_Name c));
        Some (jstr_omit "description" (qc_Description c));
        Some (field "dimensions" (jslice (qc_Dimensions c)));
        Some (field "metrics" (jslice (qc_Metrics c)));
        Some (field "start_date" (JString (qc_StartDate c)));
        Some (field "end_date" (JString (qc_EndDate c)));
        Some (jint_omit "limit" (qc_Limit c));
        Some (jint_omit "offset" (qc_Offset c));
        Some (jbool_omit "keep_empty_rows" (qc_KeepEmptyRows c));
        Some (opt_list "metric_aggregations" (qc_MetricAggregations c)
                JString);
        Some (jstr_omit "currency_code" (qc_CurrencyCode c));
        Some (jbool_omit "return_property_quota"
                (qc_ReturnPropertyQuota c));
        match qc_Filters c with
        | [] => Some []
        | fs => option_map (fun js => field "filters" (JArray js))
                  (all_some (map json_of_FilterConfig fs))
        end;
        Some (opt_list "order_by" (qc_OrderBy c) json_of_OrderByConfig);
        jtime "created_at" (qc_CreatedAt c);
        jtime "updated_at" (qc_UpdatedAt c);
        Some (jstr_omit "created_by" (qc_CreatedBy c))]).

Definition marshalConfig (c : QueryConfig) : option string :=
  option_map encode (json_of_QueryConfig c).

End query.

(* ====================================================================== *)
(** * package query: the executor (executor.go)                           *)
(* ====================================================================== *)

Module executor.
Import api dataclient query time Strconv Float64 Ftoa Json.
Local Open Scope go_scope.

(** ** Validation *)

(** [validateFilter(filter *FilterConfig)]: the filter as the call leaves
    it, and the error. *)
Definition validateFilter (filter : FilterConfig) : FilterConfig * error :=
  if String.eqb (fc_FieldName filter) "" then
    (filter, Some "field name is required")
  else if String.eqb (fc_Type filter) "string" then
    let filter :=
      if String.eqb (fc_StringMatchType filter) ""
      then set_StringMatchType filter "EXACT"
      else filter in
    if String.eqb (fc_StringValue filter) "" then
      (filter, Some "string value is required for string filter")
    else
      let validMatchTypes :=
        ["EXACT"; "CONTAINS"; "STARTS_WITH"; "ENDS_WITH"; "REGEX"] in
      if negb (contains validMatchTypes (fc_StringMatchType filter)) then
        (filter, Some ("invalid string match type: "
                       +++ fc_StringMatchType filter))
      else (filter, None)
  else if String.eqb (fc_Type filter) "numeric" then
    if String.eqb (fc_NumericOperation filter) "" then
      (filter, Some "numeric operation is required for numeric filter")
    else
      let validOperations :=
        ["EQUAL"; "GREATER_THAN"; "LESS_THAN"; "GREATER_THAN_OR_EQUAL";
         "LESS_THAN_OR_EQUAL"] in
      if negb (contains validOperations (fc_NumericOperation filter)) then
        (filter, Some ("invalid numeric operation: "
                       +++ fc_NumericOperation filter))
      else (filter, None)
  else if String.eqb (fc_Type filter) "between" then
    if Float64.geb (fc_BetweenFrom filter) (fc_BetweenTo filter) then
      (filter,
       Some "between filter 'from' value must be less than 'to' value")
    else (filter, None)
  else if String.eqb (fc_Type filter) "in_list" then
    if len (elems (fc_InListValues filter)) =? 0 then
      (filter, Some "in-list values are required for in_list filter")
    else (filter, None)
  else
    if String.eqb (fc_Type filter) "" then
      (set_Type filter "string", None)
    else
      (filter, Some ("invalid filter type: " +++ fc_Type filter)).

(** [validateOrderBy(orderBy *OrderByConfig, config *QueryConfig)] *)
Definition validateOrderBy (orderBy : OrderByConfig) (config : QueryConfig)
  : OrderByConfig * error :=
  if String.eqb (obc_FieldName orderBy) "" then
    (orderBy, Some "field name is required for order by")
  else if String.eqb (obc_FieldType orderBy) "dimension" then
    if negb (contains (elems (qc_Dimensions config))
               (obc_FieldName orderBy)) then
      (orderBy, Some ("dimension '" +++ obc_FieldName orderBy
                      +++ "' not found in query dimensions"))
    else if negb (String.eqb (obc_OrderType orderBy) "") then
      let validTypes :=
        ["ALPHANUMERIC"; "CASE_INSENSITIVE_ALPHANUMERIC"; "NUMERIC"] in
      if negb (contains validTypes (obc_OrderType orderBy)) then
        (orderBy, Some ("invalid order type for dimension: "
                        +++ obc_OrderType orderBy))
      else (orderBy, None)
    else (orderBy, None)
  else if String.eqb (obc_FieldType orderBy) "metric" then
    if negb (contains (elems (qc_Metrics config)) (obc_FieldName orderBy))
    then
      (orderBy, Some ("metric '" +++ obc_FieldName orderBy
                      +++ "' not found in query metrics"))
    else (orderBy, None)
  else
    if contains (elems (qc_Dimensions config)) (obc_FieldName orderBy) then
      (set_FieldType orderBy "dimension", None)
    else if contains (elems (qc_Metrics config)) (obc_FieldName orderBy)
    then (set_FieldType orderBy "metric", None)
    else
      (orderBy, Some ("field '" +++ obc_FieldName orderBy
                      +++ "' not found in dimensions or metrics")).

(** [for i, filter := range config.Filters]: the loop variable is a
    copy of the element, and [validateFilter(&filter)] writes to that
    copy; the slice keeps its elements.  [i] counts from 0. *)
Fixpoint validateFilters (i : Z) (filters : list FilterConfig) : error :=
  match filters with
  | [] => None
  | filter :: rest =>
      match snd (validateFilter filter) with
      | Some err =>
          Some ("filter " +++ FormatInt (i + 1) +++ " is invalid: " +++ err)
      | None => validateFilters (i + 1) rest
      end
  end.

(** [for i, orderBy := range config.OrderBy], likewise on copies. *)
Fixpoint validateOrderBys (i : Z) (orderBys : list OrderByConfig)
    (config : QueryConfig) : error :=
  match orderBys with
  | [] => None
  | orderBy :: rest =>
      match snd (validateOrderBy orderBy config) with
      | Some err =>
          Some ("order by " +++ FormatInt (i + 1) +++ " is invalid: "
                +++ err)
      | None => validateOrderBys (i + 1) rest config
      end
  end.

(** [validateQuery(config *QueryConfig)]: the configuration as the call
    leaves it, and the error. *)
Definition validateQuery (config : QueryConfig) : QueryConfig * error :=
  if String.eqb (qc_PropertyID config) "" then
    (config, Some "property ID is required")
  else if String.eqb (qc_StartDate config) ""
          || String.eqb (qc_EndDate config) "" then
    (config, Some "date range is required (start_date and end_date)")
  else if (len (elems (qc_Dimensions config)) =? 0)
          && (len (elems (qc_Metrics config)) =? 0) then
    (config, Some "at least one dimension or metric is required")
  else if 250000 <? qc_Limit config then
    (config, Some "limit cannot exceed 250,000 rows")
  else
    let config :=
      if qc_Limit config <=? 0 then set_Limit config 10000 else config in
    if qc_Offset config <? 0 then
      (config, Some "offset cannot be negative")
    else
      match validateFilters 0 (qc_Filters config) with
      | Some err => (config, Some err)
      | None =>
          match validateOrderBys 0 (qc_OrderBy config) config with
          | Some err => (config, Some err)
          | None => (config, None)
          end
      end.

Section Platform.

(** What [int64(f)] gives for a float64 outside the range of int64 on
    the platform the program runs on. *)
Variable overflow : float64 -> Z.

(** ** Translation to the request of the reporting API *)

(** [convertSingleFilter(filter FilterConfig)] *)
Definition convertSingleFilter (filter : FilterConfig)
  : result FilterExpression :=
  let leaf (sf : option StringFilter) (nf : option NumericFilter)
           (bf : option BetweenFilter) (il : option InListFilter) :=
    Ok {| fe_AndGroup := None; fe_OrGroup := None;
          fe_NotExpression := None;
          fe_Filter := Some {| flt_FieldName := fc_FieldName filter;
                               flt_StringFilter := sf;
                               flt_NumericFilter := nf;
                               flt_BetweenFilter := bf;
                               flt_InListFilter := il |} |} in
  if String.eqb (fc_Type filter) "string" then
    leaf (Some {| sf_MatchType := fc_StringMatchType filter;
                  sf_Value := fc_StringValue filter;
                  sf_CaseSensitive := fc_StringCaseSensitive filter |})
         None None None
  else if String.eqb (fc_Type filter) "numeric" then
    let value :=
      if Float64.eqb (fc_NumericValue filter)
           (of_int64 (to_int64 overflow (fc_NumericValue filter)))
      then {| nv_Int64Value :=
                FormatInt (to_int64 overflow (fc_NumericValue filter));
              nv_DoubleValue := "" |}
      else {| nv_Int64Value := "";
              nv_DoubleValue := FormatFloat (fc_NumericValue filter) |} in
    leaf None
         (Some {| nf_Operation := fc_NumericOperation filter;
                  nf_Value := value |})
         None None
  else if String.eqb (fc_Type filter) "between" then
    let fromValue :=
      if Float64.eqb (fc_BetweenFrom filter)
           (of_int64 (to_int64 overflow (fc_BetweenFrom filter)))
      then {| nv_Int64Value :=
                FormatInt (to_int64 overflow (fc_BetweenFrom filter));
              nv_DoubleValue := "" |}
      else {| nv_Int64Value := "";
              nv_DoubleValue := FormatFloat (fc_BetweenFrom filter) |} in
    let toValue :=
      if Float64.eqb (fc_BetweenTo filter)
           (of_int64 (to_int64 overflow (fc_BetweenTo filter)))
      then {| nv_Int64Value :=
                FormatInt (to_int64 overflow (fc_BetweenTo filter));
              nv_DoubleValue := "" |}
      else {| nv_Int64Value := "";
              nv_DoubleValue := FormatFloat (fc_BetweenTo filter) |} in
    leaf None None
         (Some {| bf_FromValue := fromValue; bf_ToValue := toValue |})
         None
  else if String.eqb (fc_Type filter) "in_list" then
    leaf None None None
         (Some {| il_Values := fc_InListValues filter;
                  il_CaseSensitive := fc_InListCaseSensitive filter |})
  else Err ("unsupported filter type: " +++ fc_Type filter).

(** The loop of [convertFilters]: the expressions in order, or the
    first error. *)
Fixpoint convertEach (filters : list FilterConfig)
  : result (list FilterExpression) :=
  match filters with
  | [] => Ok []
  | filter :: rest =>
      expr <- convertSingleFilter filter ;;
      expressions <- convertEach rest ;;
      Ok (expr :: expressions)
  end.

(** [convertFilters(filters []FilterConfig)] *)
Definition convertFilters (filters : list FilterConfig)
  : result (option FilterExpression) :=
  if len filters =? 0 then Ok None
  else
    expressions <- convertEach filters ;;
    match expressions with
    | [expr] => Ok (Some expr)
    | _ =>
        Ok (Some {| fe_AndGroup := Some expressions; fe_OrGroup := None;
                    fe_NotExpression := None; fe_Filter := None |})
    end.

(** [configToRequest(config *QueryConfig)] *)
Definition configToRequest (config : QueryConfig)
  : result RunReportRequest :=
  let dimensions :=
    map (fun dimName => {| dim_Name := dimName;
                           dim_DimensionExpression := "" |})
        (elems (qc_Dimensions config)) in
  let metrics :=
    map (fun metricName => {| met_Name := metricName;
                              met_Expression := "" |})
        (elems (qc_Metrics config)) in
  dimensionFilter <-
    (if 0 <? len (qc_Filters config) then
       match convertFilters (qc_Filters config) with
       | Err err => Err (wrap "failed to convert filters" err)
       | Ok filterExpr => Ok filterExpr
       end
     else Ok None) ;;
  let orderBys :=
    map (fun orderBy =>
           if String.eqb (obc_FieldType orderBy) "dimension" then
             {| ob_Desc := obc_Descending orderBy;
                ob_Dimension :=
                  Some {| dob_DimensionName := obc_FieldName orderBy;
                          dob_OrderType := obc_OrderType orderBy |};
                ob_Metric := None |}
           else
             {| ob_Desc := obc_Descending orderBy;
                ob_Dimension := None;
                ob_Metric :=
                  Some {| mob_MetricName := obc_FieldName orderBy |} |})
        (qc_OrderBy config) in
  Ok {| req_Property := qc_PropertyID config;
        req_Dimensions := dimensions;
        req_Metrics := metrics;
        req_DateRanges := [{| dr_StartDate := qc_StartDate config;
                              dr_EndDate := qc_EndDate config;
                              dr_Name := "" |}];
        req_DimensionFilter := dimensionFilter;
        req_MetricFilter := None;
        req_Offset := qc_Offset config;
        req_Limit := qc_Limit config;
        req_MetricAggregations := qc_MetricAggregations config;
        req_OrderBys := orderBys;
        req_CurrencyCode := qc_CurrencyCode config;
        req_KeepEmptyRows := qc_KeepEmptyRows config;
        req_ReturnPropertyQuota := qc_ReturnPropertyQuota config |}.

End Platform.

(** ** Identifiers *)

(** [generateQueryID(config)], at the reading [now] of [time.Now()] *)
Definition generateQueryID (config : QueryConfig) (now : Time) : string :=
  "query_" +++ FormatInt (Unix now).

(** [generateQueryHash(config)]; the error of [json.Marshal] is dropped
    and the hash is then the one of no data. *)
Definition generateQueryHash (config : QueryConfig) : string :=
  let data := match marshalConfig config with
              | Some bytes => bytes
              | None => ""
              end in
  Sha256.hexdigest data.

(** ** Template overrides *)

(** A value of type [interface{}], by its dynamic type. *)
Inductive value : Type :=
| VString (s : string)
| VInt64 (n : Z)
| VInt (n : Z)
| VOther.

(** The body of the loop of [applyOverrides] for one key. *)
Definition applyOverride (config : QueryConfig) (kv : string * value)
  : QueryConfig :=
  let '(key, v) := kv in
  if String.eqb key "start_date" then
    match v with VString str => set_StartDate config str | _ => config end
  else if String.eqb key "end_date" then
    match v with VString str => set_EndDate config str | _ => config end
  else if String.eqb key "limit" then
    match v with
    | VInt64 num => set_Limit config num
    | VInt num => set_Limit config num
    | _ => config
    end
  else if String.eqb key "offset" then
    match v with
    | VInt64 num => set_Offset config num
    | VInt num => set_Offset config num
    | _ => config
    end
  else config.

(** [applyOverrides(config, overrides)]; the map is the list of its
    entries in the order the [range] loop meets them. *)
Definition applyOverrides (config : QueryConfig)
    (overrides : list (string * value)) : QueryConfig * error :=
  (fold_left applyOverride overrides config, None).

(** ** Execution *)

Section Execute.
Context {C : Type} `{CacheInterface C}.
Variable overflow : float64 -> Z.
Variable remote : Remote.

(** [Execute(ctx, config)]: the data client and the configuration as
    the call leaves them, and the two results. *)
Definition Execute (config : QueryConfig) (d : DataClient C)
  : DataClient C * QueryConfig * (option QueryResult * error) :=
  let '(startTime, d) := time_Now remote d in
  let '(config, verr) := validateQuery config in
  match verr with
  | Some err =>
      (d, config, (None, Some (wrap "query validation failed" err)))
  | None =>
      match configToRequest overflow config with
      | Err err =>
          (d, config,
           (None,
            Some (wrap "failed to convert query config to API request"
                    err)))
      | Ok request =>
          let '(d, res) := RunReport remote request d in
          (* both result literals start with the same three fields *)
          let '(t1, d) := time_Now remote d in
          let queryID := generateQueryID config t1 in
          let queryHash := generateQueryHash config in
          let '(t2, d) := time_Now remote d in
          let executionTime := DurationString (Sub t2 startTime) in
          match res with
          | Err err =>
              (d, config,
               (Some {| qr_QueryID := queryID;
                        qr_PropertyID := qc_PropertyID config;
                        qr_QueryHash := queryHash;
                        qr_QueryConfig := Some config;
                        qr_ExecutedAt := startTime;
                        qr_ExecutionTime := executionTime;
                        qr_RowCount := 0;
                        qr_FromCache := false;
                        qr_DimensionHeaders := [];
                        qr_MetricHeaders := [];
                        qr_Rows := [];
                        qr_Totals := [];
                        qr_Maximums := [];
                        qr_Minimums := [];
                        qr_ResponseMetadata := None;
                        qr_PropertyQuota := None;
                        qr_Error := err |},
                Some err))
          | Ok response =>
              (d, config,
               (Some {| qr_QueryID := queryID;
                        qr_PropertyID := qc_PropertyID config;
                        qr_QueryHash := queryHash;
                        qr_QueryConfig := Some config;
                        qr_ExecutedAt := startTime;
                        qr_ExecutionTime := executionTime;
                        qr_RowCount := resp_RowCount response;
                        qr_FromCache := false;
                        qr_DimensionHeaders :=
                          resp_DimensionHeaders response;
                        qr_MetricHeaders := resp_MetricHeaders response;
                        qr_Rows := resp_Rows response;
                        qr_Totals := resp_Totals response;
                        qr_Maximums := resp_Maximums response;
                        qr_Minimums := resp_Minimums response;
                        qr_ResponseMetadata :=
                          Some (resp_Metadata response);
                        qr_PropertyQuota := resp_PropertyQuota response;
                        qr_Error := "" |},
                None))
          end
      end
  end.

(** [ExecuteTemplate(ctx, template, overrides)]: the data client and
    the template as the call leaves them, and the two results; [None]
    is the run-time panic of [*template.Query] on a nil pointer.
    [config := *template.Query] is a copy; nothing below writes through
    the slices it shares with the template. *)
Definition ExecuteTemplate (template : QueryTemplate)
    (overrides : list (string * value)) (d : DataClient C)
  : option (DataClient C * QueryTemplate * (option QueryResult * error)) :=
  match qt_Query template with
  | None => None
  | Some config =>
      let '(config, oerr) := applyOverrides config overrides in
      match oerr with
      | Some err =>
          Some (d, template,
                (None,
                 Some (wrap "failed to apply parameter overrides" err)))
      | None =>
          let usageCount := wrap64 (qt_UsageCount template + 1) in
          let '(now, d) := time_Now remote d in
          let template :=
            {| qt_Name := qt_Name template;
               qt_Description := qt_Description template;
               qt_Category := qt_Category template;
               qt_Query := qt_Query template;
               qt_CreatedAt := qt_CreatedAt template;
               qt_UpdatedAt := qt_UpdatedAt template;
               qt_UsageCount := usageCount;
               qt_LastUsed := Some now |} in
          let '(d, _, res) := Execute config d in
          Some (d, template, res)
      end
  end.

End Execute.

End executor.


(* ====================================================================== *)
(** * Concrete inputs                                                     *)
(* ====================================================================== *)

Module examples.
Import api dataclient query executor Float64.

Definition unit_float : float64 := Fin false 0 0.

(** A string filter on [field] with the given kind, match type and value. *)
Definition string_filter (field kind matchType v : string) : FilterConfig :=
  {| fc_FieldName := field; fc_Type := kind;
     fc_StringMatchType := matchType; fc_StringValue := v;
     fc_StringCaseSensitive := false;
     fc_NumericOperation := ""; fc_NumericValue := unit_float;
     fc_BetweenFrom := unit_float; fc_BetweenTo := unit_float;
     fc_InListValues := None; fc_InListCaseSensitive := false;
     fc_LogicOperator := "" |}.

(** A numeric filter [field op v]. *)
Definition numeric_filter (field op : string) (v : float64) : FilterConfig :=
  {| fc_FieldName := field; fc_Type := "numeric";
     fc_StringMatchType := ""; fc_StringValue := "";
     fc_StringCaseSensitive := false;
     fc_NumericOperation := op; fc_NumericValue := v;
     fc_BetweenFrom := unit_float; fc_BetweenTo := unit_float;
     fc_InListValues := None; fc_InListCaseSensitive := false;
     fc_LogicOperator := "" |}.

(** A between filter [lo <= field <= hi]. *)
Definition between_filter (field : string) (lo hi : float64) : FilterConfig :=
  {| fc_FieldName := field; fc_Type := "between";
     fc_StringMatchType := ""; fc_StringValue := "";
     fc_StringCaseSensitive := false;
     fc_NumericOperation := ""; fc_NumericValue := unit_float;
     fc_BetweenFrom := lo; fc_BetweenTo := hi;
     fc_InListValues := None; fc_InListCaseSensitive := false;
     fc_LogicOperator := "" |}.

(** The query of the specification's example: sessions by source over the
    last 30 days, with the given name, limit, offset and filters. *)
Definition sessions_query (name : string) (limit offset : Z)
    (filters : list FilterConfig) : QueryConfig :=
  {| qc_PropertyID := "123"; qc_Name := name; qc_Description := "";
     qc_Dimensions := Some ["sessionSource"];
     qc_Metrics := Some ["sessions"];
     qc_StartDate := "30daysAgo"; qc_EndDate := "yesterday";
     qc_Limit := limit; qc_Offset := offset;
     qc_KeepEmptyRows := false; qc_MetricAggregations := [];
     qc_CurrencyCode := ""; qc_ReturnPropertyQuota := false;
     qc_Filters := filters; qc_OrderBy := [];
     qc_CreatedAt := time.zero; qc_UpdatedAt := time.zero;
     qc_CreatedBy := "" |}.

(** A platform on which an out-of-range conversion gives the smallest
    [int64] (the "integer indefinite" value of x86-64). *)
Definition indefinite (_ : float64) : Z := int64_min.

End examples.


(* ====================================================================== *)
(** * Vocabulary of the properties                                        *)
(* ====================================================================== *)

Module props.
Import api dataclient query executor Float64 Ftoa Strconv.

(** The four kinds [convertSingleFilter] knows. *)
Definition supported (f : FilterConfig) : Prop :=
  fc_Type f = "string" \/ fc_Type f = "numeric"
  \/ fc_Type f = "between" \/ fc_Type f = "in_list".

(** A node that is a single [Filter] leaf on the field of [f]: no group
    and no negation around it. *)
Definition is_leaf_of (f : FilterConfig) (e : FilterExpression) : Prop :=
  fe_AndGroup e = None /\ fe_OrGroup e = None /\ fe_NotExpression e = None
  /\ exists flt, fe_Filter e = Some flt /\ flt_FieldName flt = fc_FieldName f.

(** An [AndGroup] node around [children], and nothing else. *)
Definition and_group (children : list FilterExpression) : FilterExpression :=
  {| fe_AndGroup := Some children; fe_OrGroup := None;
     fe_NotExpression := None; fe_Filter := None |}.

(** [c] with other display and bookkeeping fields: name, description,
    creation and update times, author. *)
Definition with_display (c : QueryConfig) (name description : string)
    (created updated : time.Time) (author : string) : QueryConfig :=
  {| qc_PropertyID := qc_PropertyID c; qc_Name := name;
     qc_Description := description; qc_Dimensions := qc_Dimensions c;
     qc_Metrics := qc_Metrics c; qc_StartDate := qc_StartDate c;
     qc_EndDate := qc_EndDate c; qc_Limit := qc_Limit c;
     qc_Offset := qc_Offset c; qc_KeepEmptyRows := qc_KeepEmptyRows c;
     qc_MetricAggregations := qc_MetricAggregations c;
     qc_CurrencyCode := qc_CurrencyCode c;
     qc_ReturnPropertyQuota := qc_ReturnPropertyQuota c;
     qc_Filters := qc_Filters c; qc_OrderBy := qc_OrderBy c;
     qc_CreatedAt := created; qc_UpdatedAt := updated;
     qc_CreatedBy := author |}.

(** [c] for another property, and [r] for another property. *)
Definition for_property (c : QueryConfig) (p : string) : QueryConfig :=
  {| qc_PropertyID := p; qc_Name := qc_Name c;
     qc_Description := qc_Description c; qc_Dimensions := qc_Dimensions c;
     qc_Metrics := qc_Metrics c; qc_StartDate := qc_StartDate c;
     qc_EndDate := qc_EndDate c; qc_Limit := qc_Limit c;
     qc_Offset := qc_Offset c;
     qc_KeepEmptyRows := qc_KeepEmptyRows c;
     qc_MetricAggregations := qc_MetricAggregations c;
     qc_CurrencyCode := qc_CurrencyCode c;
     qc_ReturnPropertyQuota := qc_ReturnPropertyQuota c;
     qc_Filters := qc_Filters c; qc_OrderBy := qc_OrderBy c;
     qc_CreatedAt := qc_CreatedAt c; qc_UpdatedAt := qc_UpdatedAt c;
     qc_CreatedBy := qc_CreatedBy c |}.

Definition request_for_property (r : RunReportRequest) (p : string)
  : RunReportRequest :=
  {| req_Property := p;
     req_Dimensions := req_Dimensions r;
     req_Metrics := req_Metrics r;
     req_DateRanges := req_DateRanges r;
     req_DimensionFilter := req_DimensionFilter r;
     req_MetricFilter := req_MetricFilter r;
     req_Offset := req_Offset r;
     req_Limit := req_Limit r;
     req_MetricAggregations := req_MetricAggregations r;
     req_OrderBys := req_OrderBys r;
     req_CurrencyCode := req_CurrencyCode r;
     req_KeepEmptyRows := req_KeepEmptyRows r;
     req_ReturnPropertyQuota := req_ReturnPropertyQuota r |}.

(** The digest under which [RunReport] looks up the request that
    [Execute] makes of [c]: validation, translation, the default limit of
    [RunReport], then the hash of the request. *)
Definition lookup_digest (overflow : float64 -> Z) (c : QueryConfig)
  : option string :=
  match validateQuery c with
  | (c', None) =>
      match configToRequest overflow c' with
      | Ok request =>
          Some (api.generateQueryHash
                  (if req_Limit request =? 0 then set_req_Limit request 10000
                   else request))
      | Err _ => None
      end
  | (_, Some _) => None
  end.

(** The three checks of required fields at the head of [validateQuery]
    pass. *)
Definition required_fields (c : QueryConfig) : Prop :=
  qc_PropertyID c <> "" /\ qc_StartDate c <> "" /\ qc_EndDate c <> ""
  /\ (elems (qc_Dimensions c) <> [] \/ elems (qc_Metrics c) <> []).

End props.

Module cacheprops.
Import cache time.

(** A read that reports a miss: nothing stored in [result], no hit, no
    error, one more miss counted and no more hits. *)
Definition counted_miss {A} (c : CacheClient)
    (r : CacheClient * (option A * bool * error)) : Prop :=
  snd r = (None, false, None)
  /\ total_misses (cache_stats (fst r)) = total_misses (cache_stats c) + 1
  /\ total_hits (cache_stats (fst r)) = total_hits (cache_stats c).

(** A read that reports a hit and stores [v] in [result]. *)
Definition hit_with {A} (v : A)
    (r : CacheClient * (option A * bool * error)) : Prop :=
  snd r = (Some v, true, None).

(** The hit flag of a read. *)
Definition hit {A} (r : CacheClient * (option A * bool * error)) : bool :=
  snd (fst (snd r)).

(** An instant, [s] seconds after the epoch, in UTC. *)
Definition at_second (s : Z) : Time := {| unix := s; nsec := 0; offset := 0 |}.

Definition empty_stats : StatsRow :=
  {| total_hits := 0; total_misses := 0; last_cleanup := None;
     stats_created_at := at_second 0; stats_updated_at := at_second 0 |}.

(** A query row with the given id, hash, payload and expiry, created at
    the epoch. *)
Definition query_entry (id hash data : string) (expires : option Z) : QueryRow :=
  {| qrow_query_id := id; qrow_property_id := "123";
     qrow_query_hash := hash; qrow_query_params := "{}";
     qrow_result_data := data; qrow_row_count := 1;
     qrow_created_at := at_second 0;
     qrow_expires_at := option_map at_second expires;
     qrow_last_accessed := at_second 0 |}.

(** A metadata row for the given property and kind, created at the
    epoch and expiring at second [expires]. *)
Definition metadata_entry (property kind data : string) (expires : Z)
  : MetadataRow :=
  {| mrow_property_id := property; mrow_cache_type := kind;
     mrow_data := data; mrow_created_at := at_second 0;
     mrow_expires_at := at_second expires;
     mrow_last_accessed := at_second 0 |}.

(** A store with three entries that have expired by second 100 and two
    that have not (one of them never will). *)
Definition store5 : CacheClient :=
  {| metadata_cache := [metadata_entry "123" "metadata" "m1" 50;
                        metadata_entry "456" "metadata" "m2" 500];
     query_cache := [query_entry "query_1" "h1" "r1" (Some 10);
                     query_entry "query_2" "h2" "r2" None;
                     query_entry "query_3" "h3" "r3" (Some 99)];
     cache_stats := empty_stats |}.

(** A store in which two rows carry the same hash: the first never
    expires, the second expired at second 10. *)
Definition shadowed : CacheClient :=
  {| metadata_cache := [];
     query_cache := [query_entry "query_1" "h" "fresh" None;
                     query_entry "query_2" "h" "stale" (Some 10)];
     cache_stats := empty_stats |}.

(** [json.Unmarshal] into a [*string] of a payload that is taken to be
    the JSON text of that string. *)
Definition as_text (data : string) : result string := Ok data.

End cacheprops.

Module worlds.
Import api dataclient cache time cacheprops query executor.

(** No row of [after] is new: each is a row of [before], at most with its
    access time renewed. *)
Definition no_row_written (before after : list QueryRow) : Prop :=
  forall r', In r' after ->
             exists r, In r before /\ (r' = r \/ exists t, r' = touch_query t r).

(** The query cache of a data client, empty when it has no cache. *)
Definition rows (d : DataClient CacheClient) : list QueryRow :=
  match cacheClient d with
  | Some c => query_cache c
  | None => []
  end.

(** A clock that starts at second 1,700,000,000 and advances by one
    second at each reading. *)
Definition ticking (n : nat) : Time := at_second (1700000000 + Z.of_nat n).

(** A gateway that cannot be reached: no active preset to authenticate
    with. *)
Definition offline : Remote :=
  {| authenticate := Some "no active preset set";
     post := fun _ _ => PostError "connection refused";
     decodeResponse := fun _ => Err "unexpected end of JSON input";
     marshalResponse := fun _ => Ok "{}";
     unmarshalResponse := fun _ => Ok zero_response;
     clock := ticking |}.

(** A response of one row, and a gateway that answers every report with
    it; the codec of the cache knows the text "one row" for it. *)
Definition one_row : RunReportResponse :=
  {| resp_DimensionHeaders := [{| dh_Name := "sessionSource" |}];
     resp_MetricHeaders := [{| mh_Name := "sessions";
                               mh_Type := "TYPE_INTEGER" |}];
     resp_Rows := [{| row_DimensionValues := [{| dv_Value := "google" |}];
                      row_MetricValues := [{| mv_Value := "42" |}] |}];
     resp_Totals := []; resp_Maximums := []; resp_Minimums := [];
     resp_RowCount := 1;
     resp_Metadata := {| rm_CurrencyCode := "USD"; rm_TimeZone := "UTC";
                         rm_EmptyReason := "";
                         rm_DataLossFromOtherRow := false |};
     resp_PropertyQuota := None; resp_Kind := "analyticsData#runReport" |}.

Definition online : Remote :=
  {| authenticate := None;
     post := fun _ _ => Response 200 "200 OK" "one row";
     decodeResponse := fun _ => Ok one_row;
     marshalResponse := fun _ => Ok "one row";
     unmarshalResponse :=
       fun s => if String.eqb s "one row" then Ok one_row
                else Err "invalid character";
     clock := ticking |}.

(** The codec of [online] with a gateway that cannot be reached. *)
Definition disconnected : Remote :=
  {| authenticate := Some "no active preset set";
     post := fun _ _ => PostError "connection refused";
     decodeResponse := fun _ => Err "unexpected end of JSON input";
     marshalResponse := marshalResponse online;
     unmarshalResponse := unmarshalResponse online;
     clock := ticking |}.

(** A data client without a cache, and one over the given cache. *)
Definition uncached : DataClient CacheClient :=
  {| cacheClient := None; ticks := 0; trace := [] |}.
Definition cached (c : CacheClient) : DataClient CacheClient :=
  {| cacheClient := Some c; ticks := 0; trace := [] |}.

Definition empty_cache : CacheClient :=
  {| metadata_cache := []; query_cache := []; cache_stats := empty_stats |}.

(** The request of [examples.sessions_query] with limit 10,000 and no
    filter, and a cache that holds a response for its digest until second
    1,700,003,000. *)
Definition sessions_request : RunReportRequest :=
  {| req_Property := "123";
     req_Dimensions := [{| dim_Name := "sessionSource";
                           dim_DimensionExpression := "" |}];
     req_Metrics := [{| met_Name := "sessions"; met_Expression := "" |}];
     req_DateRanges := [{| dr_StartDate := "30daysAgo";
                           dr_EndDate := "yesterday"; dr_Name := "" |}];
     req_DimensionFilter := None; req_MetricFilter := None;
     req_Offset := 0; req_Limit := 10000;
     req_MetricAggregations := []; req_OrderBys := [];
     req_CurrencyCode := ""; req_KeepEmptyRows := false;
     req_ReturnPropertyQuota := false |}.

Definition warm_entry : QueryRow :=
  query_entry "query_1699999400" (api.generateQueryHash sessions_request)
    "one row" (Some 1700003000).

Definition warm_cache : CacheClient :=
  {| metadata_cache := []; query_cache := [warm_entry];
     cache_stats := empty_stats |}.

(** A template around the given query. *)
Definition template_of (q : QueryConfig) : QueryTemplate :=
  {| qt_Name := "sessions"; qt_Description := ""; qt_Category := "";
     qt_Query := Some q; qt_CreatedAt := time.zero;
     qt_UpdatedAt := time.zero; qt_UsageCount := 7; qt_LastUsed := None |}.

End worlds.

Module floatprops.
Import api Float64 Ftoa Strconv.

(** The rule of the specification for one numeric value: an integer token
    when the value equals the float64 of its conversion to int64, a decimal
    token otherwise. *)
Definition encode_numeric (overflow : float64 -> Z) (v : float64)
  : NumericValue :=
  if Float64.eqb v (of_int64 (to_int64 overflow v))
  then {| nv_Int64Value := FormatInt (to_int64 overflow v);
          nv_DoubleValue := "" |}
  else {| nv_Int64Value := ""; nv_DoubleValue := FormatFloat v |}.

(** The two shapes of a numeric value. *)
Definition integer_token (z : Z) : NumericValue :=
  {| nv_Int64Value := FormatInt z; nv_DoubleValue := "" |}.

Definition decimal_token (v : float64) : NumericValue :=
  {| nv_Int64Value := ""; nv_DoubleValue := FormatFloat v |}.

(** The value of a leaf with a numeric filter, and the two bounds of a
    leaf with a between filter. *)
Definition numeric_value_of (r : result FilterExpression)
  : option NumericValue :=
  match r with
  | Ok e =>
      match fe_Filter e with
      | Some f => option_map nf_Value (flt_NumericFilter f)
      | None => None
      end
  | Err _ => None
  end.

Definition between_values_of (r : result FilterExpression)
  : option (NumericValue * NumericValue) :=
  match r with
  | Ok e =>
      match fe_Filter e with
      | Some f =>
          option_map (fun b => (bf_FromValue b, bf_ToValue b))
                     (flt_BetweenFilter f)
      | None => None
      end
  | Err _ => None
  end.

(** Exactly one of the two token fields is populated. *)
Definition one_token (v : NumericValue) : Prop :=
  (nv_Int64Value v <> "" /\ nv_DoubleValue v = "")
  \/ (nv_Int64Value v = "" /\ nv_DoubleValue v <> "").

(** The last character of a string (of the empty string: a space). *)
Fixpoint last_char (s : string) : ascii :=
  match s with
  | EmptyString => " "%char
  | String c EmptyString => c
  | String _ rest => last_char rest
  end.

(** The string has a decimal point. *)
Definition has_point (s : string) : Prop :=
  exists a b, s = a +++ String "." b.

(** [d * 10^x] rounds to the float of the interval: it lies between its
    bounds. *)
Definition within (iv : interval) (d x : Z) : Prop :=
  cmp10 d x (lo iv) (den iv) <> Lt /\ cmp10 d x (hi iv) (den iv) <> Gt.

(** [cmp10 d x num den] compares [d * scaleA x den] with
    [num * scaleB x]. *)
Definition scaleA (x den : Z) : Z := if 0 <=? x then 10 ^ x * den else den.
Definition scaleB (x : Z) : Z := if 0 <=? x then 1 else 10 ^ (- x).

(** 5, 5.5 and 1e20 as float64 values. *)
Definition five : float64 := Fin false 5 0.
Definition five_and_a_half : float64 := Fin false 11 (-1).
Definition ten_to_20 : float64 := Fin false (5 ^ 20) 20.

End floatprops.

(* ====================================================================== *)
(** * What validation accepts, and overrides as a map                      *)
(* ====================================================================== *)

Module accepted.
Import api query executor.

(** What [validateFilter] asks of a filter, kind by kind. *)
Definition acceptable_filter (f : FilterConfig) : Prop :=
  fc_FieldName f <> ""
  /\ ((fc_Type f = "string" /\ fc_StringValue f <> ""
       /\ (fc_StringMatchType f = ""
           \/ In (fc_StringMatchType f)
                ["EXACT"; "CONTAINS"; "STARTS_WITH"; "ENDS_WITH"; "REGEX"]))
      \/ (fc_Type f = "numeric"
          /\ In (fc_NumericOperation f)
               ["EQUAL"; "GREATER_THAN"; "LESS_THAN";
                "GREATER_THAN_OR_EQUAL"; "LESS_THAN_OR_EQUAL"])
      \/ (fc_Type f = "between"
          /\ Float64.geb (fc_BetweenFrom f) (fc_BetweenTo f) = false)
      \/ (fc_Type f = "in_list" /\ elems (fc_InListValues f) <> [])
      \/ fc_Type f = "").

(** What [validateOrderBy] asks of an order-by of the query [c]. *)
Definition acceptable_order_by (c : QueryConfig) (o : OrderByConfig) : Prop :=
  obc_FieldName o <> ""
  /\ ((obc_FieldType o = "dimension"
       /\ In (obc_FieldName o) (elems (qc_Dimensions c))
       /\ (obc_OrderType o = ""
           \/ In (obc_OrderType o)
                ["ALPHANUMERIC"; "CASE_INSENSITIVE_ALPHANUMERIC"; "NUMERIC"]))
      \/ (obc_FieldType o = "metric"
          /\ In (obc_FieldName o) (elems (qc_Metrics c)))
      \/ (obc_FieldType o <> "dimension" /\ obc_FieldType o <> "metric"
          /\ (In (obc_FieldName o) (elems (qc_Dimensions c))
              \/ In (obc_FieldName o) (elems (qc_Metrics c))))).


(** [c] with other order-bys. *)
Definition with_order_by (c : QueryConfig) (obs : list OrderByConfig)
  : QueryConfig :=
  {| qc_PropertyID := qc_PropertyID c; qc_Name := qc_Name c;
     qc_Description := qc_Description c; qc_Dimensions := qc_Dimensions c;
     qc_Metrics := qc_Metrics c; qc_StartDate := qc_StartDate c;
     qc_EndDate := qc_EndDate c; qc_Limit := qc_Limit c;
     qc_Offset := qc_Offset c;
     qc_KeepEmptyRows := qc_KeepEmptyRows c;
     qc_MetricAggregations := qc_MetricAggregations c;
     qc_CurrencyCode := qc_CurrencyCode c;
     qc_ReturnPropertyQuota := qc_ReturnPropertyQuota c;
     qc_Filters := qc_Filters c; qc_OrderBy := obs;
     qc_CreatedAt := qc_CreatedAt c; qc_UpdatedAt := qc_UpdatedAt c;
     qc_CreatedBy := qc_CreatedBy c |}.

(** An order-by on [field] with the given field type. *)
Definition order_by (field kind : string) (descending : bool)
  : OrderByConfig :=
  {| obc_FieldName := field; obc_FieldType := kind;
     obc_Descending := descending; obc_OrderType := "" |}.

(** [overrides[key]] of a map given by its entries. *)
Definition lookup (key : string) (overrides : list (string * value))
  : option value :=
  option_map snd (find (fun kv => String.eqb (fst kv) key) overrides).

(** The fields no override reaches. *)
Definition same_but_dates_and_window (c1 c2 : QueryConfig) : Prop :=
  qc_PropertyID c1 = qc_PropertyID c2 /\ qc_Name c1 = qc_Name c2
  /\ qc_Description c1 = qc_Description c2
  /\ qc_Dimensions c1 = qc_Dimensions c2 /\ qc_Metrics c1 = qc_Metrics c2
  /\ qc_KeepEmptyRows c1 = qc_KeepEmptyRows c2
  /\ qc_MetricAggregations c1 = qc_MetricAggregations c2
  /\ qc_CurrencyCode c1 = qc_CurrencyCode c2
  /\ qc_ReturnPropertyQuota c1 = qc_ReturnPropertyQuota c2
  /\ qc_Filters c1 = qc_Filters c2 /\ qc_OrderBy c1 = qc_OrderBy c2
  /\ qc_CreatedAt c1 = qc_CreatedAt c2 /\ qc_UpdatedAt c1 = qc_UpdatedAt c2
  /\ qc_CreatedBy c1 = qc_CreatedBy c2.

End accepted.

(* ====================================================================== *)
(** * The states a cache goes through                                     *)
(* ====================================================================== *)

Module states.
Import cache time.

(** The cache as [NewCacheClient] leaves a new database file at [now]:
    empty tables, and the statistics row of the preset. *)
Definition fresh (now : Time) : CacheClient :=
  {| metadata_cache := []; query_cache := [];
     cache_stats := {| total_hits := 0; total_misses := 0;
                       last_cleanup := None;
                       stats_created_at := now;
                       stats_updated_at := now |} |}.

(** One call of a method of the cache client. *)
Inductive step : CacheClient -> CacheClient -> Prop :=
| step_CacheMetadata now propertyID cacheType jsonData ttlHours c :
    step c (fst (CacheMetadata now propertyID cacheType jsonData ttlHours c))
| step_GetCachedMetadata (A : Type) now propertyID cacheType
    (unmarshal : string -> result A) c :
    step c (fst (GetCachedMetadata now propertyID cacheType unmarshal c))
| step_CacheQuery now queryID propertyID queryHash jsonParams jsonData
    rowCount ttlHours c :
    step c (fst (CacheQuery now queryID propertyID queryHash jsonParams
                   jsonData rowCount ttlHours c))
| step_GetCachedQuery (A : Type) now queryHash
    (unmarshal : string -> result A) c :
    step c (fst (GetCachedQuery now queryHash unmarshal c))
| step_CleanupExpiredEntries now c :
    step c (fst (CleanupExpiredEntries now c)).

(** The states reached from a new database by calls of the methods. *)
Inductive reachable : CacheClient -> Prop :=
| reach_fresh now : reachable (fresh now)
| reach_step c c' : reachable c -> step c c' -> reachable c'.

End states.

(* ====================================================================== *)
(** * package api: the constructors of data.go                            *)
(* ====================================================================== *)

Module constructors.
Import api Strconv.

(** [NewDateRange(startDate, endDate)] *)
Definition NewDateRange (startDate endDate : string) : DateRange :=
  {| dr_StartDate := startDate; dr_EndDate := endDate; dr_Name := "" |}.

(** [NewDimensionFilter(dimensionName, value)] *)
Definition NewDimensionFilter (dimensionName value : string)
  : FilterExpression :=
  {| fe_AndGroup := None; fe_OrGroup := None; fe_NotExpression := None;
     fe_Filter :=
       Some {| flt_FieldName := dimensionName;
               flt_StringFilter :=
                 Some {| sf_MatchType := "EXACT"; sf_Value := value;
                         sf_CaseSensitive := false |};
               flt_NumericFilter := None;
               flt_BetweenFilter := None;
               flt_InListFilter := None |} |}.

(** [NewMetricFilter(metricName, operation, value)] *)
Definition NewMetricFilter (metricName operation : string) (value : Z)
  : FilterExpression :=
  {| fe_AndGroup := None; fe_OrGroup := None; fe_NotExpression := None;
     fe_Filter :=
       Some {| flt_FieldName := metricName;
               flt_StringFilter := None;
               flt_NumericFilter :=
                 Some {| nf_Operation := operation;
                         nf_Value := {| nv_Int64Value := FormatInt value;
                                        nv_DoubleValue := "" |} |};
               flt_BetweenFilter := None;
               flt_InListFilter := None |} |}.

End constructors.

(* ====================================================================== *)
(** * strconv.ParseInt and the division of float64                        *)
(* ====================================================================== *)

Module Atoi.

(** What [ParseUint(s, 10, 64)] makes of the digits: a syntax error, a
    range error, or the number. *)
Inductive scan : Type :=
| Syntax
| Range
| Number (n : Z).

(** The value of a decimal digit; no other byte is a digit in base 10. *)
Definition digit_value (c : ascii) : option Z :=
  let b := Z.of_nat (nat_of_ascii c) in
  if (48 <=? b) && (b <=? 57) then Some (b - 48) else None.

(** [maxUint64/10 + 1], from which on [n * 10] overflows. *)
Definition cutoff : Z := (2 ^ 64 - 1) / 10 + 1.

(** The loop of [ParseUint] over the bytes of the string. *)
Fixpoint scan_digits (s : string) (n : Z) : scan :=
  match s with
  | EmptyString => Number n
  | String c rest =>
      match digit_value c with
      | None => Syntax
      | Some d =>
          if cutoff <=? n then Range
          else
            let n1 := n * 10 + d in
            if 2 ^ 64 <=? n1 then Range else scan_digits rest n1
      end
  end.

(** [ParseUint(s, 10, 64)] *)
Definition ParseUint (s : string) : scan :=
  match s with
  | EmptyString => Syntax
  | _ => scan_digits s 0
  end.

(** [strconv.ParseInt(s, 10, 64)] with its error dropped: 0 after a
    syntax error, the nearest [int64] after a range error. *)
Definition ParseInt (s : string) : Z :=
  match s with
  | EmptyString => 0
  | String c rest =>
      let neg : bool := Ascii.eqb c "-" in
      let digits := if Ascii.eqb c "+" || neg then rest else s in
      match ParseUint digits with
      | Syntax => 0
      | Range => if neg then - 2 ^ 63 else 2 ^ 63 - 1
      | Number un =>
          if negb neg && (2 ^ 63 <=? un) then 2 ^ 63 - 1
          else if neg && (2 ^ 63 <? un) then - 2 ^ 63
          else if neg then - un else un
      end
  end.

End Atoi.

Module Fdiv.
Import Float64.

(** The positive number [num / den * 2^e] rounded to the nearest
    binary64, ties to the even mantissa: [lg] is the exponent of its
    leading bit, [x] that of the last bit kept. *)
Definition round_ratio (neg : bool) (num den e : Z) : float64 :=
  let l := Z.log2 num - Z.log2 den in
  let above := if 0 <=? l then den * 2 ^ l <=? num
               else den <=? num * 2 ^ (- l) in
  let lg := if above then l else l - 1 in
  let x := Z.max (-1074) (lg + e - 52) in
  let s := e - x in
  let n := if 0 <=? s then num * 2 ^ s else num in
  let d := if 0 <=? s then den else den * 2 ^ (- s) in
  let q := n / d in
  let r := n mod d in
  let q' := if (d <? 2 * r) || ((2 * r =? d) && Z.odd q) then q + 1 else q in
  let m := if q' =? 2 ^ 53 then 2 ^ 52 else q' in
  let x' := if q' =? 2 ^ 53 then x + 1 else x in
  if 971 <? x' then Inf neg else Fin neg m x'.

(** Go's [/] on float64 (IEEE 754: no panic on a zero divisor). *)
Definition div (a b : float64) : float64 :=
  match a, b with
  | NaN, _ => NaN
  | _, NaN => NaN
  | Inf _, Inf _ => NaN
  | Inf s1, Fin s2 _ _ => Inf (xorb s1 s2)
  | Fin s1 _ _, Inf s2 => Fin (xorb s1 s2) 0 0
  | Fin s1 m1 e1, Fin s2 m2 e2 =>
      if m2 =? 0 then (if m1 =? 0 then NaN else Inf (xorb s1 s2))
      else if m1 =? 0 then Fin (xorb s1 s2) 0 0
      else round_ratio (xorb s1 s2) m1 m2 (e1 - e2)
  end.

End Fdiv.

(* ====================================================================== *)
(** * package api: metadata and event analysis (data.go)                  *)
(* ====================================================================== *)

Module events.
Import api time Strconv Float64 Ftoa Json dataclient Atoi Fdiv.

Record DimensionMetadata : Type := {
  dm_APIName : string;
  dm_UIName : string;
  dm_Description : string;
  dm_DeprecatedAPINames : list string;
  dm_CustomDefinition : bool;
  dm_Category : string
}.

Record MetricMetadata : Type := {
  mm_APIName : string;
  mm_UIName : string;
  mm_Description : string;
  mm_Type : string;
  mm_Expression : string;
  mm_CustomDefinition : bool;
  mm_Category : string;
  mm_DeprecatedAPINames : list string;
  mm_RestrictedMetricType : list string
}.

Record ComparisonMetadata : Type := {
  cm_APIName : string;
  cm_UIName : string;
  cm_Description : string
}.

Record MetadataResponse : Type := {
  md_Name : string;
  md_Dimensions : list DimensionMetadata;
  md_Metrics : list MetricMetadata;
  md_Comparisons : list ComparisonMetadata
}.

Record EventSummary : Type := {
  es_EventName : string;
  es_EventCount : Z;
  es_ActiveUsers : Z;
  es_EventsPerUser : float64
}.

Record EventAnalysis : Type := {
  ea_PropertyID : string;
  ea_DateRange : string;
  ea_TotalEvents : Z;
  ea_TotalEventCount : Z;
  ea_TotalActiveUsers : Z;
  ea_AnalyzedAt : Time;
  ea_Events : list EventSummary
}.

(** The zero values of the two cached types. *)
Definition zero_metadata : MetadataResponse :=
  {| md_Name := ""; md_Dimensions := []; md_Metrics := [];
     md_Comparisons := [] |}.

Definition zero_analysis : EventAnalysis :=
  {| ea_PropertyID := ""; ea_DateRange := ""; ea_TotalEvents := 0;
     ea_TotalEventCount := 0; ea_TotalActiveUsers := 0;
     ea_AnalyzedAt := time.zero; ea_Events := [] |}.

(** ** The collaborators outside the repository *)

(** What [httpClient.Get] gives back. *)
Inductive GetResult : Type :=
| GetError (msg : string)
| GetResponse (StatusCode : Z) (Status : string) (Body : string).

(** The metadata endpoint, the JSON codec of [MetadataResponse] and the
    decoder of [EventAnalysis].  A GET changes nothing the program can
    see; the [Authenticate] event that precedes it records that the
    gateway was approached. *)
Record Gateway : Type := {
  get : string -> GetResult;
  decodeMetadata : string -> result MetadataResponse;
  marshalMetadata : MetadataResponse -> result string;
  unmarshalMetadata : string -> result MetadataResponse;
  unmarshalAnalysis : string -> result EventAnalysis
}.

(** ** [json.Marshal] of an [EventAnalysis] *)

Definition json_of_EventSummary (e : EventSummary) : result json :=
  match jfloat (es_EventsPerUser e) with
  | None =>
      Err ("json: unsupported value: " +++ FormatFloat (es_EventsPerUser e))
  | Some perUser =>
      Ok (JObject
            (field "event_name" (JString (es_EventName e))
             ++ field "event_count" (jint (es_EventCount e))
             ++ field "active_users" (jint (es_ActiveUsers e))
             ++ field "events_per_user" perUser))
  end.

(** The elements in order, up to the first that cannot be encoded. *)
Fixpoint json_of_summaries (events : list EventSummary)
  : result (list json) :=
  match events with
  | [] => Ok []
  | e :: rest =>
      match json_of_EventSummary e with
      | Err err => Err err
      | Ok j =>
          match json_of_summaries rest with
          | Err err => Err err
          | Ok js => Ok (j :: js)
          end
      end
  end.

(** The error of [Time.MarshalJSON], as [encoding/json] reports it. *)
Definition time_error (t : Time) : string :=
  let loc := unix t + offset t in
  let '(y, _, _) := civil (loc / 86400) in
  "json: error calling MarshalJSON for type time.Time: Time.MarshalJSON: "
  +++ (if (y <? 0) || (10000 <=? y) then "year outside of range [0,9999]"
       else "timezone hour outside of range [0,23]").

(** [json.Marshal(analysis)] for an analysis whose [Events] is not nil,
    as [AnalyzeEvents] builds it. *)
Definition marshalAnalysis (a : EventAnalysis) : result string :=
  match MarshalText (ea_AnalyzedAt a) with
  | None => Err (time_error (ea_AnalyzedAt a))
  | Some analyzedAt =>
      match json_of_summaries (ea_Events a) with
      | Err err => Err err
      | Ok evs =>
          Ok (encode
                (JObject
                   (field "property_id" (JString (ea_PropertyID a))
                    ++ field "date_range" (JString (ea_DateRange a))
                    ++ field "total_events" (jint (ea_TotalEvents a))
                    ++ field "total_event_count"
                         (jint (ea_TotalEventCount a))
                    ++ field "total_active_users"
                         (jint (ea_TotalActiveUsers a))
                    ++ field "analyzed_at" (JString analyzedAt)
                    ++ field "events" (JArray evs))))
      end
  end.

Section Client.
Context {C : Type} `{CacheInterface C} (remote : Remote) (gateway : Gateway).

(** [(c *DataClient) GetMetadata(ctx, propertyID)] *)
Definition GetMetadata (propertyID : string) (d : DataClient C)
  : DataClient C * result MetadataResponse :=
  let '(d, cached) :=
    match cacheClient d with
    | None => (d, None)
    | Some c =>
        let '(now, d1) := time_Now remote d in
        let '(c1, (cached, found, err)) :=
          GetCachedMetadata MetadataResponse now propertyID "metadata"
            (unmarshalMetadata gateway) c in
        let d2 := with_cache d1 c1 in
        match err, found with
        | None, true =>
            (d2, Some match cached with
                      | Some r => r
                      | None => zero_metadata
                      end)
        | _, _ => (d2, None)
        end
    end in
  match cached with
  | Some r => (d, Ok r)
  | None =>
      let d := emit Authenticate d in
      match authenticate remote with
      | Some e =>
          (d, Err (wrap "failed to get authenticated HTTP client" e))
      | None =>
          let url := baseURL +++ "/properties/" +++ propertyID
                     +++ "/metadata" in
          match get gateway url with
          | GetError e =>
              (d, Err (wrap "failed to make request to GA4 Data API" e))
          | GetResponse code status body =>
              if code =? 404 then
                (d, Err ("property " +++ propertyID
                         +++ " not found or not accessible"))
              else if negb (code =? 200) then
                (d, Err ("GA4 Data API returned status "
                         +++ FormatInt code +++ ": " +++ status))
              else
                match decodeMetadata gateway body with
                | Err e =>
                    (d, Err (wrap "failed to decode metadata response" e))
                | Ok metadata =>
                    (match cacheClient d with
                     | None => d
                     | Some c =>
                         let '(now, d1) := time_Now remote d in
                         let '(c1, _) :=
                           CacheMetadata now propertyID "metadata"
                             (marshalMetadata gateway metadata) 24 c in
                         with_cache d1 c1
                     end,
                     Ok metadata)
                end
          end
      end
  end.

(** One row of the report as an event: rows without a dimension value
    or with fewer than two metric values are passed over. *)
Definition summary (row : Row) : option EventSummary :=
  match row_DimensionValues row, row_MetricValues row with
  | dimension :: _, count :: users :: _ =>
      let eventName := dv_Value dimension in
      let eventCount := ParseInt (mv_Value count) in
      let activeUsers := ParseInt (mv_Value users) in
      Some {| es_EventName := eventName;
              es_EventCount := eventCount;
              es_ActiveUsers := activeUsers;
              es_EventsPerUser :=
                div (of_int64 eventCount) (of_int64 activeUsers) |}
  | _, _ => None
  end.

(** The loop over the rows: the two totals, with the wrap-around of
    [int64], and the events in the order of the rows. *)
Fixpoint summarise (rows : list Row) (totalEventCount totalUsers : Z)
    (events : list EventSummary) : Z * Z * list EventSummary :=
  match rows with
  | [] => (totalEventCount, totalUsers, events)
  | row :: rest =>
      match summary row with
      | Some e =>
          summarise rest (wrap64 (totalEventCount + es_EventCount e))
            (wrap64 (totalUsers + es_ActiveUsers e)) (events ++ [e])
      | None => summarise rest totalEventCount totalUsers events
      end
  end.

(** [(c *DataClient) AnalyzeEvents(ctx, propertyID, days)] *)
Definition AnalyzeEvents (propertyID : string) (days : Z) (d : DataClient C)
  : DataClient C * result EventAnalysis :=
  if (days <=? 0) || (365 <? days) then
    (d, Err "days must be between 1 and 365")
  else
    let cacheKey := "events_" +++ FormatInt days in
    let '(d, cached) :=
      match cacheClient d with
      | None => (d, None)
      | Some c =>
          let '(now, d1) := time_Now remote d in
          let '(c1, (cached, found, err)) :=
            GetCachedMetadata EventAnalysis now propertyID cacheKey
              (unmarshalAnalysis gateway) c in
          let d2 := with_cache d1 c1 in
          match err, found with
          | None, true =>
              (d2, Some match cached with
                        | Some r => r
                        | None => zero_analysis
                        end)
          | _, _ => (d2, None)
          end
      end in
    match cached with
    | Some r => (d, Ok r)
    | None =>
        let request :=
          {| req_Property := propertyID;
             req_Dimensions := [{| dim_Name := "eventName";
                                   dim_DimensionExpression := "" |}];
             req_Metrics := [{| met_Name := "eventCount";
                                met_Expression := "" |};
                             {| met_Name := "activeUsers";
                                met_Expression := "" |}];
             req_DateRanges :=
               [{| dr_StartDate := FormatInt days +++ "daysAgo";
                   dr_EndDate := "yesterday"; dr_Name := "" |}];
             req_DimensionFilter := None; req_MetricFilter := None;
             req_Offset := 0; req_Limit := 100;
             req_MetricAggregations := [];
             req_OrderBys :=
               [{| ob_Desc := true; ob_Dimension := None;
                   ob_Metric :=
                     Some {| mob_MetricName := "eventCount" |} |}];
             req_CurrencyCode := ""; req_KeepEmptyRows := false;
             req_ReturnPropertyQuota := false |} in
        let '(d, res) := RunReport remote request d in
        match res with
        | Err err =>
            (d, Err (wrap "failed to run event analysis report" err))
        | Ok reportResponse =>
            let '(analyzedAt, d) := time_Now remote d in
            let '(totalEventCount, totalUsers, events) :=
              summarise (resp_Rows reportResponse) 0 0 [] in
            let analysis :=
              {| ea_PropertyID := propertyID;
                 ea_DateRange := FormatInt days +++ " days";
                 ea_TotalEvents :=
                   Z.of_nat (List.length (resp_Rows reportResponse));
                 ea_TotalEventCount := totalEventCount;
                 ea_TotalActiveUsers := totalUsers;
                 ea_AnalyzedAt := analyzedAt;
                 ea_Events := events |} in
            (match cacheClient d with
             | None => d
             | Some c =>
                 let '(now, d1) := time_Now remote d in
                 let '(c1, _) :=
                   CacheMetadata now propertyID cacheKey
                     (marshalAnalysis analysis) 1 c in
                 with_cache d1 c1
             end,
             Ok analysis)
        end
    end.

End Client.

End events.

Module eventprops.
Import api dataclient events.

(** The events of the rows that [AnalyzeEvents] does not pass over. *)
Definition summaries (rows : list Row) : list EventSummary :=
  flat_map (fun row => match summary row with
                       | Some e => [e]
                       | None => []
                       end) rows.


(** A report of three rows: an event with users, one without, and a row
    that lacks its second metric value. *)
Definition three_rows : list Row :=
  [{| row_DimensionValues := [{| dv_Value := "page_view" |}];
      row_MetricValues := [{| mv_Value := "120" |}; {| mv_Value := "40" |}] |};
   {| row_DimensionValues := [{| dv_Value := "heartbeat" |}];
      row_MetricValues := [{| mv_Value := "7" |}; {| mv_Value := "0" |}] |};
   {| row_DimensionValues := [{| dv_Value := "broken" |}];
      row_MetricValues := [{| mv_Value := "3" |}] |}].

(** A gateway whose reports hold the given rows; the codec of the
    cache knows the text "report" for them. *)
Definition report_of (rows : list Row) : RunReportResponse :=
  {| resp_DimensionHeaders := [{| dh_Name := "eventName" |}];
     resp_MetricHeaders := [{| mh_Name := "eventCount";
                               mh_Type := "TYPE_INTEGER" |};
                            {| mh_Name := "activeUsers";
                               mh_Type := "TYPE_INTEGER" |}];
     resp_Rows := rows;
     resp_Totals := []; resp_Maximums := []; resp_Minimums := [];
     resp_RowCount := Z.of_nat (List.length rows);
     resp_Metadata := {| rm_CurrencyCode := "USD"; rm_TimeZone := "UTC";
                         rm_EmptyReason := "";
                         rm_DataLossFromOtherRow := false |};
     resp_PropertyQuota := None; resp_Kind := "analyticsData#runReport" |}.

Definition answering (rows : list Row) : Remote :=
  {| authenticate := None;
     post := fun _ _ => Response 200 "200 OK" "report";
     decodeResponse := fun _ => Ok (report_of rows);
     marshalResponse := fun _ => Ok "report";
     unmarshalResponse :=
       fun s => if String.eqb s "report" then Ok (report_of rows)
                else Err "invalid character";
     clock := worlds.ticking |}.

(** Metadata of one dimension and one metric, and a metadata endpoint
    that delivers it; the codec of the cache knows the text "metadata"
    for it, and reads no event analysis. *)
Definition some_metadata : MetadataResponse :=
  {| md_Name := "properties/123/metadata";
     md_Dimensions :=
       [{| dm_APIName := "eventName"; dm_UIName := "Event name";
           dm_Description := "The name of the event.";
           dm_DeprecatedAPINames := []; dm_CustomDefinition := false;
           dm_Category := "Event" |}];
     md_Metrics :=
       [{| mm_APIName := "eventCount"; mm_UIName := "Event count";
           mm_Description := "The count of events.";
           mm_Type := "TYPE_INTEGER"; mm_Expression := "";
           mm_CustomDefinition := false; mm_Category := "Event";
           mm_DeprecatedAPINames := []; mm_RestrictedMetricType := [] |}];
     md_Comparisons := [] |}.

Definition serving : Gateway :=
  {| get := fun _ => GetResponse 200 "200 OK" "metadata";
     decodeMetadata := fun _ => Ok some_metadata;
     marshalMetadata := fun _ => Ok "metadata";
     unmarshalMetadata :=
       fun s => if String.eqb s "metadata" then Ok some_metadata
                else Err "invalid character";
     unmarshalAnalysis := fun _ => Err "invalid character" |}.

(** The first row of [three_rows] alone, and the analysis of a week over
    an empty cache in the two worlds. *)
Definition page_views : list Row := firstn 1 three_rows.

Definition week (rows : list Row)
  : DataClient cache.CacheClient * Go.result EventAnalysis :=
  AnalyzeEvents (answering rows) serving "123" 7
    (worlds.cached worlds.empty_cache).

(** The value of a result, or the given one for an error. *)
Definition returned {A : Type} (otherwise : A) (r : Go.result A) : A :=
  match r with
  | Go.Ok a => a
  | Go.Err _ => otherwise
  end.

End eventprops.

(* ====================================================================== *)
(** * Properties of validation and filter translation                     *)
(* ====================================================================== *)

Import dataclient.

Section Validation.
Import api dataclient query executor examples props.

Lemma len_zero {A} (l : list A) : (len l =? 0) = true <-> l = [].
Proof.
  unfold len. destruct l; simpl; split; intro E; try reflexivity;
    try discriminate.
Qed.

Lemma validateQuery_filters (c : QueryConfig) :
  qc_Filters (fst (validateQuery c)) = qc_Filters c
  /\ qc_OrderBy (fst (validateQuery c)) = qc_OrderBy c.
Proof.
  unfold validateQuery.
  repeat match goal with
         | |- context [if ?b then _ else _] => destruct b
         | |- context [match ?x with Some _ => _ | None => _ end] => destruct x
         end; simpl; auto.
Qed.

(** What [validateQuery] does to the configuration: nothing, or it sets
    the limit to 10,000. *)
Lemma validateQuery_config (c : QueryConfig) :
  fst (validateQuery c) = c
  \/ (qc_Limit c <= 0 /\ fst (validateQuery c) = set_Limit c 10000).
Proof.
  unfold validateQuery.
  destruct (String.eqb (qc_PropertyID c) ""); [now left|].
  destruct (_ || _); [now left|].
  destruct (_ && _); [now left|].
  destruct (250000 <? qc_Limit c); [now left|].
  destruct (qc_Limit c <=? 0) eqn:L.
  - right. split; [lia|].
    repeat match goal with
           | |- context [if ?b then _ else _] => destruct b
           | |- context [match ?x with Some _ => _ | None => _ end] =>
               destruct x
           end; reflexivity.
  - left.
    repeat match goal with
           | |- context [if ?b then _ else _] => destruct b
           | |- context [match ?x with Some _ => _ | None => _ end] =>
               destruct x
           end; reflexivity.
Qed.

Lemma required_fields_checks (c : QueryConfig) :
  required_fields c ->
  String.eqb (qc_PropertyID c) "" = false
  /\ String.eqb (qc_StartDate c) "" || String.eqb (qc_EndDate c) "" = false
  /\ (len (elems (qc_Dimensions c)) =? 0)
     && (len (elems (qc_Metrics c)) =? 0) = false.
Proof.
  intros (P & S & E & DM).
  repeat split.
  - now apply String.eqb_neq.
  - apply orb_false_iff. split; now apply String.eqb_neq.
  - apply andb_false_iff.
    destruct DM as [D | M]; [left | right];
      (destruct (len _ =? 0) eqn:Z0; [apply len_zero in Z0; contradiction
                                     | reflexivity]).
Qed.

(** C6.  Validation of a query specification: a limit of zero or less
    becomes 10,000 (in the validated specification, and already as soon as
    the required fields are there); a limit above 250,000 is an error; a
    negative offset is an error; the specification's example validates
    with limit 10,000. *)
Theorem validateQuery_limit_and_offset :
  (forall c c', validateQuery c = (c', None) ->
                qc_Limit c <= 0 -> qc_Limit c' = 10000)
  /\ (forall c, required_fields c -> qc_Limit c <= 0 ->
                qc_Limit (fst (validateQuery c)) = 10000)
  /\ (forall c, 250000 < qc_Limit c ->
                exists msg, snd (validateQuery c) = Some msg)
  /\ (forall c, qc_Offset c < 0 ->
                exists msg, snd (validateQuery c) = Some msg)
  /\ validateQuery (sessions_query "" 0 0 [])
     = (sessions_query "" 10000 0 [], None).
Proof.
  split; [|split; [|split; [|split]]].
  - intros c c' V L.
    unfold validateQuery in V.
    destruct (String.eqb (qc_PropertyID c) ""); [discriminate|].
    destruct (_ || _); [discriminate|].
    destruct (_ && _); [discriminate|].
    destruct (250000 <? qc_Limit c); [discriminate|].
    apply Z.leb_le in L. rewrite L in V.
    destruct (qc_Offset _ <? 0); [discriminate|].
    destruct (validateFilters _ _); [discriminate|].
    destruct (validateOrderBys _ _ _); [discriminate|].
    injection V as <-. reflexivity.
  - intros c R L.
    apply required_fields_checks in R. destruct R as (P & D & DM).
    unfold validateQuery. rewrite P, D, DM.
    replace (250000 <? qc_Limit c) with false
      by (symmetry; apply Z.ltb_ge; lia).
    apply Z.leb_le in L. rewrite L.
    repeat match goal with
           | |- context [if ?b then _ else _] => destruct b
           | |- context [match ?x with Some _ => _ | None => _ end] =>
               destruct x
           end; reflexivity.
  - intros c L.
    unfold validateQuery.
    destruct (String.eqb (qc_PropertyID c) ""); [eexists; reflexivity|].
    destruct (_ || _); [eexists; reflexivity|].
    destruct (_ && _); [eexists; reflexivity|].
    apply Z.ltb_lt in L. rewrite L. eexists; reflexivity.
  - intros c O.
    unfold validateQuery.
    destruct (String.eqb (qc_PropertyID c) ""); [eexists; reflexivity|].
    destruct (_ || _); [eexists; reflexivity|].
    destruct (_ && _); [eexists; reflexivity|].
    destruct (250000 <? qc_Limit c); [eexists; reflexivity|].
    assert (O' : forall c0, qc_Offset c0 = qc_Offset c ->
                            (qc_Offset c0 <? 0) = true)
      by (intros c0 ->; now apply Z.ltb_lt).
    destruct (qc_Limit c <=? 0);
      (rewrite O' by reflexivity); eexists; reflexivity.
  - reflexivity.
Qed.

(** The example of the specification meets the hypotheses of C6. *)
Lemma validateQuery_limit_and_offset_witness :
  qc_Limit (sessions_query "" 0 0 []) <= 0
  /\ qc_Limit (sessions_query "" 10000 0 []) = 10000
  /\ (exists msg, snd (validateQuery (sessions_query "" 250001 0 []))
                  = Some msg)
  /\ (exists msg, snd (validateQuery (sessions_query "" 5 (-1) []))
                  = Some msg).
Proof.
  split; [simpl; lia|]. split.
  - apply (proj1 validateQuery_limit_and_offset (sessions_query "" 0 0 []));
      [reflexivity | simpl; lia].
  - split.
    + apply (proj1 (proj2 (proj2 validateQuery_limit_and_offset))).
      simpl; lia.
    + apply (proj1 (proj2 (proj2 (proj2 validateQuery_limit_and_offset)))).
      simpl; lia.
Defined.

Variable overflow : Float64.float64 -> Z.

Lemma convertSingleFilter_leaf (f : FilterConfig) (e : FilterExpression) :
  convertSingleFilter overflow f = Ok e -> is_leaf_of f e.
Proof.
  unfold convertSingleFilter, is_leaf_of.
  repeat match goal with
         | |- context [if String.eqb ?a ?b then _ else _] =>
             destruct (String.eqb a b)
         end;
    intros E; try discriminate; injection E as <-; simpl;
    repeat split; eexists; split; reflexivity.
Qed.

Lemma convertSingleFilter_supported (f : FilterConfig) :
  supported f -> exists e, convertSingleFilter overflow f = Ok e.
Proof.
  unfold supported, convertSingleFilter.
  intros [E | [E | [E | E]]]; rewrite E; simpl; eexists; reflexivity.
Qed.

Lemma convertSingleFilter_unsupported (f : FilterConfig) :
  ~ supported f ->
  convertSingleFilter overflow f = Err ("unsupported filter type: " +++ fc_Type f).
Proof.
  unfold supported, convertSingleFilter. intros N.
  repeat match goal with
         | |- context [if String.eqb ?a ?b then _ else _] =>
             destruct (String.eqb a b) eqn:?
         end;
    try reflexivity;
    match goal with
    | H : String.eqb _ _ = true |- _ => apply String.eqb_eq in H; tauto
    end.
Qed.

Lemma convertEach_supported (fs : list FilterConfig) :
  Forall supported fs ->
  exists leaves,
    convertEach overflow fs = Ok leaves
    /\ Forall2 (fun f leaf => convertSingleFilter overflow f = Ok leaf
                              /\ is_leaf_of f leaf) fs leaves.
Proof.
  induction 1 as [| f fs S _ IH]; simpl.
  - exists []. split; [reflexivity | constructor].
  - destruct (convertSingleFilter_supported f S) as [e E].
    destruct IH as (leaves & EL & F2).
    exists (e :: leaves). rewrite E, EL. simpl. split; [reflexivity|].
    constructor; [split; [assumption | now apply convertSingleFilter_leaf]
                 | assumption].
Qed.

Lemma convertEach_leaves (fs : list FilterConfig) (es : list FilterExpression) :
  convertEach overflow fs = Ok es ->
  Forall2 (fun f leaf => convertSingleFilter overflow f = Ok leaf
                         /\ is_leaf_of f leaf) fs es.
Proof.
  revert es. induction fs as [| f fs IH]; simpl; intros es E.
  - injection E as <-. constructor.
  - destruct (convertSingleFilter overflow f) as [e|] eqn:Ef;
      [|discriminate]. simpl in E.
    destruct (convertEach overflow fs) as [es'|] eqn:Es; [|discriminate].
    simpl in E. injection E as <-.
    constructor; [split; [assumption | now apply convertSingleFilter_leaf]
                 | now apply IH].
Qed.

Lemma convertEach_unsupported (fs : list FilterConfig) :
  Exists (fun f => ~ supported f) fs ->
  exists msg, convertEach overflow fs = Err msg.
Proof.
  induction 1 as [f fs N | f fs _ IH]; simpl.
  - rewrite (convertSingleFilter_unsupported f N). simpl. eexists; reflexivity.
  - destruct (convertSingleFilter overflow f); simpl;
      [|eexists; reflexivity].
    destruct IH as [msg ->]. simpl. eexists; reflexivity.
Qed.

(** C4.  The tree [convertFilters] builds: nothing for no filter, the
    leaf itself for one filter, an [AndGroup] of the leaves in the order of
    the filters for two or more; no [OrGroup], no [NotExpression] in any
    case; and it is this tree that [configToRequest] puts in the request.
    The filters are of the four kinds the translation knows; any other
    kind makes the translation fail. *)
Theorem convertFilters_shape :
  convertFilters overflow [] = Ok None
  /\ (forall f, supported f ->
        exists leaf, convertFilters overflow [f] = Ok (Some leaf)
                     /\ convertSingleFilter overflow f = Ok leaf
                     /\ is_leaf_of f leaf)
  /\ (forall fs, (2 <= List.length fs)%nat -> Forall supported fs ->
        exists leaves,
          convertFilters overflow fs = Ok (Some (and_group leaves))
          /\ Forall2 (fun f leaf => convertSingleFilter overflow f = Ok leaf
                                    /\ is_leaf_of f leaf) fs leaves)
  /\ (forall fs e, convertFilters overflow fs = Ok (Some e) ->
        fe_OrGroup e = None /\ fe_NotExpression e = None)
  /\ (forall fs, Exists (fun f => ~ supported f) fs ->
        exists msg, convertFilters overflow fs = Err msg)
  /\ (forall c request, configToRequest overflow c = Ok request ->
        convertFilters overflow (qc_Filters c)
        = Ok (req_DimensionFilter request))
  /\ convertFilters overflow
       [string_filter "deviceCategory" "string" "EXACT" "mobile";
        string_filter "country" "string" "CONTAINS" "land"]
     = Ok (Some (and_group
          [{| fe_AndGroup := None; fe_OrGroup := None;
              fe_NotExpression := None;
              fe_Filter :=
                Some {| flt_FieldName := "deviceCategory";
                        flt_StringFilter :=
                          Some {| sf_MatchType := "EXACT";
                                  sf_Value := "mobile";
                                  sf_CaseSensitive := false |};
                        flt_NumericFilter := None;
                        flt_BetweenFilter := None;
                        flt_InListFilter := None |} |};
           {| fe_AndGroup := None; fe_OrGroup := None;
              fe_NotExpression := None;
              fe_Filter :=
                Some {| flt_FieldName := "country";
                        flt_StringFilter :=
                          Some {| sf_MatchType := "CONTAINS";
                                  sf_Value := "land";
                                  sf_CaseSensitive := false |};
                        flt_NumericFilter := None;
                        flt_BetweenFilter := None;
                        flt_InListFilter := None |} |}])).
Proof.
  split; [reflexivity|].
  split.
  { intros f S.
    destruct (convertSingleFilter_supported f S) as [e E].
    exists e. unfold convertFilters. simpl. rewrite E. simpl.
    split; [reflexivity|].
    split; [reflexivity | now apply convertSingleFilter_leaf]. }
  split.
  { intros fs L S.
    destruct (convertEach_supported fs S) as (leaves & E & F2).
    exists leaves. split; [|assumption].
    unfold convertFilters.
    destruct fs as [| f1 [| f2 fs]]; simpl in L; try lia.
    replace (len (f1 :: f2 :: fs) =? 0) with false by reflexivity.
    rewrite E. simpl.
    inversion F2 as [| ? l1 ? ls1 _ F2' ]; subst.
    inversion F2' as [| ? l2 ? ls2 _ _ ]; subst. reflexivity. }
  split.
  { intros fs e. unfold convertFilters.
    destruct (len fs =? 0); [discriminate|].
    destruct (convertEach overflow fs) as [es|] eqn:E; [|discriminate].
    simpl. apply convertEach_leaves in E.
    destruct es as [| e1 [| e2 es]]; intros Q; injection Q as <-;
      try (split; reflexivity).
    inversion E as [| f ? ? ? [_ (_ & O & N & _)] _]; subst. now split. }
  split.
  { intros fs X. unfold convertFilters.
    destruct (len fs =? 0) eqn:Z0.
    - apply len_zero in Z0. subst. inversion X.
    - destruct (convertEach_unsupported fs X) as [msg ->]. simpl.
      eexists; reflexivity. }
  split.
  { intros c request. unfold configToRequest.
    destruct (0 <? len (qc_Filters c)) eqn:P.
    - destruct (convertFilters overflow (qc_Filters c)); simpl;
        [|discriminate].
      intros Q; injection Q as <-. reflexivity.
    - simpl. intros Q; injection Q as <-. simpl.
      destruct (qc_Filters c); [reflexivity|].
      unfold len in P. simpl in P. discriminate. }
  reflexivity.
Qed.

End Validation.

(** The filters of the specification's examples meet the hypotheses of
    C4. *)
Lemma convertFilters_shape_witness :
  props.supported (examples.string_filter "deviceCategory" "string" "EXACT" "mobile")
  /\ (exists leaf,
        executor.convertFilters examples.indefinite
          [examples.string_filter "deviceCategory" "string" "EXACT" "mobile"]
        = Ok (Some leaf)
        /\ executor.convertSingleFilter examples.indefinite
             (examples.string_filter "deviceCategory" "string" "EXACT" "mobile")
           = Ok leaf
        /\ props.is_leaf_of
             (examples.string_filter "deviceCategory" "string" "EXACT" "mobile")
             leaf).
Proof.
  assert (S : props.supported
                (examples.string_filter "deviceCategory" "string" "EXACT"
                   "mobile")) by (left; reflexivity).
  split; [exact S|].
  exact (proj1 (proj2 (convertFilters_shape examples.indefinite)) _ S).
Defined.

(* ====================================================================== *)
(** * The unpopulated filter kind                                         *)
(* ====================================================================== *)

Section UnpopulatedKind.
Import api dataclient query executor examples props.
Variable overflow : Float64.float64 -> Z.

Lemma convertEach_failure (fs : list FilterConfig) :
  Exists (fun f => exists msg, convertSingleFilter overflow f = Err msg) fs ->
  exists msg, convertEach overflow fs = Err msg.
Proof.
  induction 1 as [f fs [m E] | f fs _ IH]; simpl.
  - rewrite E. simpl. eexists; reflexivity.
  - destruct (convertSingleFilter overflow f); simpl;
      [|eexists; reflexivity].
    destruct IH as [msg ->]. simpl. eexists; reflexivity.
Qed.

(** C7, on the code.  Through the pointer it is given, [validateFilter]
    does set an empty kind to "string", but it leaves an absent match type
    as it is, and [validateQuery] hands it a copy of each filter: the
    filters of the validated configuration are the ones it came with.
    [convertSingleFilter] then refuses the empty kind, so a configuration
    that validates and holds such a filter is not translated. *)
Theorem unpopulated_kind_is_not_compiled :
  (forall f, fc_FieldName f <> "" -> fc_Type f = "" ->
     validateFilter f = (set_Type f "string", None)
     /\ fc_StringMatchType (fst (validateFilter f)) = fc_StringMatchType f)
  /\ (forall c, qc_Filters (fst (validateQuery c)) = qc_Filters c)
  /\ (forall f, fc_Type f = "" ->
        convertSingleFilter overflow f = Err "unsupported filter type: ")
  /\ (forall c c', validateQuery c = (c', None) ->
        Exists (fun f => fc_Type f = "") (qc_Filters c) ->
        exists msg, configToRequest overflow c' = Err msg)
  /\ validateQuery
       (sessions_query "" 0 0 [string_filter "deviceCategory" "" "" "mobile"])
     = (sessions_query "" 10000 0
          [string_filter "deviceCategory" "" "" "mobile"], None)
  /\ configToRequest overflow
       (sessions_query "" 10000 0
          [string_filter "deviceCategory" "" "" "mobile"])
     = Err "failed to convert filters: unsupported filter type: ".
Proof.
  split; [|split; [|split; [|split; [|split]]]]; try reflexivity.
  - intros f N T. unfold validateFilter.
    apply String.eqb_neq in N. rewrite N, T. simpl. split; reflexivity.
  - intros c. apply validateQuery_filters.
  - intros f T. unfold convertSingleFilter. rewrite T. reflexivity.
  - intros c c' V X.
    assert (F : qc_Filters c' = qc_Filters c).
    { replace c' with (fst (validateQuery c)) by (rewrite V; reflexivity).
      apply validateQuery_filters. }
    unfold configToRequest. rewrite F.
    destruct (qc_Filters c) as [| f0 fs0] eqn:Q; [inversion X|].
    replace (0 <? len (f0 :: fs0)) with true by reflexivity.
    unfold convertFilters.
    replace (len (f0 :: fs0) =? 0) with false by reflexivity.
    destruct (convertEach_failure (f0 :: fs0)) as [msg E].
    { eapply Exists_impl; [|exact X].
      intros f T. exists "unsupported filter type: ".
      unfold convertSingleFilter. rewrite T. reflexivity. }
    rewrite E. simpl. eexists; reflexivity.
Qed.

End UnpopulatedKind.

(* ====================================================================== *)
(** * Properties of the cache store                                       *)
(* ====================================================================== *)

Section Cache.
Import cache time cacheprops.

Lemma find_filter_same {A} (p q : A -> bool) (l : list A) (x : A) :
  find p l = Some x -> q x = true -> find p (filter q l) = Some x.
Proof.
  induction l as [| a l IH]; simpl; [discriminate|].
  destruct (p a) eqn:Pa.
  - intros E Q. injection E as ->. rewrite Q. simpl. now rewrite Pa.
  - intros E Q. destruct (q a); simpl; [rewrite Pa|]; auto.
Qed.

Lemma find_filter_first {A} (p q : A -> bool) (l : list A) (x : A) :
  In x l -> p x = true -> q x = true ->
  exists y, find p (filter q l) = Some y /\ In y l /\ p y = true /\ q y = true.
Proof.
  induction l as [| a l IH]; simpl; [tauto|].
  intros I P Q.
  destruct (q a) eqn:Qa; simpl.
  - destruct (p a) eqn:Pa.
    + exists a. auto.
    + destruct I as [-> | I]; [congruence|].
      destruct (IH I P Q) as (y & F & Iy & Py & Qy). exists y. auto.
  - destruct I as [-> | I]; [congruence|].
    destruct (IH I P Q) as (y & F & Iy & Py & Qy). exists y. auto.
Qed.

Lemma unique_key {A} (k : A -> string) (l : list A) (x y : A) :
  NoDup (map k l) -> In x l -> In y l -> k x = k y -> x = y.
Proof.
  induction l as [| a l IH]; simpl; [tauto|].
  intros N Ix Iy E. inversion N as [| ? ? NI N']; subst.
  destruct Ix as [-> | Ix], Iy as [-> | Iy]; auto.
  - exfalso. apply NI. rewrite E. now apply in_map.
  - exfalso. apply NI. rewrite <- E. now apply in_map.
Qed.

Lemma find_unique {A} (k : A -> string) (p : A -> bool) (l : list A) (x : A) :
  NoDup (map k l) -> In x l -> p x = true ->
  (forall y, p y = true -> k y = k x) ->
  find p l = Some x.
Proof.
  intros N I P K.
  destruct (find p l) as [y|] eqn:F.
  - apply find_some in F. destruct F as [Iy Py].
    f_equal. apply (unique_key k l); auto.
  - exfalso. pose proof (find_none _ _ F x I). congruence.
Qed.

Lemma delete_where_In {A} (p : A -> bool) (l : list A) (x : A) :
  In x (delete_where p l) <-> In x l /\ p x = false.
Proof.
  unfold delete_where. rewrite filter_In.
  destruct (p x); simpl; intuition congruence.
Qed.

Lemma rows_affected_length {A} (p : A -> bool) (l : list A) :
  rows_affected p l
  = Z.of_nat (List.length l) - Z.of_nat (List.length (delete_where p l)).
Proof.
  unfold rows_affected, delete_where.
  induction l as [| a l IH]; [reflexivity|].
  cbn [filter]. destruct (p a); cbn [negb List.length];
    rewrite ?Nat2Z.inj_succ; lia.
Qed.

(** A read serves a row from the table it reads. *)
Lemma query_row_some {A} (p : A -> bool) (t : list A) (row : A) :
  query_row p t = Some row -> In row t /\ p row = true.
Proof. apply find_some. Qed.

Lemma GetCachedQuery_hit {A} (now : Time) (h : string)
    (u : string -> result A) (c : CacheClient) (v : option A) (e : error) :
  snd (GetCachedQuery now h u c) = (v, true, e) ->
  exists row v',
    query_row (query_key h) (query_cache c) = Some row
    /\ query_expired now row = false
    /\ u (qrow_result_data row) = Ok v' /\ v = Some v' /\ e = None.
Proof.
  unfold GetCachedQuery, query_expired.
  destruct (query_row _ _) as [row|] eqn:Q; simpl; [|discriminate].
  destruct (match qrow_expires_at row with Some _ => _ | None => _ end)
    eqn:X; simpl; [discriminate|].
  destruct (u (qrow_result_data row)) as [v'|] eqn:U; simpl;
    [|discriminate].
  intros E. injection E as <- <-. exists row, v'. auto.
Qed.

Lemma GetCachedMetadata_hit {A} (now : Time) (pid ctype : string)
    (u : string -> result A) (c : CacheClient) (v : option A) (e : error) :
  snd (GetCachedMetadata now pid ctype u c) = (v, true, e) ->
  exists row v',
    query_row (metadata_key pid ctype) (metadata_cache c) = Some row
    /\ metadata_expired now row = false
    /\ u (mrow_data row) = Ok v' /\ v = Some v' /\ e = None.
Proof.
  unfold GetCachedMetadata, metadata_expired.
  destruct (query_row _ _) as [row|] eqn:Q; simpl; [|discriminate].
  destruct (After now (mrow_expires_at row)) eqn:X; simpl; [discriminate|].
  destruct (u (mrow_data row)) as [v'|] eqn:U; simpl; [|discriminate].
  intros E. injection E as <- <-. exists row, v'. auto.
Qed.

(** The read that selects an expired query row. *)
Lemma GetCachedQuery_expired {A} (now : Time) (h : string)
    (u : string -> result A) (c : CacheClient) (row : QueryRow) :
  query_row (query_key h) (query_cache c) = Some row ->
  query_expired now row = true ->
  counted_miss c (GetCachedQuery now h u c)
  /\ query_cache (fst (GetCachedQuery now h u c))
     = delete_where (query_key h) (query_cache c)
  /\ metadata_cache (fst (GetCachedQuery now h u c)) = metadata_cache c.
Proof.
  intros Q X. unfold GetCachedQuery, counted_miss. rewrite Q.
  unfold query_expired in X. rewrite X. simpl. auto.
Qed.

(** The read that selects an expired metadata row. *)
Lemma GetCachedMetadata_expired {A} (now : Time) (pid ctype : string)
    (u : string -> result A) (c : CacheClient) (row : MetadataRow) :
  query_row (metadata_key pid ctype) (metadata_cache c) = Some row ->
  metadata_expired now row = true ->
  counted_miss c (GetCachedMetadata now pid ctype u c)
  /\ metadata_cache (fst (GetCachedMetadata now pid ctype u c))
     = delete_where (metadata_key pid ctype) (metadata_cache c)
  /\ query_cache (fst (GetCachedMetadata now pid ctype u c)) = query_cache c.
Proof.
  intros Q X. unfold GetCachedMetadata, counted_miss. rewrite Q.
  unfold metadata_expired in X. rewrite X. simpl. auto.
Qed.

(** With [property_id] as primary key, the row stored for a property is
    the one a read by its property and kind selects. *)
Lemma metadata_selected (c : CacheClient) (row : MetadataRow) :
  primary_keys c -> In row (metadata_cache c) ->
  query_row (metadata_key (mrow_property_id row) (mrow_cache_type row))
    (metadata_cache c) = Some row.
Proof.
  intros [N _] I. unfold query_row.
  apply (find_unique mrow_property_id); auto.
  - unfold metadata_key. now rewrite !String.eqb_refl.
  - unfold metadata_key. intros y Y. apply andb_true_iff in Y.
    now apply String.eqb_eq.
Qed.

(** The read of a live row whose payload decodes. *)
Lemma GetCachedQuery_live {A} (now : Time) (h : string)
    (u : string -> result A) (c : CacheClient) (row : QueryRow) (v : A) :
  query_row (query_key h) (query_cache c) = Some row ->
  query_expired now row = false ->
  u (qrow_result_data row) = Ok v ->
  hit_with v (GetCachedQuery now h u c).
Proof.
  intros Q X U. unfold GetCachedQuery, hit_with. rewrite Q.
  unfold query_expired in X. rewrite X, U. reflexivity.
Qed.

Lemma GetCachedMetadata_live {A} (now : Time) (pid ctype : string)
    (u : string -> result A) (c : CacheClient) (row : MetadataRow) (v : A) :
  query_row (metadata_key pid ctype) (metadata_cache c) = Some row ->
  metadata_expired now row = false ->
  u (mrow_data row) = Ok v ->
  hit_with v (GetCachedMetadata now pid ctype u c).
Proof.
  intros Q X U. unfold GetCachedMetadata, hit_with. rewrite Q.
  unfold metadata_expired in X. rewrite X, U. reflexivity.
Qed.

(** The tables after a sweep. *)
Lemma CleanupExpiredEntries_tables (now : Time) (c : CacheClient) :
  metadata_cache (fst (CleanupExpiredEntries now c))
  = delete_where (metadata_expired now) (metadata_cache c)
  /\ query_cache (fst (CleanupExpiredEntries now c))
     = delete_where (query_expired now) (query_cache c).
Proof. split; reflexivity. Qed.

Lemma NoDup_map_filter {A} (k : A -> string) (q : A -> bool) (l : list A) :
  NoDup (map k l) -> NoDup (map k (filter q l)).
Proof.
  induction l as [| a l IH]; simpl; [auto|].
  intros N. inversion N as [| ? ? NI N']; subst.
  destruct (q a); simpl; [|auto].
  constructor; [|auto].
  intros I. apply NI. apply in_map_iff in I. destruct I as (x & E & I).
  apply filter_In in I. rewrite <- E. apply in_map. tauto.
Qed.

Lemma CleanupExpiredEntries_primary_keys (now : Time) (c : CacheClient) :
  primary_keys c -> primary_keys (fst (CleanupExpiredEntries now c)).
Proof.
  intros [M Q]. split; simpl; now apply NoDup_map_filter.
Qed.

(** C1, as amended.  No read returns an expired entry as a hit.  The read
    that selects an expired entry (for metadata: any read of a stored
    entry's property and kind; for query results: a read of a hash whose
    first stored row is the entry, as when no other row carries the hash)
    reports a miss, counts it and deletes the entry.  The sweep removes the
    expired entries and no others and returns their number; a read that
    was a hit before the sweep is the same hit after it, and every entry
    the sweep keeps is served as a hit when its payload decodes. *)
Theorem expired_entries_are_never_hits :
  (forall A now h (u : string -> result A) c v e,
     snd (GetCachedQuery now h u c) = (v, true, e) ->
     exists row, In row (query_cache c) /\ qrow_query_hash row = h
                 /\ query_expired now row = false)
  /\ (forall A now pid ctype (u : string -> result A) c v e,
       snd (GetCachedMetadata now pid ctype u c) = (v, true, e) ->
       exists row, In row (metadata_cache c) /\ mrow_property_id row = pid
                   /\ mrow_cache_type row = ctype
                   /\ metadata_expired now row = false)
  /\ (forall A now (u : string -> result A) c row,
       primary_keys c -> In row (metadata_cache c) ->
       metadata_expired now row = true ->
       let r := GetCachedMetadata now (mrow_property_id row)
                  (mrow_cache_type row) u c in
       counted_miss c r /\ ~ In row (metadata_cache (fst r)))
  /\ (forall A now h (u : string -> result A) c row,
       query_row (query_key h) (query_cache c) = Some row ->
       query_expired now row = true ->
       let r := GetCachedQuery now h u c in
       counted_miss c r /\ ~ In row (query_cache (fst r))
       /\ forall row', In row' (query_cache (fst r)) ->
                       qrow_query_hash row' <> h)
  /\ (forall A now (u : string -> result A) c row,
       In row (query_cache c) ->
       (forall row', In row' (query_cache c) ->
                     qrow_query_hash row' = qrow_query_hash row ->
                     row' = row) ->
       query_expired now row = true ->
       let r := GetCachedQuery now (qrow_query_hash row) u c in
       counted_miss c r /\ ~ In row (query_cache (fst r)))
  /\ (forall now c,
       let r := CleanupExpiredEntries now c in
       (forall row, In row (metadata_cache (fst r)) <->
                    In row (metadata_cache c)
                    /\ metadata_expired now row = false)
       /\ (forall row, In row (query_cache (fst r)) <->
                       In row (query_cache c) /\ query_expired now row = false)
       /\ snd r = (rows_affected (metadata_expired now) (metadata_cache c)
                   + rows_affected (query_expired now) (query_cache c), None)
       /\ fst (snd r)
          = Z.of_nat (List.length (metadata_cache c))
            + Z.of_nat (List.length (query_cache c))
            - Z.of_nat (List.length (metadata_cache (fst r)))
            - Z.of_nat (List.length (query_cache (fst r))))
  /\ (forall A now h (u : string -> result A) c v,
       hit_with v (GetCachedQuery now h u c) ->
       hit_with v (GetCachedQuery now h u (fst (CleanupExpiredEntries now c))))
  /\ (forall A now pid ctype (u : string -> result A) c v,
       hit_with v (GetCachedMetadata now pid ctype u c) ->
       hit_with v (GetCachedMetadata now pid ctype u
                     (fst (CleanupExpiredEntries now c))))
  /\ (forall A now (u : string -> result A) c row,
       In row (query_cache c) -> query_expired now row = false ->
       (forall r, In r (query_cache c) -> exists v, u (qrow_result_data r) = Ok v) ->
       exists v, hit_with v (GetCachedQuery now (qrow_query_hash row) u
                               (fst (CleanupExpiredEntries now c))))
  /\ (forall A now (u : string -> result A) c row v,
       primary_keys c -> In row (metadata_cache c) ->
       metadata_expired now row = false -> u (mrow_data row) = Ok v ->
       hit_with v (GetCachedMetadata now (mrow_property_id row)
                     (mrow_cache_type row) u
                     (fst (CleanupExpiredEntries now c))))
  /\ (let r := CleanupExpiredEntries (at_second 100) store5 in
      fst (snd r) = 3
      /\ hit_with "r2" (GetCachedQuery (at_second 100) "h2" as_text (fst r))
      /\ hit_with "m2" (GetCachedMetadata (at_second 100) "456" "metadata"
                          as_text (fst r))).
Proof.
  split.
  { intros A now h u c v e H.
    destruct (GetCachedQuery_hit now h u c v e H)
      as (row & v' & Q & X & _).
    apply query_row_some in Q. destruct Q as [I K].
    exists row. repeat split; auto. now apply String.eqb_eq. }
  split.
  { intros A now pid ctype u c v e H.
    destruct (GetCachedMetadata_hit now pid ctype u c v e H)
      as (row & v' & Q & X & _).
    apply query_row_some in Q. destruct Q as [I K].
    unfold metadata_key in K. apply andb_true_iff in K. destruct K as [K1 K2].
    exists row. repeat split; auto; now apply String.eqb_eq. }
  split.
  { intros A now u c row P I X r.
    pose proof (metadata_selected c row P I) as Q.
    destruct (GetCachedMetadata_expired now _ _ u c row Q X) as (M & T & _).
    split; [exact M|]. subst r. rewrite T. rewrite delete_where_In.
    unfold metadata_key. rewrite !String.eqb_refl. simpl.
    intros [_ F]. discriminate. }
  split.
  { intros A now h u c row Q X r.
    destruct (GetCachedQuery_expired now h u c row Q X) as (M & T & _).
    split; [exact M|]. subst r. rewrite T.
    apply query_row_some in Q. destruct Q as [I K].
    split.
    - rewrite delete_where_In. intros [_ F]. congruence.
    - intros row' I'. apply delete_where_In in I'. destruct I' as [_ F].
      unfold query_key in F. now apply String.eqb_neq. }
  split.
  { intros A now u c row I U X r.
    assert (Q : query_row (query_key (qrow_query_hash row)) (query_cache c)
                = Some row).
    { unfold query_row.
      destruct (find _ _) as [y|] eqn:F.
      - apply find_some in F. destruct F as [Iy Ky].
        f_equal. apply U; auto. now apply String.eqb_eq.
      - exfalso. pose proof (find_none _ _ F row I) as N.
        unfold query_key in N. now rewrite String.eqb_refl in N. }
    destruct (GetCachedQuery_expired now _ u c row Q X) as (M & T & _).
    split; [exact M|]. subst r. rewrite T. rewrite delete_where_In.
    unfold query_key. rewrite String.eqb_refl. intros [_ F]. discriminate. }
  split.
  { intros now c r.
    destruct (CleanupExpiredEntries_tables now c) as [TM TQ].
    subst r. rewrite TM, TQ.
    split; [intros row; apply delete_where_In|].
    split; [intros row; apply delete_where_In|].
    split; [reflexivity|].
    simpl. rewrite !rows_affected_length. lia. }
  split.
  { intros A now h u c v H.
    destruct (GetCachedQuery_hit now h u c _ _ H)
      as (row & v' & Q & X & U & E & _).
    injection E as ->.
    apply GetCachedQuery_live with (row := row); auto.
    simpl. unfold delete_where, query_row.
    apply find_filter_same; [exact Q | now rewrite X]. }
  split.
  { intros A now pid ctype u c v H.
    destruct (GetCachedMetadata_hit now pid ctype u c _ _ H)
      as (row & v' & Q & X & U & E & _).
    injection E as ->.
    apply GetCachedMetadata_live with (row := row); auto.
    simpl. unfold delete_where, query_row.
    apply find_filter_same; [exact Q | now rewrite X]. }
  split.
  { intros A now u c row I X D.
    destruct (find_filter_first (query_key (qrow_query_hash row))
                (fun r => negb (query_expired now r)) (query_cache c) row)
      as (y & F & Iy & Ky & Ly); auto.
    - unfold query_key. apply String.eqb_refl.
    - now rewrite X.
    - destruct (D y Iy) as [v U]. exists v.
      apply GetCachedQuery_live with (row := y); auto.
      now apply negb_true_iff. }
  split.
  { intros A now u c row v P I X U.
    apply GetCachedMetadata_live with (row := row); auto.
    apply metadata_selected.
    - now apply CleanupExpiredEntries_primary_keys.
    - simpl. apply delete_where_In. auto. }
  cbv zeta. repeat split.
Qed.

(** C1 as stated fails where two rows carry one hash: the read selects
    the first row, which never expires, reports a hit, and leaves the
    expired second row in the table (with its access time renewed). *)
Lemma expired_row_behind_live_row :
  primary_keys shadowed
  /\ In (query_entry "query_2" "h" "stale" (Some 10)) (query_cache shadowed)
  /\ query_expired (at_second 100)
       (query_entry "query_2" "h" "stale" (Some 10)) = true
  /\ hit_with "fresh" (GetCachedQuery (at_second 100) "h" as_text shadowed)
  /\ In (touch_query (at_second 100)
           (query_entry "query_2" "h" "stale" (Some 10)))
       (query_cache (fst (GetCachedQuery (at_second 100) "h" as_text
                            shadowed))).
Proof.
  split.
  { split; simpl; [constructor|].
    constructor; [simpl; intros [E | []]; discriminate|].
    constructor; [simpl; tauto | constructor]. }
  split; [simpl; auto|].
  split; [reflexivity|].
  split; [reflexivity|].
  simpl. right. left. reflexivity.
Qed.

End Cache.

(** The store of the specification's example meets the hypotheses of
    C1: an expired metadata row and an expired query row of it are read
    as counted misses and deleted. *)
Lemma expired_entries_are_never_hits_witness :
  cache.primary_keys cacheprops.store5
  /\ cacheprops.counted_miss cacheprops.store5
       (cache.GetCachedMetadata (cacheprops.at_second 100) "123" "metadata"
          cacheprops.as_text cacheprops.store5)
  /\ cacheprops.counted_miss cacheprops.store5
       (cache.GetCachedQuery (cacheprops.at_second 100) "h3"
          cacheprops.as_text cacheprops.store5).
Proof.
  assert (P : cache.primary_keys cacheprops.store5).
  { split; simpl.
    - constructor; [simpl; intros [E | []]; discriminate|].
      constructor; [simpl; tauto | constructor].
    - constructor; [simpl; intros [E | [E | []]]; discriminate|].
      constructor; [simpl; intros [E | []]; discriminate|].
      constructor; [simpl; tauto | constructor]. }
  split; [exact P|]. split.
  - apply (proj1 (proj2 (proj2 expired_entries_are_never_hits))
             string (cacheprops.at_second 100) cacheprops.as_text
             cacheprops.store5
             (cacheprops.metadata_entry "123" "metadata" "m1" 50) P).
    + simpl. auto.
    + reflexivity.
  - apply (proj1 (proj2 (proj2 (proj2 expired_entries_are_never_hits)))
             string (cacheprops.at_second 100) "h3" cacheprops.as_text
             cacheprops.store5
             (cacheprops.query_entry "query_3" "h3" "r3" (Some 99))).
    + reflexivity.
    + reflexivity.
Defined.

(* ====================================================================== *)
(** * Query identifiers                                                   *)
(* ====================================================================== *)

Section QueryID.
Import cache time cacheprops query executor Strconv.

Lemma insert_or_replace_In {A} (k : A -> string) (id : string) (row : A)
    (t : list A) (r : A) :
  NoDup (map k t) -> k row = id ->
  In r (insert_or_replace (fun x => String.eqb (k x) id) row t) ->
  r = row \/ (In r t /\ k r <> id).
Proof.
  intros N K. induction t as [| a t IH]; simpl.
  - intros [<- | []]. now left.
  - inversion N as [| ? ? NI N']; subst.
    destruct (String.eqb (k a) (k row)) eqn:E.
    + apply String.eqb_eq in E.
      intros [<- | I]; [now left|]. right. split; [now right|].
      intros F. apply NI. rewrite E, <- F. now apply in_map.
    + apply String.eqb_neq in E.
      intros [<- | I]; [right; split; [now left | assumption]|].
      destruct (IH N' I) as [-> | [I' F]]; [now left|].
      right. split; [now right | assumption].
Qed.

Lemma insert_or_replace_keys {A} (k : A -> string) (row : A) (t : list A) :
  NoDup (map k t) ->
  NoDup (map k (insert_or_replace (fun x => String.eqb (k x) (k row)) row t)).
Proof.
  induction t as [| a t IH]; simpl; intros N.
  - constructor; [tauto | constructor].
  - inversion N as [| ? ? NI N']; subst.
    destruct (String.eqb (k a) (k row)) eqn:E; simpl.
    + apply String.eqb_eq in E. rewrite <- E. now constructor.
    + apply String.eqb_neq in E. constructor; [|auto].
      intros I. apply in_map_iff in I. destruct I as (x & Ex & Ix).
      apply (insert_or_replace_In k (k row)) in Ix; auto.
      destruct Ix as [-> | [Ix _]]; [congruence|].
      apply NI. rewrite <- Ex. now apply in_map.
Qed.

(** Writes keep the primary keys. *)
Lemma CacheQuery_primary_keys now id p h ps d n ttl (c : CacheClient) :
  primary_keys c -> primary_keys (fst (CacheQuery now id p h ps d n ttl c)).
Proof.
  intros [M Q]. unfold CacheQuery.
  destruct ps; [|split; assumption]. destruct d; [|split; assumption].
  split; simpl; [assumption|].
  match goal with
  | |- context [insert_or_replace _ ?row _] =>
      apply (insert_or_replace_keys qrow_query_id row)
  end. assumption.
Qed.

(** C10.  The query identifier is "query_" and the Unix second of the
    clock: the same for any two configurations at one time, and at any two
    times of one second.  [query_id] is the primary key of [query_cache]:
    of two results stored under one identifier the table keeps the
    second. *)
Theorem generateQueryID_ignores_the_query :
  (forall c1 c2 now, generateQueryID c1 now = generateQueryID c2 now)
  /\ (forall c now, generateQueryID c now = "query_" +++ FormatInt (Unix now))
  /\ (forall c1 c2 t1 t2, Unix t1 = Unix t2 ->
        generateQueryID c1 t1 = generateQueryID c2 t2)
  /\ (forall c1 c2 now1 now2 t1 t2 p1 p2 h1 h2 ps1 ps2 d1 d2 n1 n2 ttl1 ttl2
             (db : CacheClient),
        primary_keys db -> Unix t1 = Unix t2 ->
        let stored1 :=
          fst (CacheQuery now1 (generateQueryID c1 t1) p1 h1 (Ok ps1) (Ok d1)
                 n1 ttl1 db) in
        let stored2 :=
          fst (CacheQuery now2 (generateQueryID c2 t2) p2 h2 (Ok ps2) (Ok d2)
                 n2 ttl2 stored1) in
        forall row, In row (query_cache stored2) ->
                    qrow_query_id row = generateQueryID c1 t1 ->
                    qrow_query_hash row = h2 /\ qrow_result_data row = d2)
  /\ generateQueryID (examples.sessions_query "by source" 10 0 [])
       (at_second 1700000000)
     = "query_1700000000"
  /\ generateQueryID (examples.sessions_query "another" 500 20 [])
       {| unix := 1700000000; nsec := 999999999; offset := 3600 |}
     = "query_1700000000".
Proof.
  split; [reflexivity|]. split; [reflexivity|].
  split; [intros c1 c2 t1 t2 E; unfold generateQueryID; now rewrite E|].
  split; [|split; reflexivity].
  intros c1 c2 now1 now2 t1 t2 p1 p2 h1 h2 ps1 ps2 d1 d2 n1 n2 ttl1 ttl2 db
         P E stored1 stored2 row I K.
  assert (P1 : primary_keys stored1) by now apply CacheQuery_primary_keys.
  assert (G : generateQueryID c2 t2 = generateQueryID c1 t1)
    by (unfold generateQueryID; now rewrite E).
  subst stored2. unfold CacheQuery in I. simpl in I.
  apply (insert_or_replace_In qrow_query_id (generateQueryID c2 t2)) in I;
    [| apply P1 | reflexivity].
  destruct I as [-> | [_ N]]; [split; reflexivity|].
  congruence.
Qed.

(** Two queries of the same second, stored one after the other in an
    empty table, meet the hypotheses of C10. *)
Lemma generateQueryID_ignores_the_query_witness :
  primary_keys {| metadata_cache := []; query_cache := [];
                  cache_stats := empty_stats |}
  /\ generateQueryID (examples.sessions_query "by source" 10 0 [])
       (at_second 1700000000)
     = generateQueryID (examples.sessions_query "another" 500 20 [])
         {| unix := 1700000000; nsec := 999999999; offset := 3600 |}.
Proof.
  split; [split; constructor|].
  apply (proj1 (proj2 (proj2 generateQueryID_ignores_the_query))).
  reflexivity.
Defined.

End QueryID.

(* ====================================================================== *)
(** * Properties of the executor                                          *)
(* ====================================================================== *)

Section Executor.
Import api dataclient cache time cacheprops query executor worlds props.
Variable overflow : Float64.float64 -> Z.
Variable remote : Remote.

(** What a configuration that passed validation looks like. *)
Lemma validateQuery_ok (c c' : QueryConfig) :
  validateQuery c = (c', None) ->
  qc_PropertyID c' <> "" /\ 0 < qc_Limit c' <= 250000
  /\ qc_PropertyID c' = qc_PropertyID c.
Proof.
  unfold validateQuery.
  destruct (String.eqb (qc_PropertyID c) "") eqn:P; [discriminate|].
  destruct (_ || _); [discriminate|].
  destruct (_ && _); [discriminate|].
  destruct (250000 <? qc_Limit c) eqn:L; [discriminate|].
  apply String.eqb_neq in P. apply Z.ltb_ge in L.
  destruct (qc_Limit c <=? 0) eqn:L0;
    (destruct (qc_Offset _ <? 0); [discriminate|]);
    (destruct (validateFilters _ _); [discriminate|]);
    (destruct (validateOrderBys _ _ _); [discriminate|]);
    intros E; injection E as <-; simpl; repeat split; auto; lia.
Qed.

Lemma configToRequest_fields (c : QueryConfig) (r : RunReportRequest) :
  configToRequest overflow c = Ok r ->
  req_Property r = qc_PropertyID c /\ req_Limit r = qc_Limit c
  /\ List.length (req_DateRanges r) = 1%nat.
Proof.
  unfold configToRequest.
  destruct (if 0 <? len (qc_Filters c) then _ else _); simpl;
    [|discriminate].
  intros E. injection E as <-. simpl. auto.
Qed.

(** The configuration [Execute] leaves is the one [validateQuery]
    leaves. *)
Lemma Execute_config (config : QueryConfig) (d : DataClient CacheClient) :
  snd (fst (Execute overflow remote config d)) = fst (validateQuery config).
Proof.
  unfold Execute.
  destruct (time_Now remote d) as [startTime d0].
  destruct (validateQuery config) as [config' [err|]]; [reflexivity|].
  destruct (configToRequest overflow config'); [|reflexivity].
  destruct (RunReport remote a d0) as [d1 res].
  destruct (time_Now remote d1) as [t1 d2].
  destruct (time_Now remote d2) as [t2 d3].
  destruct res; reflexivity.
Qed.

(** No result of [Execute] is marked as coming from the cache. *)
Lemma Execute_FromCache (config : QueryConfig) (d : DataClient CacheClient)
    (result : QueryResult) :
  fst (snd (Execute overflow remote config d)) = Some result ->
  qr_FromCache result = false.
Proof.
  unfold Execute.
  destruct (time_Now remote d) as [startTime d0].
  destruct (validateQuery config) as [config' [err|]]; [discriminate|].
  destruct (configToRequest overflow config'); [|discriminate].
  destruct (RunReport remote a d0) as [d1 res].
  destruct (time_Now remote d1) as [t1 d2].
  destruct (time_Now remote d2) as [t2 d3].
  destruct res; simpl; intros E; injection E as <-; reflexivity.
Qed.

(** [RunReport] on the request of a validated configuration goes
    straight to the cache. *)
Lemma RunReport_validated (request : RunReportRequest)
    (d : DataClient CacheClient) :
  req_Property request <> "" -> List.length (req_DateRanges request) = 1%nat ->
  0 < req_Limit request <= 250000 ->
  RunReport remote request d
  = let '(d1, queryHash, cached) := probe remote request d in
    match cached with
    | Some r => (d1, Ok r)
    | None =>
        let d2 := emit Authenticate d1 in
        match authenticate remote with
        | Some e =>
            (d2, Err (wrap "failed to get authenticated HTTP client" e))
        | None =>
            let url := baseURL +++ "/properties/"
                       +++ req_Property request +++ ":runReport" in
            let jsonData := marshalRequest request in
            let d3 := emit (Post url jsonData) d2 in
            match post remote url jsonData with
            | PostError e =>
                (d3, Err (wrap "failed to make request to GA4 Data API" e))
            | Response code status body =>
                if code =? 404 then
                  (d3, Err ("property " +++ req_Property request
                            +++ " not found or not accessible"))
                else if negb (code =? 200) then
                  (d3, Err ("GA4 Data API returned status "
                            +++ Strconv.FormatInt code +++ ": " +++ status))
                else
                  match decodeResponse remote body with
                  | Err e =>
                      (d3, Err (wrap "failed to decode report response" e))
                  | Ok reportResponse =>
                      (store remote request queryHash reportResponse d3,
                       Ok reportResponse)
                  end
            end
        end
    end.
Proof.
  intros P D L. unfold RunReport.
  apply String.eqb_neq in P. rewrite P, D. simpl.
  replace (req_Limit request =? 0) with false
    by (symmetry; apply Z.eqb_neq; lia).
  replace (250000 <? req_Limit request) with false
    by (symmetry; apply Z.ltb_ge; lia).
  reflexivity.
Qed.

(** A lookup writes no row. *)
Lemma GetCachedQuery_no_row_written {A} (now : Time) (h : string)
    (u : string -> result A) (c : CacheClient) :
  no_row_written (query_cache c) (query_cache (fst (GetCachedQuery now h u c)))
  /\ metadata_cache (fst (GetCachedQuery now h u c)) = metadata_cache c.
Proof.
  unfold GetCachedQuery, no_row_written.
  destruct (query_row _ _) as [row|]; simpl.
  - destruct (match qrow_expires_at row with Some _ => _ | None => _ end).
    + simpl. split; [|reflexivity]. intros r' I.
      apply delete_where_In in I. exists r'. tauto.
    + assert (T : forall r', In r' (update_where (query_key h)
                                     (touch_query now) (query_cache c)) ->
                  exists r, In r (query_cache c)
                            /\ (r' = r \/ exists t, r' = touch_query t r)).
      { intros r' I. unfold update_where in I. apply in_map_iff in I.
        destruct I as (r & E & I). exists r. split; [assumption|].
        destruct (query_key h r); subst; eauto. }
      destruct (u (qrow_result_data row)); simpl; auto.
  - split; [|reflexivity]. intros r' I. exists r'. auto.
Qed.

Lemma probe_no_row_written (request : RunReportRequest)
    (d : DataClient CacheClient) :
  no_row_written (rows d) (rows (fst (fst (probe remote request d))))
  /\ trace (fst (fst (probe remote request d))) = trace d.
Proof.
  unfold probe, rows.
  destruct (cacheClient d) as [c|] eqn:Cd; simpl.
  - destruct (GetCachedQuery_no_row_written
                (clock remote (ticks d)) (api.generateQueryHash request)
                (unmarshalResponse remote) c) as [N _].
    destruct (cache.GetCachedQuery _ _ _ c) as [c1 [[v found] err]].
    simpl in N.
    destruct err; [simpl; auto|]. destruct found; simpl; auto.
  - rewrite Cd. split; [|reflexivity]. intros r' [].
Qed.

Lemma time_Now_rows (d : DataClient CacheClient) :
  cacheClient (snd (time_Now remote d)) = cacheClient d
  /\ trace (snd (time_Now remote d)) = trace d
  /\ fst (time_Now remote d) = clock remote (ticks d)
  /\ ticks (snd (time_Now remote d)) = S (ticks d).
Proof. repeat split. Qed.

(** A failed [RunReport] leaves the cache as the lookup left it, after
    having gone to the gateway. *)
Lemma RunReport_failure (request : RunReportRequest)
    (d d1 : DataClient CacheClient) (msg : string) :
  req_Property request <> "" -> List.length (req_DateRanges request) = 1%nat ->
  0 < req_Limit request <= 250000 ->
  RunReport remote request d = (d1, Err msg) ->
  cacheClient d1 = cacheClient (fst (fst (probe remote request d)))
  /\ In Authenticate (trace d1).
Proof.
  intros P D L. rewrite (RunReport_validated request d P D L).
  destruct (probe remote request d) as [[dp h] cached]. simpl.
  destruct cached; [discriminate|].
  destruct (authenticate remote).
  { intros E. injection E as <- _. simpl. auto. }
  destruct (post remote _ _).
  { intros E. injection E as <- _. simpl. auto. }
  destruct (StatusCode =? 404).
  { intros E. injection E as <- _. simpl. auto. }
  destruct (negb (StatusCode =? 200)).
  { intros E. injection E as <- _. simpl. auto. }
  destruct (decodeResponse remote Body); [discriminate|].
  intros E. injection E as <- _. simpl. auto.
Qed.

(** C8.  When [RunReport] fails on the request of a validated
    configuration (it then has gone to the gateway), [Execute] returns a
    result with the query id, the property id, the query hash, the start
    time, the elapsed time and the error text, and returns the error as
    well; the cache is as the lookup left it: no row of [query_cache] is new
    or replaced. *)
Theorem Execute_gateway_failure :
  forall config (d : DataClient CacheClient) config' request d1 msg,
    validateQuery config = (config', None) ->
    configToRequest overflow config' = Ok request ->
    RunReport remote request (snd (time_Now remote d)) = (d1, Err msg) ->
    exists result d',
      Execute overflow remote config d
      = (d', config', (Some result, Some msg))
      /\ qr_QueryID result = generateQueryID config' (clock remote (ticks d1))
      /\ qr_PropertyID result = qc_PropertyID config'
      /\ qr_QueryHash result = executor.generateQueryHash config'
      /\ qr_QueryConfig result = Some config'
      /\ qr_ExecutedAt result = clock remote (ticks d)
      /\ qr_ExecutionTime result
         = DurationString (Sub (clock remote (S (ticks d1)))
                               (clock remote (ticks d)))
      /\ qr_Error result = msg
      /\ In Authenticate (trace d')
      /\ cacheClient d'
         = cacheClient
             (fst (fst (probe remote request (snd (time_Now remote d)))))
      /\ no_row_written (rows d) (rows d').
Proof.
  intros config d config' request d1 msg V CR RR.
  destruct (validateQuery_ok _ _ V) as (P & L & _).
  destruct (configToRequest_fields _ _ CR) as (RP & RL & RD).
  rewrite <- RP in P. rewrite <- RL in L.
  destruct (RunReport_failure request _ d1 msg P RD L RR) as [CC TA].
  unfold Execute. cbn [time_Now]. rewrite V, CR.
  cbn [time_Now snd] in RR. rewrite RR. cbn.
  eexists. eexists. split; [reflexivity|]. cbn.
  repeat (split; [reflexivity|]).
  split; [exact TA|]. split; [exact CC|].
  destruct (probe_no_row_written request
              {| cacheClient := cacheClient d; ticks := S (ticks d);
                 trace := trace d |}) as [N _].
  unfold rows in *. cbn [cacheClient] in *. rewrite CC. exact N.
Qed.

(** C3, on the code.  When the cache holds an unexpired entry for the
    digest of the request, [Execute] returns the stored payload and does
    not go to the gateway; the result is not marked: [FromCache] is
    false. *)
Theorem Execute_cache_hit_is_unmarked :
  forall config (d : DataClient CacheClient) config' request c row response,
    validateQuery config = (config', None) ->
    configToRequest overflow config' = Ok request ->
    cacheClient d = Some c ->
    query_row (query_key (api.generateQueryHash request)) (query_cache c)
    = Some row ->
    query_expired (clock remote (S (ticks d))) row = false ->
    unmarshalResponse remote (qrow_result_data row) = Ok response ->
    exists result d',
      Execute overflow remote config d = (d', config', (Some result, None))
      /\ qr_FromCache result = false
      /\ qr_RowCount result = resp_RowCount response
      /\ qr_DimensionHeaders result = resp_DimensionHeaders response
      /\ qr_MetricHeaders result = resp_MetricHeaders response
      /\ qr_Rows result = resp_Rows response
      /\ qr_Totals result = resp_Totals response
      /\ trace d' = trace d.
Proof.
  intros config d config' request c row response V CR Cd Q X U.
  destruct (validateQuery_ok _ _ V) as (P & L & _).
  destruct (configToRequest_fields _ _ CR) as (RP & RL & RD).
  rewrite <- RP in P. rewrite <- RL in L.
  unfold Execute. cbn [time_Now]. rewrite V, CR.
  rewrite (RunReport_validated request _ P RD L).
  unfold probe. cbn [cacheClient time_Now ticks]. rewrite Cd.
  unfold dataclient.GetCachedQuery, CacheClient_CacheInterface.
  unfold cache.GetCachedQuery. rewrite Q.
  unfold query_expired in X. rewrite X, U. cbn.
  eexists. eexists. split; [reflexivity|]. cbn. repeat split.
Qed.

(** C9, as amended.  [Execute] leaves the configuration it was given
    as it is, except for the limit: a limit of zero or less is set to
    10,000 once the required fields have been found, also when validation
    then fails.  [ExecuteTemplate] works on a copy: the query of the
    template is left as it is, while its usage count and last-used time
    are updated before the copy is validated. *)
Theorem Execute_changes_only_the_limit :
  (forall config (d : DataClient CacheClient),
     let config' := snd (fst (Execute overflow remote config d)) in
     config' = config
     \/ (qc_Limit config <= 0 /\ config' = set_Limit config 10000))
  /\ (forall config (d : DataClient CacheClient),
       0 < qc_Limit config ->
       snd (fst (Execute overflow remote config d)) = config)
  /\ (forall config (d : DataClient CacheClient),
       required_fields config -> qc_Limit config <= 0 ->
       snd (fst (Execute overflow remote config d)) = set_Limit config 10000)
  /\ (forall template overrides (d : DataClient CacheClient) q,
       qt_Query template = Some q ->
       exists d' template' res,
         ExecuteTemplate overflow remote template overrides d
         = Some (d', template', res)
         /\ qt_Query template' = Some q
         /\ qt_Name template' = qt_Name template
         /\ qt_Description template' = qt_Description template
         /\ qt_Category template' = qt_Category template
         /\ qt_CreatedAt template' = qt_CreatedAt template
         /\ qt_UpdatedAt template' = qt_UpdatedAt template
         /\ qt_UsageCount template' = wrap64 (qt_UsageCount template + 1)
         /\ qt_LastUsed template' = Some (clock remote (ticks d))).
Proof.
  split; [|split; [|split]].
  - intros config d config'. subst config'. rewrite Execute_config.
    apply validateQuery_config.
  - intros config d L. rewrite Execute_config.
    destruct (validateQuery_config config) as [E | [L' _]]; [exact E | lia].
  - intros config d R L. rewrite Execute_config.
    destruct (validateQuery_config config) as [E | [_ E]]; [|exact E].
    pose proof (proj1 (proj2 validateQuery_limit_and_offset) config R L) as T.
    rewrite E in T. rewrite E.
    destruct config; simpl in *. subst. reflexivity.
  - intros template overrides d q Q.
    unfold ExecuteTemplate. rewrite Q. cbn [applyOverrides time_Now].
    destruct (Execute overflow remote
                (fold_left applyOverride overrides q) _)
      as [[d' c'] res].
    eexists. eexists. eexists. split; [reflexivity|].
    cbn. repeat split.
Qed.

End Executor.

(** A gateway that cannot be reached, and a data client without a cache,
    meet the hypotheses of C8. *)
Lemma Execute_gateway_failure_witness :
  exists result d',
    executor.Execute examples.indefinite worlds.offline
      (examples.sessions_query "" 0 0 []) (worlds.cached cacheprops.store5)
    = (d', examples.sessions_query "" 10000 0 [],
       (Some result,
        Some "failed to get authenticated HTTP client: no active preset set"))
    /\ query.qr_Error result
       = "failed to get authenticated HTTP client: no active preset set"
    /\ worlds.no_row_written (worlds.rows (worlds.cached cacheprops.store5))
         (worlds.rows d').
Proof.
  edestruct (Execute_gateway_failure examples.indefinite worlds.offline
               (examples.sessions_query "" 0 0 [])
               (worlds.cached cacheprops.store5))
    as (result & d' & E & _ & _ & _ & _ & _ & _ & Er & _ & _ & N).
  - reflexivity.
  - reflexivity.
  - vm_compute. reflexivity.
  - exists result, d'. auto.
Defined.

(** C3 at a concrete input: a cache that holds the response of the
    specification's example query, still unexpired, and a gateway that
    would answer.  The stored row is returned, the gateway is not called,
    and [FromCache] is false. *)
Lemma Execute_cache_hit_is_unmarked_witness :
  exists result d',
    executor.Execute examples.indefinite worlds.online
      (examples.sessions_query "" 0 0 []) (worlds.cached worlds.warm_cache)
    = (d', examples.sessions_query "" 10000 0 [], (Some result, None))
    /\ query.qr_FromCache result = false
    /\ query.qr_Rows result = api.resp_Rows worlds.one_row
    /\ trace d' = [].
Proof.
  destruct (Execute_cache_hit_is_unmarked examples.indefinite worlds.online
              (examples.sessions_query "" 0 0 [])
              (worlds.cached worlds.warm_cache)
              (examples.sessions_query "" 10000 0 [])
              worlds.sessions_request worlds.warm_cache worlds.warm_entry
              worlds.one_row)
    as (result & d' & E & F & _ & _ & _ & R & _ & T);
    try (vm_compute; reflexivity).
  exists result, d'. auto.
Defined.

(** C9 as stated fails: [Execute] sets the limit of the configuration
    it is given, also when it then rejects the configuration, and
    [ExecuteTemplate] counts a use of the template whose copy fails
    validation. *)
Lemma Execute_rewrites_the_limit :
  snd (fst (executor.Execute examples.indefinite worlds.offline
              (examples.sessions_query "" 0 0 []) worlds.uncached))
  = examples.sessions_query "" 10000 0 []
  /\ query.qc_Limit (examples.sessions_query "" 10000 0 [])
     <> query.qc_Limit (examples.sessions_query "" 0 0 [])
  /\ snd (fst (executor.Execute examples.indefinite worlds.offline
                 (examples.sessions_query "" 0 (-1) []) worlds.uncached))
     = examples.sessions_query "" 10000 (-1) []
  /\ snd (executor.Execute examples.indefinite worlds.offline
            (examples.sessions_query "" 0 (-1) []) worlds.uncached)
     = (None, Some "query validation failed: offset cannot be negative")
  /\ (exists d' template',
        executor.ExecuteTemplate examples.indefinite worlds.offline
          (worlds.template_of (examples.sessions_query "" 5 (-1) [])) []
          worlds.uncached
        = Some (d', template',
                (None,
                 Some "query validation failed: offset cannot be negative"))
        /\ query.qt_UsageCount template' = 8
        /\ query.qt_UsageCount
             (worlds.template_of (examples.sessions_query "" 5 (-1) [])) = 7
        /\ query.qt_LastUsed template' = Some (worlds.ticking 0)).
Proof.
  split; [vm_compute; reflexivity|].
  split; [simpl; lia|].
  split; [vm_compute; reflexivity|].
  split; [vm_compute; reflexivity|].
  eexists. eexists. split; [vm_compute; reflexivity|].
  repeat split.
Qed.

(** The specification's example, and a template around it, meet the
    hypotheses of C9. *)
Lemma Execute_changes_only_the_limit_witness :
  snd (fst (executor.Execute examples.indefinite worlds.offline
              (examples.sessions_query "" 500 0 []) worlds.uncached))
  = examples.sessions_query "" 500 0 []
  /\ props.required_fields (examples.sessions_query "" 0 (-1) [])
  /\ snd (fst (executor.Execute examples.indefinite worlds.offline
                 (examples.sessions_query "" 0 (-1) []) worlds.uncached))
     = query.set_Limit (examples.sessions_query "" 0 (-1) []) 10000
  /\ (exists d' template' res,
        executor.ExecuteTemplate examples.indefinite worlds.offline
          (worlds.template_of (examples.sessions_query "" 0 0 []))
          [("limit", executor.VInt 25)] worlds.uncached
        = Some (d', template', res)
        /\ query.qt_Query template'
           = Some (examples.sessions_query "" 0 0 [])).
Proof.
  assert (R : props.required_fields (examples.sessions_query "" 0 (-1) [])).
  { unfold props.required_fields. simpl.
    repeat split; try discriminate. left. discriminate. }
  split.
  { apply (proj1 (proj2 (Execute_changes_only_the_limit
                           examples.indefinite worlds.offline))).
    simpl. lia. }
  split; [exact R|].
  split.
  { apply (proj1 (proj2 (proj2 (Execute_changes_only_the_limit
                                  examples.indefinite worlds.offline))));
      [exact R | simpl; lia]. }
  destruct (proj2 (proj2 (proj2 (Execute_changes_only_the_limit
                                   examples.indefinite worlds.offline)))
              (worlds.template_of (examples.sessions_query "" 0 0 []))
              [("limit", executor.VInt 25)] worlds.uncached
              (examples.sessions_query "" 0 0 []) eq_refl)
    as (d' & template' & res & E & Q & _).
  exists d', template', res. auto.
Defined.

(* ====================================================================== *)
(** * Properties of the two query hashes                                  *)
(* ====================================================================== *)

Section Hashes.
Import api cache time cacheprops query executor worlds props.
Context {C : Type} `{CacheInterface C}.
Variable overflow : Float64.float64 -> Z.

Lemma validateOrderBys_fields (obs : list OrderByConfig) (i : Z)
    (c1 c2 : QueryConfig) :
  qc_Dimensions c1 = qc_Dimensions c2 -> qc_Metrics c1 = qc_Metrics c2 ->
  validateOrderBys i obs c1 = validateOrderBys i obs c2.
Proof.
  intros D M. revert i.
  induction obs as [| o obs IH]; intros i; simpl; [reflexivity|].
  unfold validateOrderBy. rewrite D, M. now rewrite IH.
Qed.

(** Validation does not look at the display fields, and leaves them as
    they are. *)
Lemma validateQuery_display (c : QueryConfig)
    name description created updated author :
  validateQuery (with_display c name description created updated author)
  = (with_display (fst (validateQuery c)) name description created updated
       author,
     snd (validateQuery c)).
Proof.
  unfold validateQuery. cbn [with_display qc_PropertyID qc_StartDate
    qc_EndDate qc_Dimensions qc_Metrics qc_Limit].
  destruct (String.eqb (qc_PropertyID c) ""); [reflexivity|].
  destruct (_ || _); [reflexivity|].
  destruct (_ && _); [reflexivity|].
  destruct (250000 <? qc_Limit c); [reflexivity|].
  destruct (qc_Limit c <=? 0);
    cbn [with_display set_Limit qc_Offset qc_Filters qc_OrderBy];
    (destruct (qc_Offset c <? 0); [reflexivity|]);
    (destruct (validateFilters 0 (qc_Filters c)); [reflexivity|]).
  - rewrite (validateOrderBys_fields (qc_OrderBy c) 0 _ (set_Limit c 10000))
      by reflexivity.
    destruct (validateOrderBys _ _ _); reflexivity.
  - rewrite (validateOrderBys_fields (qc_OrderBy c) 0 _ c) by reflexivity.
    destruct (validateOrderBys _ _ _); reflexivity.
Qed.

(** Translation does not look at the display fields. *)
Lemma configToRequest_display (c : QueryConfig)
    name description created updated author :
  configToRequest overflow
    (with_display c name description created updated author)
  = configToRequest overflow c.
Proof. reflexivity. Qed.

(** The hash of the result is the hash of the validated configuration,
    whatever the clock, the gateway and the cache. *)
Lemma Execute_QueryHash (remote : Remote) (config : QueryConfig)
    (d : DataClient C) (result : QueryResult) :
  fst (snd (Execute overflow remote config d)) = Some result ->
  qr_QueryHash result = executor.generateQueryHash (fst (validateQuery config)).
Proof.
  unfold Execute.
  destruct (time_Now remote d) as [startTime d0].
  destruct (validateQuery config) as [config' [err|]]; [discriminate|].
  destruct (configToRequest overflow config'); [|discriminate].
  destruct (RunReport remote a d0) as [d1 res].
  destruct (time_Now remote d1) as [t1 d2].
  destruct (time_Now remote d2) as [t2 d3].
  destruct res; simpl; intros E; injection E as <-; reflexivity.
Qed.

(** C2, as amended.  The digest under which the cache is probed is
    computed from the translated request alone: configurations that differ
    only in name, description, creation time, update time and author
    validate alike, are translated to the same request, probe the same
    digest, and leave the cache and the gateway in the same state.  The
    hash reported in the result is the SHA-256 of the JSON encoding of the
    whole validated configuration; it is the same under any clock, gateway
    and cache, and the same for configurations with the same encoding. *)
Theorem hashes_are_functions_of_their_encodings :
  (forall c name description created updated author,
     lookup_digest overflow
       (with_display c name description created updated author)
     = lookup_digest overflow c)
  /\ (forall c name description created updated author,
       snd (validateQuery
              (with_display c name description created updated author))
       = snd (validateQuery c)
       /\ configToRequest overflow
            (fst (validateQuery
                    (with_display c name description created updated author)))
          = configToRequest overflow (fst (validateQuery c)))
  /\ (forall remote c name description created updated author
             (d : DataClient C),
       fst (fst (Execute overflow remote
                   (with_display c name description created updated author)
                   d))
       = fst (fst (Execute overflow remote c d))
       /\ snd (snd (Execute overflow remote
                      (with_display c name description created updated author)
                      d))
          = snd (snd (Execute overflow remote c d)))
  /\ (forall remote1 remote2 c (d1 d2 : DataClient C) r1 r2,
       fst (snd (Execute overflow remote1 c d1)) = Some r1 ->
       fst (snd (Execute overflow remote2 c d2)) = Some r2 ->
       qr_QueryHash r1 = qr_QueryHash r2)
  /\ (forall c1 c2, marshalConfig c1 = marshalConfig c2 ->
                    executor.generateQueryHash c1
                    = executor.generateQueryHash c2)
  /\ (forall r1 r2, marshalRequest r1 = marshalRequest r2 ->
                    api.generateQueryHash r1 = api.generateQueryHash r2).
Proof.
  split.
  { intros. unfold lookup_digest. rewrite validateQuery_display.
    destruct (validateQuery c) as [c' [e|]]; reflexivity. }
  split.
  { intros. rewrite validateQuery_display. split; reflexivity. }
  split.
  { intros. unfold Execute.
    destruct (time_Now remote d) as [startTime d0].
    rewrite validateQuery_display.
    destruct (validateQuery c) as [c' [e|]]; cbn [fst snd];
      [split; reflexivity|].
    rewrite configToRequest_display.
    destruct (configToRequest overflow c'); [|split; reflexivity].
    destruct (RunReport remote a d0) as [d1 res].
    destruct (time_Now remote d1) as [t1 d2].
    destruct (time_Now remote d2) as [t2 d3].
    destruct res; split; reflexivity. }
  split.
  { intros remote1 remote2 c d1 d2 r1 r2 E1 E2.
    rewrite (Execute_QueryHash remote1 c d1 r1 E1).
    rewrite (Execute_QueryHash remote2 c d2 r2 E2). reflexivity. }
  split.
  { intros c1 c2 E. unfold executor.generateQueryHash. now rewrite E. }
  intros r1 r2 E. unfold api.generateQueryHash. now rewrite E.
Qed.

End Hashes.

(** C2 as stated fails for the hash of the result: two configurations
    that differ in their name alone, or in their creation time alone, have
    different hashes. *)
Lemma query_hash_depends_on_the_name :
  examples.sessions_query "monthly" 10 0 []
  = props.with_display (examples.sessions_query "weekly" 10 0 [])
      "monthly" "" time.zero time.zero ""
  /\ executor.generateQueryHash (examples.sessions_query "weekly" 10 0 [])
     = "f43e231009b905efb91d6f0e6f8b67e3b3c32ac7d7edfaed071fcb19ba474184"
  /\ executor.generateQueryHash (examples.sessions_query "monthly" 10 0 [])
     = "dd7424c7974a435866d3681742bf1af30de32115e7b8d15b2bde47d89885e94e"
  /\ executor.generateQueryHash
       (props.with_display (examples.sessions_query "weekly" 10 0 [])
          "weekly" "" (cacheprops.at_second 1700000000) time.zero "")
     = "b70a947d9658a337d7e21c6d9a2e079be869913f7a8aee72ba765d9f35dc1e3f"
  /\ executor.generateQueryHash (examples.sessions_query "weekly" 10 0 [])
     <> executor.generateQueryHash (examples.sessions_query "monthly" 10 0 [])
  /\ executor.generateQueryHash (examples.sessions_query "weekly" 10 0 [])
     <> executor.generateQueryHash
          (props.with_display (examples.sessions_query "weekly" 10 0 [])
             "weekly" "" (cacheprops.at_second 1700000000) time.zero "").
Proof.
  split; [reflexivity|].
  split; [vm_compute; reflexivity|].
  split; [vm_compute; reflexivity|].
  split; [vm_compute; reflexivity|].
  split; vm_compute; discriminate.
Qed.

(** The specification's example query under two gateways, one that
    fails and one that answers, and two configurations with one encoding
    (a filter value of zero and of minus zero), meet the hypotheses of
    C2. *)
Lemma hashes_are_functions_of_their_encodings_witness :
  (exists r1 r2,
     fst (snd (executor.Execute examples.indefinite worlds.offline
                 (examples.sessions_query "weekly" 0 0 []) worlds.uncached))
     = Some r1
     /\ fst (snd (executor.Execute examples.indefinite worlds.online
                    (examples.sessions_query "weekly" 0 0 [])
                    (worlds.cached worlds.empty_cache)))
        = Some r2
     /\ query.qr_Error r1 <> query.qr_Error r2
     /\ query.qr_QueryHash r1 = query.qr_QueryHash r2)
  /\ executor.generateQueryHash
       (examples.sessions_query "" 10 0
          [examples.numeric_filter "sessions" "EQUAL"
             (Float64.Fin false 0 0)])
     = executor.generateQueryHash
         (examples.sessions_query "" 10 0
            [examples.numeric_filter "sessions" "EQUAL"
               (Float64.Fin true 0 0)]).
Proof.
  split.
  - eexists. eexists.
    split; [vm_compute; reflexivity|].
    split; [vm_compute; reflexivity|].
    split; [vm_compute; discriminate|].
    apply (proj1 (proj2 (proj2 (proj2
             (hashes_are_functions_of_their_encodings
                (C := cache.CacheClient) examples.indefinite))))
             worlds.offline worlds.online
             (examples.sessions_query "weekly" 0 0 [])
             worlds.uncached (worlds.cached worlds.empty_cache));
      vm_compute; reflexivity.
  - apply (proj1 (proj2 (proj2 (proj2 (proj2
             (hashes_are_functions_of_their_encodings
                (C := cache.CacheClient) examples.indefinite)))))).
    vm_compute. reflexivity.
Defined.

(** X1.  The property of a request is not part of the digest under which
    [RunReport] reads and fills the cache, and the cache is read by the
    digest alone.  A cache that holds the answer to the specification's
    example query for property 123 serves it to the same query for
    property 456, with a gateway that cannot be reached. *)
Theorem cache_digest_ignores_the_property :
  (forall (r : api.RunReportRequest) (p : string),
     api.generateQueryHash (props.request_for_property r p)
     = api.generateQueryHash r)
  /\ exists result,
       snd (executor.Execute examples.indefinite worlds.disconnected
              (props.for_property (examples.sessions_query "" 0 0 []) "456")
              (worlds.cached worlds.warm_cache))
       = (Some result, None)
       /\ api.req_Property worlds.sessions_request = "123"
       /\ query.qr_PropertyID result = "456"
       /\ query.qr_Rows result = api.resp_Rows worlds.one_row.
Proof.
  split; [reflexivity|].
  eexists. split; [vm_compute; reflexivity|].
  split; [reflexivity|]. split; reflexivity.
Qed.

(* ====================================================================== *)
(** * Properties of the numeric encoding                                  *)
(* ====================================================================== *)

Section Floats.
Import api Float64 Ftoa Strconv floatprops query executor examples.

Lemma signed_mul (s : bool) (a p : Z) : signed s (a * p) = signed s a * p.
Proof. destruct s; simpl; ring. Qed.

Lemma signed_sign (s : bool) (p : Z) :
  0 <= p -> signed (signed s p <? 0) p = signed s p.
Proof.
  intros P. destruct s; simpl.
  - destruct (Z.ltb_spec (- p) 0); simpl; lia.
  - destruct (Z.ltb_spec p 0); simpl; lia.
Qed.

Lemma abs_signed (s : bool) (p : Z) : 0 <= p -> Z.abs (signed s p) = p.
Proof. intros P. destruct s; simpl; lia. Qed.

(** Equality of finite values, over their common denominator. *)
Lemma eqb_fin (s1 : bool) (m1 e1 : Z) (s2 : bool) (m2 e2 : Z) :
  Float64.eqb (Fin s1 m1 e1) (Fin s2 m2 e2) = true
  <-> signed s1 m1 * 2 ^ (e1 - Z.min e1 e2)
      = signed s2 m2 * 2 ^ (e2 - Z.min e1 e2).
Proof. unfold Float64.eqb, align. rewrite !signed_mul. apply Z.eqb_eq. Qed.

Lemma of_int64_small (z : Z) :
  Z.abs z < 2 ^ 53 -> of_int64 z = Fin (z <? 0) (Z.abs z) 0.
Proof.
  intros A. unfold of_int64. apply Z.ltb_lt in A. now rewrite A.
Qed.

(** [float64(i)] has no fractional part. *)
Lemma of_int64_form (z : Z) :
  exists s m e, of_int64 z = Fin s m e /\ 0 <= e.
Proof.
  unfold of_int64. destruct (Z.ltb_spec (Z.abs z) (2 ^ 53)) as [A | A].
  - eexists _, _, 0. split; [reflexivity | lia].
  - eexists _, _, _. split; [reflexivity|].
    assert (53 <= Z.log2 (Z.abs z)); [|lia].
    apply Z.log2_le_pow2; lia.
Qed.

(** A value equal to one without fractional part has none. *)
Lemma eqb_integer (s : bool) (m e : Z) (s2 : bool) (m2 e2 : Z) :
  Float64.eqb (Fin s m e) (Fin s2 m2 e2) = true -> 0 <= e2 ->
  is_integer (Fin s m e) = true.
Proof.
  intros E P. unfold is_integer.
  destruct (Z.leb_spec 0 e) as [Q | Q]; [reflexivity|]. simpl.
  apply eqb_fin in E. rewrite Z.min_l in E by lia.
  rewrite Z.sub_diag, Z.pow_0_r, Z.mul_1_r in E.
  replace (e2 - e) with (e2 + - e) in E by lia.
  rewrite Z.pow_add_r in E by lia.
  apply Z.eqb_eq.
  assert (D : (2 ^ (- e) | m)).
  { destruct s; simpl in E.
    - exists (- (signed s2 m2 * 2 ^ e2)). lia.
    - exists (signed s2 m2 * 2 ^ e2). lia. }
  apply Z.mod_divide; [|exact D].
  apply Z.pow_nonzero; lia.
Qed.

Lemma not_integer_no_int64 (overflow : float64 -> Z) (v : float64) :
  is_integer v = false ->
  Float64.eqb v (of_int64 (to_int64 overflow v)) = false.
Proof.
  intros N. destruct (of_int64_form (to_int64 overflow v)) as (s2 & m2 & e2 & F & P).
  rewrite F. destruct v as [| sg | s m e]; try reflexivity.
  destruct (Float64.eqb _ _) eqn:E; [|reflexivity].
  apply eqb_integer in E; [congruence | assumption].
Qed.

(** A product of a 53-bit mantissa and a power of two is converted
    exactly. *)
Lemma of_int64_exact (s : bool) (m e : Z) :
  0 <= m < 2 ^ 53 -> 0 <= e ->
  Float64.eqb (Fin s m e) (of_int64 (signed s (m * 2 ^ e))) = true.
Proof.
  intros M E.
  assert (P : 0 <= m * 2 ^ e) by (apply Z.mul_nonneg_nonneg; [lia|];
                                  apply Z.pow_nonneg; lia).
  unfold of_int64. rewrite abs_signed by assumption.
  destruct (Z.ltb_spec (m * 2 ^ e) (2 ^ 53)) as [A | A].
  - apply eqb_fin. rewrite Z.min_r by lia.
    rewrite !Z.sub_0_r, Z.pow_0_r, Z.mul_1_r, <- signed_mul.
    now rewrite signed_sign.
  - assert (M0 : 0 < m) by (destruct (Z.eq_dec m 0); [subst; simpl in A; lia
                                                     | lia]).
    assert (L : Z.log2 (m * 2 ^ e) = e + Z.log2 m)
      by (apply Z.log2_mul_pow2; lia).
    assert (L52 : Z.log2 m < 53) by (apply Z.log2_lt_pow2; lia).
    assert (L53 : 53 <= Z.log2 (m * 2 ^ e)) by (apply Z.log2_le_pow2; lia).
    set (k := Z.log2 (m * 2 ^ e) - 52).
    assert (K : 1 <= k <= e) by (unfold k; lia).
    assert (F : m * 2 ^ e = m * 2 ^ (e - k) * 2 ^ k).
    { rewrite <- Z.mul_assoc, <- Z.pow_add_r by lia. f_equal. f_equal. lia. }
    assert (K0 : 2 ^ k <> 0) by (apply Z.pow_nonzero; lia).
    assert (Q : m * 2 ^ e / 2 ^ k = m * 2 ^ (e - k))
      by (rewrite F at 1; now apply Z.div_mul).
    assert (R : (m * 2 ^ e) mod 2 ^ k = 0)
      by (rewrite F at 1; now apply Z.mod_mul).
    rewrite Q, R.
    assert (H : 0 < 2 ^ (k - 1)) by (apply Z.pow_pos_nonneg; lia).
    replace (2 ^ (k - 1) <? 0) with false by (symmetry; apply Z.ltb_ge; lia).
    replace (0 =? 2 ^ (k - 1)) with false by (symmetry; apply Z.eqb_neq; lia).
    simpl. apply eqb_fin. rewrite Z.min_r by lia.
    rewrite Z.sub_diag, Z.pow_0_r, Z.mul_1_r, <- signed_mul.
    assert (P' : 0 <= m * 2 ^ (e - k))
      by (apply Z.mul_nonneg_nonneg; [lia|]; apply Z.pow_nonneg; lia).
    assert (S : (signed s (m * 2 ^ e) <? 0) = (signed s (m * 2 ^ (e - k)) <? 0)).
    { assert (0 < m * 2 ^ e) by lia.
      assert (0 < m * 2 ^ (e - k))
        by (apply Z.mul_pos_pos; [lia|]; apply Z.pow_pos_nonneg; lia).
      destruct s; simpl;
        repeat match goal with
               | |- context [?a <? ?b] => destruct (Z.ltb_spec a b)
               end; lia. }
    rewrite S. now rewrite signed_sign.
Qed.

(** A value without fractional part that [int64] can hold is converted
    to itself and back. *)
Lemma integer_is_int64 (overflow : float64 -> Z) (s : bool) (m e : Z) :
  valid (Fin s m e) = true -> is_integer (Fin s m e) = true ->
  in_int64 (trunc (Fin s m e)) = true ->
  to_int64 overflow (Fin s m e) = trunc (Fin s m e)
  /\ Float64.eqb (Fin s m e) (of_int64 (to_int64 overflow (Fin s m e))) = true.
Proof.
  intros V I R.
  assert (T : to_int64 overflow (Fin s m e) = trunc (Fin s m e))
    by (unfold to_int64; now rewrite R).
  split; [exact T|]. rewrite T. clear T R.
  unfold valid in V.
  apply andb_true_iff in V. destruct V as [V _].
  apply andb_true_iff in V. destruct V as [V _].
  apply andb_true_iff in V. destruct V as [M0 M1].
  apply Z.leb_le in M0. apply Z.ltb_lt in M1.
  unfold trunc. unfold is_integer in I.
  destruct (Z.leb_spec 0 e) as [E | E].
  - rewrite Z.shiftl_mul_pow2 by assumption.
    apply of_int64_exact; lia.
  - simpl in I. apply Z.eqb_eq in I.
    rewrite Z.shiftl_div_pow2 by lia.
    assert (P : 0 < 2 ^ (- e)) by (apply Z.pow_pos_nonneg; lia).
    set (n := m / 2 ^ (- e)).
    assert (F : m = n * 2 ^ (- e)).
    { unfold n. rewrite Z.mul_comm. apply Z.div_exact; lia. }
    assert (N : 0 <= n <= m).
    { split; [apply Z.div_pos; lia|]. nia. }
    rewrite of_int64_small by (rewrite abs_signed; lia).
    rewrite abs_signed by lia.
    apply eqb_fin. rewrite Z.min_l by lia.
    rewrite Z.sub_diag, Z.pow_0_r, Z.mul_1_r, Z.sub_0_l.
    rewrite <- signed_mul, <- F.
    destruct (Z.eq_dec n 0) as [-> | N0].
    + rewrite F. simpl. destruct s; reflexivity.
    + assert (0 < m) by nia.
      destruct s; simpl;
        repeat match goal with
               | |- context [?a <? ?b] => destruct (Z.ltb_spec a b)
               end; simpl; lia.
Qed.

(** ** The digits of [FormatFloat] *)

Lemma cmp10_scale (d x n den : Z) :
  cmp10 d x n den = (d * scaleA x den ?= n * scaleB x).
Proof.
  unfold cmp10, scaleA, scaleB. destruct (0 <=? x).
  - now rewrite Z.mul_1_r, Z.mul_assoc.
  - reflexivity.
Qed.

Lemma floor10_scale (x n den : Z) :
  floor10 x n den = n * scaleB x / scaleA x den.
Proof.
  unfold floor10, scaleA, scaleB. destruct (0 <=? x).
  - now rewrite Z.mul_1_r, (Z.mul_comm den).
  - reflexivity.
Qed.

Lemma scale_pos (x den : Z) : 0 < den -> 0 < scaleA x den /\ 0 < scaleB x.
Proof.
  intros D. unfold scaleA, scaleB.
  destruct (Z.leb_spec 0 x); split; try lia;
    try (apply Z.mul_pos_pos; [|lia]); apply Z.pow_pos_nonneg; lia.
Qed.

Lemma floor10_bounds (x n den : Z) :
  0 < den ->
  floor10 x n den * scaleA x den <= n * scaleB x
  /\ n * scaleB x < floor10 x n den * scaleA x den + scaleA x den.
Proof.
  intros D. rewrite floor10_scale.
  destruct (scale_pos x den D) as [A _].
  pose proof (Z.mul_div_le (n * scaleB x) (scaleA x den) A).
  pose proof (Z.mul_succ_div_gt (n * scaleB x) (scaleA x den) A).
  lia.
Qed.

Lemma within_scale (iv : interval) (d x : Z) :
  within iv d x
  <-> lo iv * scaleB x <= d * scaleA x (den iv)
      /\ d * scaleA x (den iv) <= hi iv * scaleB x.
Proof.
  unfold within. rewrite !cmp10_scale.
  rewrite Z.compare_ge_iff, Z.compare_le_iff. tauto.
Qed.

Lemma within_down (iv : interval) (x : Z) :
  0 < den iv -> mid iv <= hi iv ->
  cmp10 (floor10 x (mid iv) (den iv)) x (lo iv) (den iv) <> Lt ->
  within iv (floor10 x (mid iv) (den iv)) x.
Proof.
  intros D H L. apply within_scale.
  rewrite cmp10_scale, Z.compare_ge_iff in L. split; [exact L|].
  destruct (floor10_bounds x (mid iv) (den iv) D) as [F _].
  destruct (scale_pos x (den iv) D) as [_ B]. nia.
Qed.

Lemma within_up (iv : interval) (x : Z) :
  0 < den iv -> lo iv <= mid iv ->
  cmp10 (floor10 x (mid iv) (den iv) + 1) x (hi iv) (den iv) <> Gt ->
  within iv (floor10 x (mid iv) (den iv) + 1) x.
Proof.
  intros D H L. apply within_scale.
  rewrite cmp10_scale, Z.compare_le_iff in L. split; [|exact L].
  destruct (floor10_bounds x (mid iv) (den iv) D) as [_ F].
  destruct (scale_pos x (den iv) D) as [_ B].
  rewrite Z.mul_add_distr_r, Z.mul_1_l. nia.
Qed.

(** What [search] finds rounds to the float. *)
Lemma search_within (fuel : nat) (iv : interval) :
  0 < den iv -> lo iv <= mid iv <= hi iv ->
  forall x d x', search fuel iv x = Some (d, x') -> within iv d x'.
Proof.
  intros D [L H]. induction fuel as [| fuel IH]; intros x d x' S;
    cbn [search] in S; [discriminate|].
  set (f := floor10 x (mid iv) (den iv)) in *.
  destruct (cmp10 f x (lo iv) (den iv)) eqn:CD;
    destruct (cmp10 (f + 1) x (hi iv) (den iv)) eqn:CU;
    destruct (incl iv);
    cbn [andb] in S;
    try (destruct (cmp10 (2 * f + 1) x (2 * mid iv) (den iv));
         try destruct (Z.even f));
    try (injection S as <- <-); subst f;
    try (apply within_down; [assumption | assumption | congruence]);
    try (apply within_up; [assumption | assumption | congruence]);
    try (apply (IH _ _ _ S)).
Qed.

(** The rounding interval of a positive float: positive bounds around the
    value, over a power of two. *)
Lemma rounding_interval_facts (m e : Z) :
  0 < m ->
  0 < lo (rounding_interval m e)
  /\ lo (rounding_interval m e) <= mid (rounding_interval m e)
  /\ mid (rounding_interval m e) <= hi (rounding_interval m e)
  /\ exists j, 0 <= j /\ den (rounding_interval m e) = 2 ^ j.
Proof.
  intros M. unfold rounding_interval, normalize.
  set (s := Z.max 0 (Z.min (52 - Z.log2 m) (e + 1074))).
  assert (C : 0 < m * 2 ^ s)
    by (apply Z.mul_pos_pos; [lia | apply Z.pow_pos_nonneg; lia]).
  set (mc := m * 2 ^ s) in *. cbv beta iota zeta.
  destruct ((mc =? 2 ^ 52) && (-1074 <? e - s));
    destruct (Z.leb_spec 0 (e - s - 2)) as [B | B]; cbn [lo mid hi den];
    try (assert (0 < 2 ^ (e - s - 2)) by (apply Z.pow_pos_nonneg; lia));
    (split; [nia|]); (split; [nia|]); (split; [nia|]);
    first [ exists 0; split; [lia | reflexivity]
          | exists (- (e - s - 2)); split; [lia | reflexivity] ].
Qed.

Lemma den_pos (m e : Z) : 0 < m -> 0 < den (rounding_interval m e).
Proof.
  intros M. destruct (rounding_interval_facts m e M) as (_ & _ & _ & j & J & ->).
  apply Z.pow_pos_nonneg; lia.
Qed.

(** A decimal inside a positive interval is positive. *)
Lemma within_pos (iv : interval) (d x : Z) :
  0 < den iv -> 0 < lo iv -> within iv d x -> 0 < d.
Proof.
  intros D L W. apply within_scale in W. destruct W as [W _].
  destruct (scale_pos x (den iv) D) as [A B]. nia.
Qed.

(** The full expansion is the value itself. *)
Lemma exact_within (iv : interval) (j : Z) :
  0 <= j -> den iv = 2 ^ j -> lo iv <= mid iv <= hi iv ->
  within iv (fst (exact iv)) (snd (exact iv)).
Proof.
  intros J E [L H]. apply within_scale. unfold exact. cbn [fst snd].
  rewrite E, Z.log2_pow2 by assumption.
  assert (P : 0 < 10 ^ j) by (apply Z.pow_pos_nonneg; lia).
  assert (T : mid iv * 5 ^ j * 2 ^ j = mid iv * 10 ^ j)
    by (rewrite <- Z.mul_assoc, <- Z.pow_mul_l; reflexivity).
  unfold scaleA, scaleB. destruct (Z.leb_spec 0 (- j)) as [Z0 | Z0].
  - assert (j = 0) by lia. subst j. simpl. lia.
  - rewrite Z.opp_involutive, T. nia.
Qed.

(** Dropping a trailing zero digit keeps the number. *)
Lemma cmp10_trim (d x n den : Z) :
  d mod 10 = 0 -> cmp10 (d / 10) (x + 1) n den = cmp10 d x n den.
Proof.
  intros R.
  assert (E : d = 10 * (d / 10)) by (pose proof (Z.div_mod d 10); lia).
  rewrite E at 2. generalize (d / 10). clear. intros q. unfold cmp10.
  destruct (Z.leb_spec 0 x); destruct (Z.leb_spec 0 (x + 1)); try lia.
  - rewrite Z.pow_add_r, Z.pow_1_r by lia. f_equal. ring.
  - assert (x = -1) by lia. subst x.
    change (-1 + 1) with 0. change (- -1) with 1.
    rewrite Z.pow_0_r, Z.pow_1_r.
    rewrite (Zmult_compare_compat_l (q * 1 * den) n 10) by lia.
    f_equal; ring.
  - replace (- x) with (1 + - (x + 1)) by lia.
    rewrite Z.pow_add_r, Z.pow_1_r by lia.
    rewrite (Zmult_compare_compat_l (q * den) _ 10) by lia.
    f_equal; ring.
Qed.

(** [trim] stops at a digit that is not zero, and keeps the number. *)
Lemma trim_spec (fuel : nat) :
  forall d x, 0 < d < 2 ^ Z.of_nat fuel ->
  0 < fst (trim fuel d x) /\ fst (trim fuel d x) mod 10 <> 0
  /\ forall n den,
       cmp10 (fst (trim fuel d x)) (snd (trim fuel d x)) n den
       = cmp10 d x n den.
Proof.
  induction fuel as [| fuel IH]; intros d x D.
  - simpl in D. lia.
  - cbn [trim].
    destruct (Z.eqb_spec (d mod 10) 0) as [R | R];
      destruct (Z.eqb_spec d 0) as [Z0 | Z0];
      cbn [andb negb fst snd]; try lia.
    + assert (Q : 0 < d / 10 < 2 ^ Z.of_nat fuel).
      { rewrite Nat2Z.inj_succ, Z.pow_succ_r in D by lia.
        pose proof (Z.div_mod d 10). lia. }
      destruct (IH (d / 10) (x + 1) Q) as (P & N & C).
      split; [exact P|]. split; [exact N|].
      intros n den. rewrite C. now apply cmp10_trim.
    + split; [lia|]. split; [exact R | reflexivity].
Qed.

(** The digits [FormatFloat] prints: a number that rounds to the float,
    without trailing zero. *)
Lemma shortest_spec (m e : Z) :
  0 < m ->
  0 < fst (shortest m e) /\ fst (shortest m e) mod 10 <> 0
  /\ within (rounding_interval m e) (fst (shortest m e)) (snd (shortest m e)).
Proof.
  intros M.
  destruct (rounding_interval_facts m e M) as (L & LM & MH & j & J & E).
  pose proof (den_pos m e M) as D.
  unfold shortest. set (iv := rounding_interval m e) in *.
  set (r := match search 17 iv (point (mid iv) (den iv) - 1) with
            | Some r => r
            | None => exact iv
            end).
  assert (W : within iv (fst r) (snd r)).
  { unfold r. destruct (search 17 iv _) as [[d x] |] eqn:S.
    - apply (search_within 17 iv D (conj LM MH) _ _ _ S).
    - apply (exact_within iv j J E (conj LM MH)). }
  destruct r as [d x]. cbn [fst snd] in W.
  pose proof (within_pos iv d x D L W) as P.
  assert (B : 0 < d < 2 ^ Z.of_nat (S (Z.to_nat (Z.log2 d)))).
  { rewrite Nat2Z.inj_succ, Z2Nat.id by apply Z.log2_nonneg.
    split; [lia|]. apply Z.log2_spec; lia. }
  destruct (trim_spec _ d x B) as (P' & N & C).
  split; [exact P'|]. split; [exact N|].
  unfold within. rewrite !C. exact W.
Qed.

(** No whole number rounds to a float with a fractional part. *)
Lemma no_integer_within (m e d x : Z) :
  e < 0 -> m mod 2 ^ (- e) <> 0 ->
  within (rounding_interval m e) d x -> x < 0.
Proof.
  intros E R W. destruct (Z.ltb_spec x 0) as [| X]; [assumption | exfalso].
  apply within_scale in W. unfold scaleA, scaleB in W.
  replace (0 <=? x) with true in W by (symmetry; apply Z.leb_le; lia).
  revert W. unfold rounding_interval, normalize.
  set (s := Z.max 0 (Z.min (52 - Z.log2 m) (e + 1074))).
  assert (S0 : 0 <= s) by apply Z.le_max_l.
  cbv beta iota zeta.
  replace (0 <=? e - s - 2) with false by (symmetry; apply Z.leb_gt; lia).
  assert (P2 : 2 ^ (- (e - s - 2)) = 4 * (2 ^ s * 2 ^ (- e))).
  { replace (- (e - s - 2)) with (2 + (s + - e)) by lia.
    rewrite !Z.pow_add_r by lia. reflexivity. }
  rewrite P2. clear P2.
  assert (PS : 0 < 2 ^ s) by (apply Z.pow_pos_nonneg; lia).
  intros W. apply R.
  assert (F : m * 2 ^ s = d * 10 ^ x * 2 ^ (- e) * 2 ^ s)
    by (destruct ((m * 2 ^ s =? 2 ^ 52) && (-1074 <? e - s));
        cbn [lo hi den] in W; lia).
  apply Z.mul_reg_r in F; [|lia]. rewrite F. apply Z.mod_mul.
  apply Z.pow_nonzero; lia.
Qed.

(** ** The layout of the digits *)

Lemma append_nonempty_r (a b : string) : b <> "" -> a +++ b <> "".
Proof. destruct a; simpl; [auto | discriminate]. Qed.

Lemma append_nonempty_l (a b : string) : a <> "" -> a +++ b <> "".
Proof. destruct a; simpl; [auto | discriminate]. Qed.

Lemma last_char_cons (c : ascii) (s : string) :
  s <> "" -> last_char (String c s) = last_char s.
Proof. destruct s; [congruence | reflexivity]. Qed.

Lemma last_char_append (a b : string) :
  b <> "" -> last_char (a +++ b) = last_char b.
Proof.
  intros B. induction a as [| c a IH]; [reflexivity|].
  change (String c a +++ b) with (String c (a +++ b)).
  rewrite last_char_cons by now apply append_nonempty_r. exact IH.
Qed.

Lemma drop_nonempty (n : nat) :
  forall s, (n < String.length s)%nat -> drop n s <> "".
Proof.
  induction n as [| n IH]; intros [| c s] L; simpl in *; try lia;
    try discriminate.
  apply IH. lia.
Qed.

Lemma last_char_drop (n : nat) :
  forall s, (n < String.length s)%nat -> last_char (drop n s) = last_char s.
Proof.
  induction n as [| n IH]; intros [| c s] L; try reflexivity.
  cbn [drop]. cbn [String.length] in L.
  rewrite IH by lia. symmetry. apply last_char_cons.
  destruct s; [simpl in L; lia | discriminate].
Qed.

Lemma digits_aux_last (fuel : nat) :
  forall n acc, acc <> "" ->
  digits_aux fuel n acc <> ""
  /\ last_char (digits_aux fuel n acc) = last_char acc.
Proof.
  induction fuel as [| fuel IH]; intros n acc A; cbn [digits_aux].
  - split; [exact A | reflexivity].
  - destruct (n <? 10).
    + split; [discriminate | now apply last_char_cons].
    + destruct (IH (n / 10) (String (digit_char (n mod 10)) acc))
        as [N L]; [discriminate|].
      split; [exact N|]. rewrite L. now apply last_char_cons.
Qed.

(** A numeral has a digit, and ends in the digit of the units. *)
Lemma decimal_last (n : Z) :
  decimal n <> "" /\ last_char (decimal n) = digit_char (n mod 10).
Proof.
  unfold decimal. cbn [digits_aux]. destruct (n <? 10).
  - split; [discriminate | reflexivity].
  - destruct (digits_aux_last (Z.to_nat (Z.log2 n)) (n / 10)
                (String (digit_char (n mod 10)) "")) as [N L];
      [discriminate|].
    split; [exact N | exact L].
Qed.

Lemma digit_char_not_zero (n : Z) :
  n mod 10 <> 0 -> digit_char (n mod 10) <> "0"%char.
Proof.
  intros R. pose proof (Z.mod_pos_bound n 10 ltac:(lia)) as B.
  assert (C : n mod 10 = 1 \/ n mod 10 = 2 \/ n mod 10 = 3 \/ n mod 10 = 4
              \/ n mod 10 = 5 \/ n mod 10 = 6 \/ n mod 10 = 7
              \/ n mod 10 = 8 \/ n mod 10 = 9) by lia.
  repeat destruct C as [C | C]; rewrite C; discriminate.
Qed.

Lemma FormatInt_nonempty (i : Z) : FormatInt i <> "".
Proof.
  unfold FormatInt. destruct (i <? 0); [discriminate|].
  apply decimal_last.
Qed.

Lemma fmtF_nonempty (d x : Z) : fmtF d x <> "".
Proof.
  unfold fmtF. destruct (0 <=? x).
  - apply append_nonempty_l, decimal_last.
  - cbv zeta. destruct (_ <? _)%nat; [|discriminate].
    apply append_nonempty_r. discriminate.
Qed.

(** Digits behind the point: the string has a point and ends in the last
    digit. *)
Lemma fmtF_fraction (d x : Z) :
  x < 0 ->
  has_point (fmtF d x) /\ last_char (fmtF d x) = digit_char (d mod 10).
Proof.
  intros X. destruct (decimal_last d) as [N L]. unfold fmtF.
  replace (0 <=? x) with false by (symmetry; apply Z.leb_gt; lia).
  cbv zeta. destruct (Nat.ltb_spec (Z.to_nat (- x)) (String.length (decimal d)))
    as [K | K].
  - split; [eexists _, _; reflexivity|].
    assert (Q : (String.length (decimal d) - Z.to_nat (- x)
                 < String.length (decimal d))%nat) by lia.
    rewrite last_char_append by discriminate.
    rewrite last_char_cons by now apply drop_nonempty.
    rewrite last_char_drop by exact Q. exact L.
  - split; [exists "0", (zeros (Z.to_nat (- x) - String.length (decimal d))
                          +++ decimal d); reflexivity|].
    rewrite last_char_cons by discriminate.
    rewrite last_char_cons by now apply append_nonempty_r.
    rewrite last_char_append by exact N. exact L.
Qed.

Lemma sign_prefix_nonempty (s : bool) (t : string) :
  t <> "" -> sign_prefix s t <> "".
Proof. destruct s; simpl; [discriminate | auto]. Qed.

Lemma sign_prefix_fraction (s : bool) (t : string) (c : ascii) :
  has_point t /\ last_char t = c -> t <> "" ->
  has_point (sign_prefix s t) /\ last_char (sign_prefix s t) = c.
Proof.
  intros [P L] N. destruct s; cbn [sign_prefix]; [|split; assumption].
  destruct P as (a & b & E). split.
  - exists (String "-" a), b. now rewrite E.
  - now rewrite last_char_cons.
Qed.

Lemma FormatFloat_nonempty (v : float64) : FormatFloat v <> "".
Proof.
  destruct v as [| [|] | s m e]; try discriminate. unfold FormatFloat.
  apply sign_prefix_nonempty. destruct (m =? 0); [discriminate|].
  destruct (shortest m e). apply fmtF_nonempty.
Qed.

(** ** The conversion to [int64] and back *)

Lemma wrap64_range (z : Z) : Z.abs (wrap64 z) <= 2 ^ 63.
Proof.
  unfold wrap64. pose proof (Z.mod_pos_bound (z + 2 ^ 63) (2 ^ 64)). lia.
Qed.

(** No [int64] converts to a float beyond [2^63]. *)
Lemma of_int64_bound (w : Z) :
  Z.abs w <= 2 ^ 63 ->
  exists s q k, of_int64 w = Fin s q k /\ 0 <= k /\ 0 <= q
                /\ q * 2 ^ k <= 2 ^ 63.
Proof.
  intros A. unfold of_int64.
  destruct (Z.ltb_spec (Z.abs w) (2 ^ 53)) as [B | B].
  - eexists _, _, 0. split; [reflexivity|]. lia.
  - set (a := Z.abs w) in *. set (k := Z.log2 a - 52).
    assert (L1 : 53 <= Z.log2 a) by (apply Z.log2_le_pow2; lia).
    assert (L2 : Z.log2 a <= 63)
      by (rewrite <- (Z.log2_pow2 63) by lia; apply Z.log2_le_mono; lia).
    assert (K : 1 <= k <= 11) by (unfold k; lia).
    assert (P : 0 < 2 ^ k) by (apply Z.pow_pos_nonneg; lia).
    assert (H : 0 < 2 ^ (k - 1)) by (apply Z.pow_pos_nonneg; lia).
    assert (T : 2 ^ 63 = 2 ^ (63 - k) * 2 ^ k)
      by (rewrite <- Z.pow_add_r by lia; f_equal; lia).
    assert (Q0 : 0 <= a / 2 ^ k) by (apply Z.div_pos; lia).
    assert (Q1 : a / 2 ^ k <= 2 ^ (63 - k)).
    { rewrite <- (Z.div_mul (2 ^ (63 - k)) (2 ^ k)) by lia.
      apply Z.div_le_mono; lia. }
    eexists _, _, k. split; [reflexivity|]. split; [lia|].
    destruct ((2 ^ (k - 1) <? a mod 2 ^ k)
              || ((a mod 2 ^ k =? 2 ^ (k - 1)) && Z.odd (a / 2 ^ k)))
      eqn:U.
    + assert (R : 0 < a mod 2 ^ k).
      { apply orb_true_iff in U. destruct U as [U | U].
        - apply Z.ltb_lt in U. lia.
        - apply andb_true_iff in U. destruct U as [U _].
          apply Z.eqb_eq in U. lia. }
      assert (N : a <> 2 ^ 63).
      { intros E. rewrite E, T, Z.mod_mul in R by lia. lia. }
      assert (Q2 : a / 2 ^ k < 2 ^ (63 - k)).
      { apply Z.div_lt_upper_bound; [lia|]. rewrite Z.mul_comm, <- T. lia. }
      split; [lia|]. rewrite T. apply Z.mul_le_mono_nonneg_r; lia.
    + split; [lia|]. rewrite T. apply Z.mul_le_mono_nonneg_r; lia.
Qed.

(** A whole number beyond [2^63] differs from the float of every
    [int64]. *)
Lemma beyond_int64_no_int64 (overflow : float64 -> Z) (v : float64) :
  valid v = true -> 2 ^ 63 < Z.abs (trunc v) ->
  Float64.eqb v (of_int64 (to_int64 overflow v)) = false.
Proof.
  intros V T.
  destruct v as [| sg | s m e]; [reflexivity | simpl in T; lia |].
  unfold valid in V.
  apply andb_true_iff in V. destruct V as [V _].
  apply andb_true_iff in V. destruct V as [V _].
  apply andb_true_iff in V. destruct V as [M0 M1].
  apply Z.leb_le in M0. apply Z.ltb_lt in M1.
  unfold trunc in T.
  assert (S0 : 0 <= Z.shiftl m e) by now apply Z.shiftl_nonneg.
  rewrite abs_signed in T by assumption.
  destruct (Z.ltb_spec e 0) as [E | E].
  { exfalso. rewrite Z.shiftl_div_pow2 in T by lia.
    assert (0 < 2 ^ (- e)) by (apply Z.pow_pos_nonneg; lia).
    assert (m / 2 ^ (- e) <= m) by (apply Z.div_le_upper_bound; nia).
    lia. }
  rewrite Z.shiftl_mul_pow2 in T by assumption.
  assert (R : in_int64 (trunc (Fin s m e)) = false).
  { unfold in_int64, trunc, int64_min, int64_max.
    rewrite Z.shiftl_mul_pow2 by assumption.
    destruct s; simpl signed.
    - replace (- 2 ^ 63 <=? - (m * 2 ^ e)) with false; [reflexivity|].
      symmetry. apply Z.leb_gt. lia.
    - replace (m * 2 ^ e <=? 2 ^ 63 - 1) with false;
        [apply andb_false_r|].
      symmetry. apply Z.leb_gt. lia. }
  unfold to_int64. rewrite R.
  destruct (of_int64_bound (wrap64 (overflow (Fin s m e)))
              (wrap64_range _)) as (s2 & q & k & -> & K & Q & B).
  destruct (Float64.eqb _ _) eqn:X; [exfalso | reflexivity].
  apply eqb_fin in X.
  set (mn := Z.min e k) in *.
  assert (MN : 0 <= mn <= e /\ mn <= k) by (unfold mn; lia).
  assert (PM : 0 < 2 ^ mn) by (apply Z.pow_pos_nonneg; lia).
  assert (Y : signed s m * 2 ^ e = signed s2 q * 2 ^ k).
  { replace e with (e - mn + mn) at 1 by lia.
    replace k with (k - mn + mn) at 1 by lia.
    rewrite !Z.pow_add_r, !Z.mul_assoc by lia. now rewrite X. }
  rewrite <- !signed_mul in Y.
  assert (Z.abs (signed s (m * 2 ^ e)) = Z.abs (signed s2 (q * 2 ^ k)))
    by now rewrite Y.
  rewrite !abs_signed in * by nia. lia.
Qed.

(** ** The numeric values of a filter *)

Lemma convertSingleFilter_numeric (overflow : float64 -> Z)
    (filter : FilterConfig) :
  fc_Type filter = "numeric" ->
  numeric_value_of (convertSingleFilter overflow filter)
  = Some (encode_numeric overflow (fc_NumericValue filter)).
Proof.
  intros T. unfold convertSingleFilter, encode_numeric. rewrite T.
  reflexivity.
Qed.

Lemma convertSingleFilter_between (overflow : float64 -> Z)
    (filter : FilterConfig) :
  fc_Type filter = "between" ->
  between_values_of (convertSingleFilter overflow filter)
  = Some (encode_numeric overflow (fc_BetweenFrom filter),
          encode_numeric overflow (fc_BetweenTo filter)).
Proof.
  intros T. unfold convertSingleFilter, encode_numeric. rewrite T.
  reflexivity.
Qed.

Lemma encode_numeric_one_token (overflow : float64 -> Z) (v : float64) :
  one_token (encode_numeric overflow v).
Proof.
  unfold encode_numeric, one_token.
  destruct (Float64.eqb v _); cbn [nv_Int64Value nv_DoubleValue].
  - left. split; [apply FormatInt_nonempty | reflexivity].
  - right. split; [reflexivity | apply FormatFloat_nonempty].
Qed.

Lemma encode_numeric_integer (overflow : float64 -> Z) (v : float64) :
  valid v = true -> is_integer v = true -> in_int64 (trunc v) = true ->
  encode_numeric overflow v = integer_token (trunc v).
Proof.
  intros V I R. destruct v as [| sg | s m e]; try discriminate.
  destruct (integer_is_int64 overflow s m e V I R) as [T E].
  unfold encode_numeric. now rewrite E, T.
Qed.

Lemma encode_numeric_fraction (overflow : float64 -> Z) (v : float64) :
  is_integer v = false -> encode_numeric overflow v = decimal_token v.
Proof.
  intros N. unfold encode_numeric.
  now rewrite (not_integer_no_int64 overflow v N).
Qed.

Lemma encode_numeric_beyond (overflow : float64 -> Z) (v : float64) :
  valid v = true -> 2 ^ 63 < Z.abs (trunc v) ->
  encode_numeric overflow v = decimal_token v.
Proof.
  intros V T. unfold encode_numeric.
  now rewrite (beyond_int64_no_int64 overflow v V T).
Qed.

(** A float with a fractional part is printed with a point, digits that
    round to it, and no zero at the end. *)
Lemma FormatFloat_fraction (s : bool) (m e : Z) :
  valid (Fin s m e) = true -> is_integer (Fin s m e) = false ->
  has_point (FormatFloat (Fin s m e))
  /\ last_char (FormatFloat (Fin s m e)) <> "0"%char
  /\ exists d x, FormatFloat (Fin s m e) = sign_prefix s (fmtF d x)
                 /\ x < 0 /\ d mod 10 <> 0
                 /\ within (rounding_interval m e) d x.
Proof.
  intros V N. unfold valid in V.
  apply andb_true_iff in V. destruct V as [V _].
  apply andb_true_iff in V. destruct V as [V _].
  apply andb_true_iff in V. destruct V as [M0 _]. apply Z.leb_le in M0.
  unfold is_integer in N. apply orb_false_iff in N. destruct N as [E R].
  apply Z.leb_gt in E. apply Z.eqb_neq in R.
  assert (M : 0 < m).
  { destruct (Z.eq_dec m 0) as [-> | ]; [|lia].
    rewrite Z.mod_0_l in R by (apply Z.pow_nonzero; lia). congruence. }
  destruct (shortest_spec m e M) as (P & T & W).
  pose proof (no_integer_within m e _ _ E R W) as X.
  unfold FormatFloat.
  replace (m =? 0) with false by (symmetry; apply Z.eqb_neq; lia).
  destruct (shortest m e) as [d x]. cbn [fst snd] in *.
  destruct (sign_prefix_fraction s (fmtF d x) (digit_char (d mod 10))
              (fmtF_fraction d x X) (fmtF_nonempty d x)) as [HP LC].
  split; [exact HP|]. split.
  - rewrite LC. now apply digit_char_not_zero.
  - exists d, x. split; [reflexivity|]. split; [exact X|].
    split; [exact T | exact W].
Qed.

(** C5 (amended).  The three numeric values of a filter, the value of a
    numeric filter and the two bounds of a between filter, are encoded by
    one rule, [encode_numeric], which fills exactly one of the two token
    fields.  A finite value without fractional part whose truncation is an
    [int64] gets the integer token of that truncation.  A value with a
    fractional part, an infinity or NaN gets the token of [FormatFloat],
    and so does, on every platform, a whole number beyond [2^63] in
    magnitude.  The token of a finite value with a fractional part has a
    decimal point, ends in a digit other than zero, and its digits round to
    the value. *)
Theorem numeric_values_follow_one_rule
    (overflow : float64 -> Z) (filter : FilterConfig) (v : float64) :
  (fc_Type filter = "numeric" ->
   numeric_value_of (convertSingleFilter overflow filter)
   = Some (encode_numeric overflow (fc_NumericValue filter)))
  /\ (fc_Type filter = "between" ->
      between_values_of (convertSingleFilter overflow filter)
      = Some (encode_numeric overflow (fc_BetweenFrom filter),
              encode_numeric overflow (fc_BetweenTo filter)))
  /\ one_token (encode_numeric overflow v)
  /\ (valid v = true -> is_integer v = true -> in_int64 (trunc v) = true ->
      encode_numeric overflow v = integer_token (trunc v))
  /\ (is_integer v = false -> encode_numeric overflow v = decimal_token v)
  /\ (valid v = true -> 2 ^ 63 < Z.abs (trunc v) ->
      encode_numeric overflow v = decimal_token v)
  /\ (forall s m e,
      v = Fin s m e -> valid v = true -> is_integer v = false ->
      has_point (FormatFloat v)
      /\ last_char (FormatFloat v) <> "0"%char
      /\ exists d x, FormatFloat v = sign_prefix s (fmtF d x)
                     /\ x < 0 /\ d mod 10 <> 0
                     /\ within (rounding_interval m e) d x).
Proof.
  split; [apply convertSingleFilter_numeric|].
  split; [apply convertSingleFilter_between|].
  split; [apply encode_numeric_one_token|].
  split; [apply encode_numeric_integer|].
  split; [apply encode_numeric_fraction|].
  split; [apply encode_numeric_beyond|].
  intros s m e ->. apply FormatFloat_fraction.
Qed.

(** C5 as stated fails for a whole number that [int64] cannot hold:
    [1e20] equals its truncation, and is encoded as a decimal token
    whatever the platform makes of the conversion. *)
Lemma whole_number_beyond_int64_is_a_decimal_token :
  valid ten_to_20 = true
  /\ is_integer ten_to_20 = true
  /\ trunc ten_to_20 = 10 ^ 20
  /\ forall overflow : float64 -> Z,
       numeric_value_of
         (convertSingleFilter overflow
            (numeric_filter "sessions" "GREATER_THAN" ten_to_20))
       = Some {| nv_Int64Value := "";
                 nv_DoubleValue := "100000000000000000000" |}.
Proof.
  split; [reflexivity|]. split; [reflexivity|]. split; [reflexivity|].
  intros overflow.
  rewrite convertSingleFilter_numeric by reflexivity.
  cbn [fc_NumericValue numeric_filter].
  rewrite encode_numeric_beyond by reflexivity.
  vm_compute. reflexivity.
Qed.

(** The theorem at the values of the specification's example, on x86-64:
    5 is the integer token [5], 5.5 the decimal token [5.5]. *)
Lemma numeric_values_follow_one_rule_witness :
  numeric_value_of
    (convertSingleFilter indefinite
       (numeric_filter "sessions" "GREATER_THAN" five))
  = Some {| nv_Int64Value := "5"; nv_DoubleValue := "" |}
  /\ between_values_of
       (convertSingleFilter indefinite
          (between_filter "bounceRate" five five_and_a_half))
     = Some ({| nv_Int64Value := "5"; nv_DoubleValue := "" |},
             {| nv_Int64Value := ""; nv_DoubleValue := "5.5" |})
  /\ has_point "5.5"
  /\ last_char "5.5" <> "0"%char.
Proof.
  destruct (numeric_values_follow_one_rule indefinite
              (numeric_filter "sessions" "GREATER_THAN" five) five)
    as (N & _ & _ & I & _).
  destruct (numeric_values_follow_one_rule indefinite
              (between_filter "bounceRate" five five_and_a_half)
              five_and_a_half)
    as (_ & B & _ & _ & F & _ & P).
  split.
  { rewrite (N eq_refl).
    cbn [fc_NumericValue numeric_filter].
    rewrite (I eq_refl eq_refl eq_refl). reflexivity. }
  split.
  { rewrite (B eq_refl).
    cbn [fc_BetweenFrom fc_BetweenTo between_filter].
    rewrite (I eq_refl eq_refl eq_refl), (F eq_refl). reflexivity. }
  destruct (P false 11 (-1) eq_refl eq_refl eq_refl) as (HP & LC & _).
  split; [exact HP | exact LC].
Defined.

End Floats.

(* ====================================================================== *)
(** * What validation accepts                                             *)
(* ====================================================================== *)

Section Acceptance.
Import api query executor accepted.

Lemma contains_In (slice : list string) (item : string) :
  contains slice item = true <-> In item slice.
Proof.
  unfold contains. rewrite existsb_exists. split.
  - intros (x & I & E). apply String.eqb_eq in E. now subst.
  - intros I. exists item. split; [exact I | apply String.eqb_refl].
Qed.

Lemma contains_not_In (slice : list string) (item : string) :
  contains slice item = false <-> ~ In item slice.
Proof.
  rewrite <- contains_In. destruct (contains slice item); split; congruence.
Qed.

Lemma len_nonempty {A} (l : list A) : (len l =? 0) = false <-> l <> [].
Proof.
  unfold len. destruct l; simpl; split; congruence || discriminate.
Qed.

Lemma validateFilter_accepts (f : FilterConfig) :
  snd (validateFilter f) = None <-> acceptable_filter f.
Proof.
  unfold validateFilter, acceptable_filter.
  destruct (String.eqb_spec (fc_FieldName f) "") as [N | N];
    [cbn [snd]; split; [discriminate | tauto]|].
  destruct (String.eqb_spec (fc_Type f) "string") as [T1 | T1].
  { destruct (String.eqb_spec (fc_StringMatchType f) "") as [M | M].
    - cbn [set_StringMatchType fc_StringValue fc_StringMatchType].
      destruct (String.eqb_spec (fc_StringValue f) "") as [V | V];
        cbn [snd negb contains existsb String.eqb orb];
        split; try discriminate; try tauto.
      intros (_ & [(_ & V' & _) | [(T & _) | [(T & _) | [(T & _) | T]]]]);
        congruence.
    - destruct (String.eqb_spec (fc_StringValue f) "") as [V | V].
      + cbn [snd]. split; [discriminate|].
        intros (_ & [(_ & V' & _) | [(T & _) | [(T & _) | [(T & _) | T]]]]);
          congruence.
      + destruct (contains _ (fc_StringMatchType f)) eqn:C; cbn [negb snd].
        * apply contains_In in C. split; [|reflexivity]. intros _.
          split; [exact N|]. left. tauto.
        * apply contains_not_In in C. split; [discriminate|].
          intros (_ & [(_ & _ & [M' | I]) | [(T & _) | [(T & _)
                        | [(T & _) | T]]]]); congruence || tauto. }
  destruct (String.eqb_spec (fc_Type f) "numeric") as [T2 | T2].
  { destruct (String.eqb_spec (fc_NumericOperation f) "") as [O | O].
    - cbn [snd]. split; [discriminate|].
      intros (_ & [(T & _) | [(_ & I) | [(T & _) | [(T & _) | T]]]]);
        try congruence.
      rewrite O in I. simpl in I. intuition discriminate.
    - destruct (contains _ (fc_NumericOperation f)) eqn:C; cbn [negb snd].
      + apply contains_In in C. split; [|reflexivity]. intros _.
        split; [exact N|]. right. left. tauto.
      + apply contains_not_In in C. split; [discriminate|].
        intros (_ & [(T & _) | [(_ & I) | [(T & _) | [(T & _) | T]]]]);
          congruence || tauto. }
  destruct (String.eqb_spec (fc_Type f) "between") as [T3 | T3].
  { destruct (Float64.geb _ _) eqn:G; cbn [snd].
    - split; [discriminate|].
      intros (_ & [(T & _) | [(T & _) | [(_ & G') | [(T & _) | T]]]]);
        congruence.
    - split; [|reflexivity]. intros _. split; [exact N|].
      right. right. left. tauto. }
  destruct (String.eqb_spec (fc_Type f) "in_list") as [T4 | T4].
  { destruct (len (elems (fc_InListValues f)) =? 0) eqn:L; cbn [snd].
    - apply len_zero in L. split; [discriminate|].
      intros (_ & [(T & _) | [(T & _) | [(T & _) | [(_ & E) | T]]]]);
        congruence.
    - apply len_nonempty in L. split; [|reflexivity]. intros _.
      split; [exact N|]. right. right. right. left. tauto. }
  destruct (String.eqb_spec (fc_Type f) "") as [T5 | T5]; cbn [snd].
  - split; [|reflexivity]. intros _. split; [exact N|]. tauto.
  - split; [discriminate|].
    intros (_ & [(T & _) | [(T & _) | [(T & _) | [(T & _) | T]]]]);
      congruence.
Qed.

Lemma validateFilters_accepts (fs : list FilterConfig) :
  forall i, validateFilters i fs = None <-> Forall acceptable_filter fs.
Proof.
  induction fs as [| f fs IH]; intros i; cbn [validateFilters].
  - split; [constructor | reflexivity].
  - destruct (snd (validateFilter f)) eqn:V.
    + split; [discriminate|]. intros F. inversion F as [| ? ? A _]; subst.
      apply validateFilter_accepts in A. congruence.
    + apply validateFilter_accepts in V. rewrite IH. split.
      * now constructor.
      * intros F. now inversion F.
Qed.

Lemma validateOrderBy_accepts (o : OrderByConfig) (c : QueryConfig) :
  snd (validateOrderBy o c) = None <-> acceptable_order_by c o.
Proof.
  unfold validateOrderBy, acceptable_order_by.
  destruct (String.eqb_spec (obc_FieldName o) "") as [N | N];
    [cbn [snd]; split; [discriminate | tauto]|].
  destruct (String.eqb_spec (obc_FieldType o) "dimension") as [T1 | T1].
  { destruct (contains (elems (qc_Dimensions c)) _) eqn:D; cbn [negb].
    - apply contains_In in D.
      destruct (String.eqb_spec (obc_OrderType o) "") as [O | O]; cbn [negb].
      + cbn [snd]. split; [|reflexivity]. intros _. split; [exact N|].
        left. tauto.
      + destruct (contains _ (obc_OrderType o)) eqn:V; cbn [negb snd].
        * apply contains_In in V. split; [|reflexivity]. intros _.
          split; [exact N|]. left. tauto.
        * apply contains_not_In in V. split; [discriminate|].
          intros (_ & [(_ & _ & [O' | I]) | [(T & _) | (T & _)]]);
            congruence || tauto.
    - apply contains_not_In in D. cbn [snd]. split; [discriminate|].
      intros (_ & [(_ & I & _) | [(T & _) | (T & _)]]);
        congruence || tauto. }
  destruct (String.eqb_spec (obc_FieldType o) "metric") as [T2 | T2].
  { destruct (contains (elems (qc_Metrics c)) _) eqn:M; cbn [negb snd].
    - apply contains_In in M. split; [|reflexivity]. intros _.
      split; [exact N|]. right. left. tauto.
    - apply contains_not_In in M. split; [discriminate|].
      intros (_ & [(T & _) | [(_ & I) | (_ & T & _)]]);
        congruence || tauto. }
  destruct (contains (elems (qc_Dimensions c)) _) eqn:D; cbn [snd].
  - apply contains_In in D. split; [|reflexivity]. intros _.
    split; [exact N|]. right. right. tauto.
  - apply contains_not_In in D.
    destruct (contains (elems (qc_Metrics c)) _) eqn:M; cbn [snd].
    + apply contains_In in M. split; [|reflexivity]. intros _.
      split; [exact N|]. right. right. tauto.
    + apply contains_not_In in M. split; [discriminate|].
      intros (_ & [(T & _) | [(T & _) | (_ & _ & [I | I])]]);
        congruence || tauto.
Qed.

Lemma validateOrderBys_accepts (obs : list OrderByConfig) (c : QueryConfig) :
  forall i, validateOrderBys i obs c = None
            <-> Forall (acceptable_order_by c) obs.
Proof.
  induction obs as [| o obs IH]; intros i; cbn [validateOrderBys].
  - split; [constructor | reflexivity].
  - destruct (snd (validateOrderBy o c)) eqn:V.
    + split; [discriminate|]. intros F. inversion F as [| ? ? A _]; subst.
      apply validateOrderBy_accepts in A. congruence.
    + apply validateOrderBy_accepts in V. rewrite IH. split.
      * now constructor.
      * intros F. now inversion F.
Qed.

Lemma validateQuery_tail (c c0 : QueryConfig) :
  qc_Offset c0 = qc_Offset c -> qc_Filters c0 = qc_Filters c ->
  qc_OrderBy c0 = qc_OrderBy c -> qc_Dimensions c0 = qc_Dimensions c ->
  qc_Metrics c0 = qc_Metrics c ->
  snd (if qc_Offset c0 <? 0
       then (c0, Some "offset cannot be negative")
       else match validateFilters 0 (qc_Filters c0) with
            | Some err => (c0, Some err)
            | None =>
                match validateOrderBys 0 (qc_OrderBy c0) c0 with
                | Some err => (c0, Some err)
                | None => (c0, None)
                end
            end) = None
  <-> 0 <= qc_Offset c
      /\ Forall acceptable_filter (qc_Filters c)
      /\ Forall (acceptable_order_by c) (qc_OrderBy c).
Proof.
  intros O Fs Os Ds Ms. rewrite O, Fs, Os.
  rewrite (validateOrderBys_fields (qc_OrderBy c) 0 c0 c Ds Ms).
  destruct (Z.ltb_spec (qc_Offset c) 0) as [N | N];
    [cbn [snd]; split; [discriminate | lia]|].
  destruct (validateFilters 0 (qc_Filters c)) eqn:VF.
  { cbn [snd]. split; [discriminate|].
    intros (_ & A & _). apply (validateFilters_accepts _ 0) in A.
    congruence. }
  apply validateFilters_accepts in VF.
  destruct (validateOrderBys 0 (qc_OrderBy c) c) eqn:VO.
  { cbn [snd]. split; [discriminate|].
    intros (_ & _ & A). apply (validateOrderBys_accepts _ _ 0) in A.
    congruence. }
  apply validateOrderBys_accepts in VO.
  cbn [snd]. split; [intros _; tauto | reflexivity].
Qed.


End Acceptance.

(* ====================================================================== *)
(** * Properties of the translation to a request                          *)
(* ====================================================================== *)

Section Translation.
Import api query executor accepted props examples.
Variable overflow : Float64.float64 -> Z.

Lemma validateQuery_accepted_lists (c : QueryConfig) :
  snd (validateQuery c) = None ->
  Forall acceptable_filter (qc_Filters c)
  /\ Forall (acceptable_order_by c) (qc_OrderBy c).
Proof.
  unfold validateQuery.
  destruct (String.eqb (qc_PropertyID c) ""); [discriminate|].
  destruct (String.eqb (qc_StartDate c) "" || String.eqb (qc_EndDate c) "");
    [discriminate|].
  destruct ((len (elems (qc_Dimensions c)) =? 0)
            && (len (elems (qc_Metrics c)) =? 0)); [discriminate|].
  destruct (250000 <? qc_Limit c); [discriminate|].
  destruct (qc_Limit c <=? 0); intros V;
    [apply (validateQuery_tail c (set_Limit c 10000)) in V
    | apply (validateQuery_tail c c) in V]; tauto || reflexivity.
Qed.

Lemma configToRequest_order_bys (c : QueryConfig) (r : RunReportRequest) :
  configToRequest overflow c = Ok r ->
  req_OrderBys r
  = map (fun orderBy =>
           if String.eqb (obc_FieldType orderBy) "dimension" then
             {| ob_Desc := obc_Descending orderBy;
                ob_Dimension :=
                  Some {| dob_DimensionName := obc_FieldName orderBy;
                          dob_OrderType := obc_OrderType orderBy |};
                ob_Metric := None |}
           else
             {| ob_Desc := obc_Descending orderBy;
                ob_Dimension := None;
                ob_Metric :=
                  Some {| mob_MetricName := obc_FieldName orderBy |} |})
        (qc_OrderBy c).
Proof.
  unfold configToRequest, bind.
  destruct (if 0 <? len (qc_Filters c) then _ else _); [|discriminate].
  intros E. injection E as <-. reflexivity.
Qed.

(** X3.  An order-by whose field type is left open and whose field is a
    dimension of the query passes validation, which finds it to be a
    dimension, but that finding is written to a copy: the configuration
    keeps the open field type, and the request orders by a metric of that
    name. *)
Theorem order_by_of_open_type_becomes_a_metric_order
    (c c' : QueryConfig) (request : RunReportRequest) (o : OrderByConfig) :
  validateQuery c = (c', None) ->
  configToRequest overflow c' = Ok request ->
  In o (qc_OrderBy c) ->
  obc_FieldType o <> "dimension" -> obc_FieldType o <> "metric" ->
  In (obc_FieldName o) (elems (qc_Dimensions c)) ->
  validateOrderBy o c = (set_FieldType o "dimension", None)
  /\ In o (qc_OrderBy c')
  /\ In {| ob_Desc := obc_Descending o;
           ob_Dimension := None;
           ob_Metric := Some {| mob_MetricName := obc_FieldName o |} |}
        (req_OrderBys request).
Proof.
  intros V R I T1 T2 D.
  assert (V' : snd (validateQuery c) = None) by now rewrite V.
  destruct (validateQuery_accepted_lists c V') as [_ A].
  rewrite Forall_forall in A. destruct (A o I) as [N _].
  pose proof (validateQuery_filters c) as [_ Os]. rewrite V in Os.
  cbn [fst] in Os.
  split; [|split].
  - unfold validateOrderBy.
    destruct (String.eqb_spec (obc_FieldName o) ""); [contradiction|].
    destruct (String.eqb_spec (obc_FieldType o) "dimension");
      [contradiction|].
    destruct (String.eqb_spec (obc_FieldType o) "metric"); [contradiction|].
    apply contains_In in D. now rewrite D.
  - now rewrite Os.
  - rewrite (configToRequest_order_bys c' request R), Os.
    apply in_map_iff. exists o. split; [|exact I].
    destruct (String.eqb_spec (obc_FieldType o) "dimension");
      [contradiction | reflexivity].
Qed.

Lemma supported_dec (f : FilterConfig) : {supported f} + {~ supported f}.
Proof.
  unfold supported.
  destruct (string_dec (fc_Type f) "string"); [left; tauto|].
  destruct (string_dec (fc_Type f) "numeric"); [left; tauto|].
  destruct (string_dec (fc_Type f) "between"); [left; tauto|].
  destruct (string_dec (fc_Type f) "in_list"); [left; tauto|].
  right. tauto.
Qed.

(** The loop of [convertFilters] stops at the first filter of a kind it
    does not know, and names that kind. *)
Lemma convertEach_error (fs : list FilterConfig) (msg : string) :
  convertEach overflow fs = Err msg ->
  exists f, In f fs /\ ~ supported f
            /\ msg = "unsupported filter type: " +++ fc_Type f.
Proof.
  induction fs as [| f fs IH]; cbn [convertEach]; [discriminate|].
  destruct (supported_dec f) as [S | S].
  - destruct (convertSingleFilter_supported overflow f S) as [e ->].
    cbn [bind]. destruct (convertEach overflow fs); [discriminate|].
    cbn [bind]. intros E. destruct IH as (g & I & U & M).
    + injection E as <-. reflexivity.
    + exists g. split; [now right|]. now split.
  - rewrite (convertSingleFilter_unsupported overflow f S). cbn [bind].
    intros E. injection E as <-. exists f. split; [now left|]. now split.
Qed.

Lemma convertEach_ok_supported (fs : list FilterConfig) :
  forall es, convertEach overflow fs = Ok es -> Forall supported fs.
Proof.
  induction fs as [| f fs IH]; intros es; cbn [convertEach];
    [constructor|].
  destruct (supported_dec f) as [S | S].
  - destruct (convertSingleFilter_supported overflow f S) as [e ->].
    cbn [bind]. destruct (convertEach overflow fs) as [es' |]; cbn [bind];
      [|discriminate].
    intros _. constructor; [exact S | now apply (IH es')].
  - rewrite (convertSingleFilter_unsupported overflow f S). discriminate.
Qed.

Lemma convertFilters_of_convertEach (f : FilterConfig)
    (fs : list FilterConfig) :
  match convertEach overflow (f :: fs) with
  | Err m => convertFilters overflow (f :: fs) = Err m
  | Ok es => exists e, convertFilters overflow (f :: fs) = Ok (Some e)
  end.
Proof.
  unfold convertFilters.
  replace (len (f :: fs) =? 0) with false by reflexivity.
  destruct (convertEach overflow (f :: fs)) as [es | m]; cbn [bind];
    [|reflexivity].
  destruct es as [| e [| e' es]]; eexists; reflexivity.
Qed.

Lemma configToRequest_of_convertFilters (c : QueryConfig) :
  configToRequest overflow c
  = match qc_Filters c with
    | [] => configToRequest overflow c
    | _ :: _ =>
        match convertFilters overflow (qc_Filters c) with
        | Err m => Err (wrap "failed to convert filters" m)
        | Ok _ => configToRequest overflow c
        end
    end.
Proof.
  destruct (qc_Filters c) as [| f fs] eqn:Fs; [reflexivity|].
  destruct (convertFilters overflow (f :: fs)) eqn:CF; [reflexivity|].
  unfold configToRequest. rewrite Fs.
  replace (0 <? len (f :: fs)) with true by reflexivity.
  now rewrite CF.
Qed.

(** X4.  [configToRequest] fails exactly when a filter is of a kind other
    than string, numeric, between and in_list, and then names the kind of
    the first such filter.  A request it builds carries the property, the
    dimensions and the metrics of the query in their order, as many
    order-bys as the query, never a metric filter, and a dimension filter
    exactly when the query has filters. *)
Theorem configToRequest_fails_on_unknown_kinds_only (c : QueryConfig) :
  ((exists r, configToRequest overflow c = Ok r)
   <-> Forall supported (qc_Filters c))
  /\ (forall msg, configToRequest overflow c = Err msg ->
        exists f, In f (qc_Filters c) /\ ~ supported f
                  /\ msg = wrap "failed to convert filters"
                             ("unsupported filter type: " +++ fc_Type f))
  /\ (forall r, configToRequest overflow c = Ok r ->
        req_MetricFilter r = None
        /\ req_Property r = qc_PropertyID c
        /\ map dim_Name (req_Dimensions r) = elems (qc_Dimensions c)
        /\ map met_Name (req_Metrics r) = elems (qc_Metrics c)
        /\ List.length (req_OrderBys r) = List.length (qc_OrderBy c)
        /\ (req_DimensionFilter r = None <-> qc_Filters c = [])).
Proof.
  split; [split|split].
  - intros [r R]. rewrite configToRequest_of_convertFilters in R.
    destruct (qc_Filters c) as [| f fs]; [constructor|].
    pose proof (convertFilters_of_convertEach f fs) as CE.
    destruct (convertEach overflow (f :: fs)) as [es | m] eqn:E.
    + now apply (convertEach_ok_supported _ es).
    + rewrite CE in R. discriminate.
  - intros S. unfold configToRequest.
    destruct (qc_Filters c) as [| f fs] eqn:Fs.
    + cbn. eexists. reflexivity.
    + replace (0 <? len (f :: fs)) with true by reflexivity.
      destruct (convertEach_supported overflow (f :: fs) S) as (es & E & _).
      pose proof (convertFilters_of_convertEach f fs) as CE.
      rewrite E in CE. destruct CE as [e ->]. cbn [bind].
      eexists. reflexivity.
  - intros msg R. rewrite configToRequest_of_convertFilters in R.
    destruct (qc_Filters c) as [| f fs] eqn:Fs.
    + unfold configToRequest in R. rewrite Fs in R. discriminate.
    + pose proof (convertFilters_of_convertEach f fs) as CE.
      destruct (convertEach overflow (f :: fs)) as [es | m] eqn:E.
      * destruct CE as [e CE]. rewrite CE in R.
        unfold configToRequest in R. rewrite Fs in R.
        replace (0 <? len (f :: fs)) with true in R by reflexivity.
        rewrite CE in R. discriminate.
      * rewrite CE in R. injection R as <-.
        destruct (convertEach_error (f :: fs) m E) as (g & I & U & ->).
        exists g. split; [exact I|]. now split.
  - intros r R. unfold configToRequest in R.
    destruct (qc_Filters c) as [| f fs] eqn:Fs.
    + cbn in R. injection R as <-. cbn.
      rewrite !map_map, !map_id, !length_map. tauto.
    + replace (0 <? len (f :: fs)) with true in R by reflexivity.
      pose proof (convertFilters_of_convertEach f fs) as CE.
      destruct (convertEach overflow (f :: fs)) as [es | m].
      * destruct CE as [e CE]. rewrite CE in R. cbn [bind] in R.
        injection R as <-. cbn.
        rewrite !map_map, !map_id, !length_map.
        repeat split; congruence.
      * rewrite CE in R. discriminate.
Qed.

End Translation.

(** The specification's example query, ordered by its dimension with the
    field type left open, meets the hypotheses of X3: the request orders
    by a metric called sessionSource. *)
Lemma order_by_of_open_type_becomes_a_metric_order_witness :
  exists request,
    executor.configToRequest examples.indefinite
      (accepted.with_order_by (examples.sessions_query "" 10 0 [])
         [accepted.order_by "sessionSource" "" true])
    = Ok request
    /\ In {| api.ob_Desc := true;
             api.ob_Dimension := None;
             api.ob_Metric :=
               Some {| api.mob_MetricName := "sessionSource" |} |}
          (api.req_OrderBys request).
Proof.
  eexists. split; [vm_compute; reflexivity|].
  refine (proj2 (proj2
    (order_by_of_open_type_becomes_a_metric_order examples.indefinite
       (accepted.with_order_by (examples.sessions_query "" 10 0 [])
          [accepted.order_by "sessionSource" "" true])
       (accepted.with_order_by (examples.sessions_query "" 10 0 [])
          [accepted.order_by "sessionSource" "" true])
       _ (accepted.order_by "sessionSource" "" true) _ _ _ _ _ _))).
  - reflexivity.
  - vm_compute. reflexivity.
  - left. reflexivity.
  - discriminate.
  - discriminate.
  - left. reflexivity.
Defined.

(* ====================================================================== *)
(** * Properties of the template overrides                                *)
(* ====================================================================== *)

Section Overrides.
Import api query executor accepted examples.

Lemma applyOverride_comm (c : QueryConfig) (kv1 kv2 : string * value) :
  fst kv1 <> fst kv2 ->
  applyOverride (applyOverride c kv1) kv2
  = applyOverride (applyOverride c kv2) kv1.
Proof.
  destruct kv1 as [k1 v1], kv2 as [k2 v2]. cbn [fst]. intros N.
  unfold applyOverride.
  destruct (String.eqb_spec k1 "start_date");
    destruct (String.eqb_spec k2 "start_date"); try congruence;
    destruct (String.eqb_spec k1 "end_date");
    destruct (String.eqb_spec k2 "end_date"); try congruence;
    destruct (String.eqb_spec k1 "limit");
    destruct (String.eqb_spec k2 "limit"); try congruence;
    destruct (String.eqb_spec k1 "offset");
    destruct (String.eqb_spec k2 "offset"); try congruence;
    destruct v1, v2; reflexivity.
Qed.

(** The entries of a map may be met in any order. *)
Lemma fold_applyOverride_perm (l1 l2 : list (string * value)) :
  Permutation l1 l2 -> NoDup (map fst l1) ->
  forall c, fold_left applyOverride l1 c = fold_left applyOverride l2 c.
Proof.
  induction 1 as [| kv l1 l2 P IH | kv1 kv2 l | l1 l2 l3 P1 IH1 P2 IH2];
    intros ND c.
  - reflexivity.
  - cbn [fold_left]. apply IH. now inversion ND.
  - cbn [fold_left]. f_equal. apply applyOverride_comm.
    cbn [map] in ND. inversion ND as [| ? ? NI _]; subst.
    intros E. apply NI. left. symmetry. exact E.
  - rewrite IH1 by exact ND. apply IH2.
    apply (Permutation_NoDup (Permutation_map fst P1) ND).
Qed.

Lemma lookup_absent (key : string) (l : list (string * value)) :
  ~ In key (map fst l) -> lookup key l = None.
Proof.
  unfold lookup. induction l as [| kv l IH]; intros NI; [reflexivity|].
  cbn [find]. destruct (String.eqb_spec (fst kv) key) as [E | E].
  - exfalso. apply NI. left. exact E.
  - apply IH. intros I. apply NI. now right.
Qed.

(** A field that one key writes is set by the entry of that key. *)
Lemma fold_applyOverride_field {T} (proj : QueryConfig -> T) (key : string)
    (read : value -> option T) :
  (forall c kv, fst kv = key ->
     proj (applyOverride c kv)
     = match read (snd kv) with Some t => t | None => proj c end) ->
  (forall c kv, fst kv <> key -> proj (applyOverride c kv) = proj c) ->
  forall l c, NoDup (map fst l) ->
    proj (fold_left applyOverride l c)
    = match lookup key l with
      | Some v => match read v with Some t => t | None => proj c end
      | None => proj c
      end.
Proof.
  intros W F. induction l as [| kv l IH]; intros c ND; [reflexivity|].
  cbn [fold_left]. cbn [map] in ND. inversion ND as [| ? ? NI ND']; subst.
  rewrite IH by exact ND'. unfold lookup at 2. cbn [find].
  destruct (String.eqb_spec (fst kv) key) as [E | E].
  - cbn [option_map]. rewrite lookup_absent by (now rewrite <- E).
    now apply W.
  - fold (lookup key l). rewrite (F c kv E). reflexivity.
Qed.

Lemma applyOverride_frame (c : QueryConfig) (kv : string * value) :
  same_but_dates_and_window (applyOverride c kv) c.
Proof.
  destruct kv as [k v]. unfold applyOverride, same_but_dates_and_window.
  destruct (String.eqb k "start_date"); [destruct v; repeat split|].
  destruct (String.eqb k "end_date"); [destruct v; repeat split|].
  destruct (String.eqb k "limit"); [destruct v; repeat split|].
  destruct (String.eqb k "offset"); [destruct v; repeat split|].
  repeat split.
Qed.

Lemma fold_applyOverride_frame (l : list (string * value)) :
  forall c, same_but_dates_and_window (fold_left applyOverride l c) c.
Proof.
  induction l as [| kv l IH]; intros c; cbn [fold_left].
  - unfold same_but_dates_and_window. repeat split.
  - pose proof (IH (applyOverride c kv)) as A.
    pose proof (applyOverride_frame c kv) as B.
    unfold same_but_dates_and_window in *. intuition congruence.
Qed.

(** X5.  [applyOverrides] never fails and reads the overrides as a map:
    the order in which the entries are met does not matter, the start
    date and the end date become the strings under "start_date" and
    "end_date", the limit and the offset the [int64] or [int] values
    under "limit" and "offset"; an entry of another dynamic type, or
    under another key, changes nothing, and no other field of the query
    is written. *)
Theorem applyOverrides_reads_the_map
    (c : QueryConfig) (overrides : list (string * value)) :
  NoDup (map fst overrides) ->
  snd (applyOverrides c overrides) = None
  /\ (forall other, Permutation overrides other ->
        applyOverrides c other = applyOverrides c overrides)
  /\ qc_StartDate (fst (applyOverrides c overrides))
     = match lookup "start_date" overrides with
       | Some (VString str) => str
       | _ => qc_StartDate c
       end
  /\ qc_EndDate (fst (applyOverrides c overrides))
     = match lookup "end_date" overrides with
       | Some (VString str) => str
       | _ => qc_EndDate c
       end
  /\ qc_Limit (fst (applyOverrides c overrides))
     = match lookup "limit" overrides with
       | Some (VInt64 num) | Some (VInt num) => num
       | _ => qc_Limit c
       end
  /\ qc_Offset (fst (applyOverrides c overrides))
     = match lookup "offset" overrides with
       | Some (VInt64 num) | Some (VInt num) => num
       | _ => qc_Offset c
       end
  /\ same_but_dates_and_window (fst (applyOverrides c overrides)) c.
Proof.
  intros ND. unfold applyOverrides. cbn [fst snd].
  split; [reflexivity|]. split.
  { intros other P. f_equal. symmetry.
    now apply fold_applyOverride_perm. }
  split.
  { rewrite (fold_applyOverride_field qc_StartDate "start_date"
               (fun v => match v with VString s => Some s | _ => None end));
      [destruct (lookup "start_date" overrides) as [[]|]; reflexivity
      | | | exact ND].
    - intros c0 [k v] E. cbn [fst snd] in *. subst k.
      destruct v; reflexivity.
    - intros c0 [k v] E. cbn [fst] in E. unfold applyOverride.
      destruct (String.eqb_spec k "start_date"); [contradiction|].
      destruct (String.eqb k "end_date"); [destruct v; reflexivity|].
      destruct (String.eqb k "limit"); [destruct v; reflexivity|].
      destruct (String.eqb k "offset"); [destruct v; reflexivity|].
      reflexivity. }
  split.
  { rewrite (fold_applyOverride_field qc_EndDate "end_date"
               (fun v => match v with VString s => Some s | _ => None end));
      [destruct (lookup "end_date" overrides) as [[]|]; reflexivity
      | | | exact ND].
    - intros c0 [k v] E. cbn [fst snd] in *. subst k.
      destruct v; reflexivity.
    - intros c0 [k v] E. cbn [fst] in E. unfold applyOverride.
      destruct (String.eqb k "start_date"); [destruct v; reflexivity|].
      destruct (String.eqb_spec k "end_date"); [contradiction|].
      destruct (String.eqb k "limit"); [destruct v; reflexivity|].
      destruct (String.eqb k "offset"); [destruct v; reflexivity|].
      reflexivity. }
  split.
  { rewrite (fold_applyOverride_field qc_Limit "limit"
               (fun v => match v with
                         | VInt64 n | VInt n => Some n
                         | _ => None
                         end));
      [destruct (lookup "limit" overrides) as [[]|]; reflexivity
      | | | exact ND].
    - intros c0 [k v] E. cbn [fst snd] in *. subst k.
      destruct v; reflexivity.
    - intros c0 [k v] E. cbn [fst] in E. unfold applyOverride.
      destruct (String.eqb k "start_date"); [destruct v; reflexivity|].
      destruct (String.eqb k "end_date"); [destruct v; reflexivity|].
      destruct (String.eqb_spec k "limit"); [contradiction|].
      destruct (String.eqb k "offset"); [destruct v; reflexivity|].
      reflexivity. }
  split.
  { rewrite (fold_applyOverride_field qc_Offset "offset"
               (fun v => match v with
                         | VInt64 n | VInt n => Some n
                         | _ => None
                         end));
      [destruct (lookup "offset" overrides) as [[]|]; reflexivity
      | | | exact ND].
    - intros c0 [k v] E. cbn [fst snd] in *. subst k.
      destruct v; reflexivity.
    - intros c0 [k v] E. cbn [fst] in E. unfold applyOverride.
      destruct (String.eqb k "start_date"); [destruct v; reflexivity|].
      destruct (String.eqb k "end_date"); [destruct v; reflexivity|].
      destruct (String.eqb k "limit"); [destruct v; reflexivity|].
      destruct (String.eqb_spec k "offset"); [contradiction|].
      reflexivity. }
  apply fold_applyOverride_frame.
Qed.

End Overrides.

(** Three overrides of the specification's example query, one of them of
    a type that is not read, meet the hypothesis of X5. *)
Lemma applyOverrides_reads_the_map_witness :
  NoDup (map fst [("limit", executor.VInt 25);
                  ("start_date", executor.VString "7daysAgo");
                  ("offset", executor.VOther)])
  /\ query.qc_Limit
       (fst (executor.applyOverrides (examples.sessions_query "" 0 0 [])
               [("limit", executor.VInt 25);
                ("start_date", executor.VString "7daysAgo");
                ("offset", executor.VOther)])) = 25
  /\ query.qc_Offset
       (fst (executor.applyOverrides (examples.sessions_query "" 0 0 [])
               [("limit", executor.VInt 25);
                ("start_date", executor.VString "7daysAgo");
                ("offset", executor.VOther)])) = 0.
Proof.
  assert (ND : NoDup (map fst [("limit", executor.VInt 25);
                               ("start_date", executor.VString "7daysAgo");
                               ("offset", executor.VOther)])).
  { repeat constructor; simpl; intuition discriminate. }
  destruct (applyOverrides_reads_the_map (examples.sessions_query "" 0 0 [])
              _ ND) as (_ & _ & _ & _ & L & O & _).
  split; [exact ND|]. split; [exact L | exact O].
Defined.

(* ====================================================================== *)
(** * The outcomes of a run                                               *)
(* ====================================================================== *)

Section Outcomes.
Import api cache time query executor.
Context {C : Type} `{CacheInterface C}.
Variable overflow : Float64.float64 -> Z.
Variable remote : Remote.

(** No error of [RunReport] has an empty message. *)
Lemma RunReport_error_nonempty (request : RunReportRequest)
    (d d' : DataClient C) (msg : string) :
  RunReport remote request d = (d', Err msg) -> msg <> "".
Proof.
  unfold RunReport.
  destruct (String.eqb (req_Property request) "");
    [intros E; injection E as _ <-; discriminate|].
  destruct (List.length (req_DateRanges request) =? 0)%nat;
    [intros E; injection E as _ <-; discriminate|].
  destruct (250000 <? _);
    [intros E; injection E as _ <-; discriminate|].
  destruct (probe remote _ d) as [[d1 queryHash] [r|]]; [discriminate|].
  destruct (authenticate remote);
    [intros E; injection E as _ <-; discriminate|].
  destruct (post remote _ _) as [e | code status body];
    [intros E; injection E as _ <-; discriminate|].
  destruct (code =? 404); [intros E; injection E as _ <-; discriminate|].
  destruct (negb (code =? 200));
    [intros E; injection E as _ <-; discriminate|].
  destruct (decodeResponse remote body);
    [discriminate | intros E; injection E as _ <-; discriminate].
Qed.

(** X6.  [Execute] returns no result exactly when validation or the
    translation to a request rejects the query; it then returns an error,
    and has neither read or written the cache nor called the gateway.  A
    result it returns reports the validated query and the property asked
    for, and its [Error] field is empty exactly when no error is returned
    beside it; with an error it carries that error's message and no
    rows. *)
Theorem Execute_returns_no_result_when_it_rejects
    (config : QueryConfig) (d : DataClient C) :
  let out := Execute overflow remote config d in
  (fst (snd out) = None
   <-> snd (validateQuery config) <> None
       \/ exists m,
            configToRequest overflow (fst (validateQuery config)) = Err m)
  /\ (fst (snd out) = None ->
      snd (snd out) <> None
      /\ cacheClient (fst (fst out)) = cacheClient d
      /\ trace (fst (fst out)) = trace d
      /\ ticks (fst (fst out)) = S (ticks d))
  /\ (forall result, fst (snd out) = Some result ->
      qr_QueryConfig result = Some (snd (fst out))
      /\ qr_PropertyID result = qc_PropertyID config
      /\ (snd (snd out) = None <-> qr_Error result = "")
      /\ (forall msg, snd (snd out) = Some msg ->
            qr_Error result = msg /\ qr_Rows result = []
            /\ qr_RowCount result = 0)).
Proof.
  cbv zeta. unfold Execute. cbn [time_Now].
  destruct (validateQuery config) as [c' [e |]] eqn:V; cbn [fst snd].
  { split; [split; [intros _; left; discriminate | reflexivity]|].
    split; [intros _; repeat split; discriminate | discriminate]. }
  destruct (configToRequest overflow c') as [request | m] eqn:R;
    cbn [fst snd].
  2: { split; [split; [intros _; right; now exists m | reflexivity]|].
       split; [intros _; repeat split; discriminate | discriminate]. }
  pose proof (validateQuery_ok config c' V) as (_ & _ & P).
  destruct (RunReport remote request _) as [d1 [response | msg]] eqn:RR;
    cbn [time_Now fst snd].
  - split.
    { split; [discriminate|]. intros [N | [m M]]; congruence. }
    split; [discriminate|].
    intros result E. injection E as <-. cbn.
    split; [reflexivity|]. split; [exact P|].
    split; [tauto | discriminate].
  - pose proof (RunReport_error_nonempty _ _ _ _ RR) as NE.
    split.
    { split; [discriminate|]. intros [N | [m M]]; congruence. }
    split; [discriminate|].
    intros result E. injection E as <-. cbn.
    split; [reflexivity|]. split; [exact P|].
    split; [split; [discriminate | congruence]|].
    intros msg0 E. injection E as <-. tauto.
Qed.

End Outcomes.

(* ====================================================================== *)
(** * Writing to the cache and reading back                               *)
(* ====================================================================== *)

Section RoundTrips.
Import cache time cacheprops.

Lemma find_nothing {A} (p : A -> bool) (l : list A) :
  (forall x, In x l -> p x = false) -> find p l = None.
Proof.
  induction l as [| a l IH]; intros F; [reflexivity|].
  cbn [find]. rewrite (F a) by now left.
  apply IH. intros x I. apply F. now right.
Qed.

Lemma find_only {A} (p : A -> bool) (l : list A) (x : A) :
  In x l -> p x = true -> (forall y, In y l -> p y = true -> y = x) ->
  find p l = Some x.
Proof.
  induction l as [| a l IH]; intros I P U; [contradiction|].
  cbn [find]. destruct (p a) eqn:Pa.
  - f_equal. apply U; [now left | exact Pa].
  - destruct I as [-> | I]; [congruence|].
    apply IH; [exact I | exact P|].
    intros y Iy. apply U. now right.
Qed.

Lemma insert_or_replace_has {A} (same : A -> bool) (row : A) (t : list A) :
  In row (insert_or_replace same row t).
Proof.
  induction t as [| a t IH]; cbn [insert_or_replace]; [now left|].
  destruct (same a); [now left | now right].
Qed.

Lemma nanos_Add (t : Time) (d : Z) : nanos (Add t d) = nanos t + d.
Proof.
  unfold nanos, Add. cbn [unix nsec].
  pose proof (Z.div_mod (nsec t + d) 1000000000). lia.
Qed.

Lemma After_Add (t now : Time) (d : Z) :
  After t (Add now d) = (nanos now + d <? nanos t).
Proof. unfold After. now rewrite nanos_Add. Qed.

(** A time to live of up to 2,562,047 hours is a duration of that many
    hours; beyond, the duration wraps around. *)
Lemma Hours_exact (h : Z) :
  0 <= h <= 2562047 -> Hours h = h * 3600000000000.
Proof.
  intros B. unfold Hours, Hour, wrap64.
  change (3600 * 1000000000) with 3600000000000.
  rewrite Z.mod_small; lia.
Qed.

(** After a write, the row of the property is the row written. *)
Lemma CacheMetadata_rows (now : Time) (p k data : string) (ttl : Z)
    (c : CacheClient) (row : MetadataRow) :
  primary_keys c ->
  In row (metadata_cache (fst (CacheMetadata now p k (Ok data) ttl c))) ->
  (mrow_property_id row = p
   /\ mrow_cache_type row = k /\ mrow_data row = data
   /\ mrow_expires_at row = Add now (Hours ttl))
  \/ (mrow_property_id row <> p /\ In row (metadata_cache c)).
Proof.
  intros [M _] I. cbn in I.
  apply (insert_or_replace_In mrow_property_id p) in I;
    [| exact M | reflexivity].
  destruct I as [-> | [I N]]; [left; repeat split | right; now split].
Qed.

Lemma CacheMetadata_selected (now : Time) (p k data : string) (ttl : Z)
    (c : CacheClient) :
  primary_keys c ->
  exists row,
    query_row (metadata_key p k)
      (metadata_cache (fst (CacheMetadata now p k (Ok data) ttl c)))
    = Some row
    /\ mrow_data row = data /\ mrow_expires_at row = Add now (Hours ttl).
Proof.
  intros PK.
  exists {| mrow_property_id := p; mrow_cache_type := k; mrow_data := data;
            mrow_created_at := now; mrow_expires_at := Add now (Hours ttl);
            mrow_last_accessed := now |}.
  split; [|split; reflexivity].
  apply find_only.
  - cbn. apply insert_or_replace_has.
  - unfold metadata_key. cbn. now rewrite !String.eqb_refl.
  - intros y I K. unfold metadata_key in K. apply andb_true_iff in K.
    destruct K as [K1 K2]. apply String.eqb_eq in K1.
    cbn in I. apply (insert_or_replace_In mrow_property_id p) in I;
      [| apply PK | reflexivity].
    destruct I as [-> | [_ N]]; [reflexivity | contradiction].
Qed.

(** X7.  The metadata table holds one entry per property, whatever its
    kind: writing an entry of one kind for a property replaces the entry
    that property had, so a read of any other kind for it is a miss, and
    the entries of other properties stay as they are. *)
Theorem metadata_of_another_kind_is_evicted
    {A} (now t : Time) (p k k' data : string) (ttl : Z)
    (u : string -> result A) (c : CacheClient) :
  primary_keys c -> k' <> k ->
  counted_miss (fst (CacheMetadata now p k (Ok data) ttl c))
    (GetCachedMetadata t p k' u
       (fst (CacheMetadata now p k (Ok data) ttl c)))
  /\ (forall row,
        In row (metadata_cache (fst (CacheMetadata now p k (Ok data) ttl c)))
        -> mrow_property_id row = p ->
        mrow_cache_type row = k /\ mrow_data row = data)
  /\ (forall row, mrow_property_id row <> p ->
        (In row (metadata_cache (fst (CacheMetadata now p k (Ok data) ttl c)))
         <-> In row (metadata_cache c))).
Proof.
  intros PK N.
  assert (R : forall row,
             In row (metadata_cache
                       (fst (CacheMetadata now p k (Ok data) ttl c))) ->
             mrow_property_id row = p ->
             mrow_cache_type row = k /\ mrow_data row = data).
  { intros row I P.
    destruct (CacheMetadata_rows now p k data ttl c row PK I)
      as [(_ & K & D & _) | [NP _]]; [now split | contradiction]. }
  split; [|split; [exact R|]].
  - unfold GetCachedMetadata, counted_miss.
    rewrite (find_nothing (metadata_key p k')); [repeat split|].
    intros row I. unfold metadata_key.
    destruct (String.eqb_spec (mrow_property_id row) p) as [P | P];
      [|reflexivity].
    destruct (R row I P) as [K _]. rewrite K. cbn [andb].
    apply String.eqb_neq. congruence.
  - intros row NP. split.
    + intros I.
      destruct (CacheMetadata_rows now p k data ttl c row PK I)
        as [(P & _) | [_ I']]; [contradiction | exact I'].
    + intros I. cbn. clear R.
      induction (metadata_cache c) as [| a l IH]; [contradiction|].
      cbn [insert_or_replace].
      destruct (String.eqb_spec (mrow_property_id a) p) as [E | E].
      * destruct I as [-> | I]; [contradiction | now right].
      * destruct I as [-> | I]; [now left | right; now apply IH].
Qed.

End RoundTrips.

Section RoundTripsOfEntries.
Import cache time cacheprops states.

Lemma CacheQuery_rows (now : Time) (id p h ps data : string) (n : Z)
    (ttl : option Z) (c : CacheClient) (row : QueryRow) :
  primary_keys c ->
  In row (query_cache
            (fst (CacheQuery now id p h (Ok ps) (Ok data) n ttl c))) ->
  (qrow_query_id row = id /\ qrow_query_hash row = h
   /\ qrow_result_data row = data
   /\ qrow_expires_at row = option_map (fun x => Add now (Hours x)) ttl)
  \/ (qrow_query_id row <> id /\ In row (query_cache c)).
Proof.
  intros [_ Q] I. cbn in I.
  apply (insert_or_replace_In qrow_query_id id) in I;
    [| exact Q | reflexivity].
  destruct I as [-> | [I N]]; [left | right; now split].
  destruct ttl; repeat split.
Qed.

Lemma CacheQuery_selected (now : Time) (id p h ps data : string) (n : Z)
    (ttl : option Z) (c : CacheClient) :
  primary_keys c ->
  (forall r, In r (query_cache c) -> qrow_query_hash r = h ->
             qrow_query_id r = id) ->
  exists row,
    query_row (query_key h)
      (query_cache (fst (CacheQuery now id p h (Ok ps) (Ok data) n ttl c)))
    = Some row
    /\ qrow_result_data row = data
    /\ qrow_expires_at row = option_map (fun x => Add now (Hours x)) ttl.
Proof.
  intros PK U.
  exists {| qrow_query_id := id; qrow_property_id := p;
            qrow_query_hash := h; qrow_query_params := ps;
            qrow_result_data := data; qrow_row_count := n;
            qrow_created_at := now;
            qrow_expires_at :=
              match ttl with
              | Some x => Some (Add now (Hours x))
              | None => None
              end;
            qrow_last_accessed := now |}.
  split; [|split; [reflexivity | destruct ttl; reflexivity]].
  apply find_only.
  - cbn. apply insert_or_replace_has.
  - unfold query_key. cbn. apply String.eqb_refl.
  - intros y I K. unfold query_key in K. apply String.eqb_eq in K.
    cbn in I. apply (insert_or_replace_In qrow_query_id id) in I;
      [| apply PK | reflexivity].
    destruct I as [-> | [I N]]; [reflexivity|].
    exfalso. apply N. now apply U.
Qed.

(** X8.  A metadata entry that was written is read back, for its
    property and kind, as long as the clock has not passed the write by
    more than the time to live, and from then on is a miss that removes
    it; a time to live of at most 2,562,047 hours is that many hours.  A
    value that cannot be marshalled is not written. *)
Theorem metadata_is_read_back_until_it_expires
    {A} (now t : Time) (p k data : string) (ttl : Z)
    (u : string -> result A) (v : A) (c : CacheClient) :
  primary_keys c -> u data = Ok v ->
  (nanos t <= nanos now + Hours ttl ->
   hit_with v
     (GetCachedMetadata t p k u
        (fst (CacheMetadata now p k (Ok data) ttl c))))
  /\ (nanos now + Hours ttl < nanos t ->
      counted_miss (fst (CacheMetadata now p k (Ok data) ttl c))
        (GetCachedMetadata t p k u
           (fst (CacheMetadata now p k (Ok data) ttl c)))
      /\ forall row,
           In row (metadata_cache
                     (fst (GetCachedMetadata t p k u
                             (fst (CacheMetadata now p k (Ok data) ttl c)))))
           -> mrow_property_id row <> p)
  /\ (0 <= ttl <= 2562047 -> Hours ttl = ttl * 3600000000000)
  /\ (forall e, CacheMetadata now p k (Err e) ttl c
                = (c, Some (wrap "failed to marshal metadata" e))).
Proof.
  intros PK U.
  destruct (CacheMetadata_selected now p k data ttl c PK)
    as (row & Q & D & X).
  split; [|split; [|split; [apply Hours_exact | reflexivity]]].
  - intros T. apply (GetCachedMetadata_live _ _ _ _ _ row); [exact Q | |].
    + unfold metadata_expired. rewrite X, After_Add.
      apply Z.ltb_ge. exact T.
    + now rewrite D.
  - intros T.
    assert (E : metadata_expired t row = true).
    { unfold metadata_expired. rewrite X, After_Add.
      apply Z.ltb_lt. exact T. }
    destruct (GetCachedMetadata_expired t p k u _ row Q E) as (M & Tb & _).
    split; [exact M|]. intros r I P. rewrite Tb in I.
    apply delete_where_In in I. destruct I as [I K].
    destruct (CacheMetadata_rows now p k data ttl c r PK I)
      as [(_ & Kd & _) | [NP _]]; [|contradiction].
    unfold metadata_key in K. rewrite P, Kd, !String.eqb_refl in K.
    discriminate.
Qed.

(** X9.  A query result that was written under a hash no other row
    carries is read back under that hash as long as the clock has not
    passed the write by more than the time to live, always when there is
    none; once it has, the read is a miss that removes every row of the
    hash. *)
Theorem query_result_is_read_back_until_it_expires
    {A} (now t : Time) (id p h ps data : string) (n : Z) (ttl : option Z)
    (u : string -> result A) (v : A) (c : CacheClient) :
  primary_keys c ->
  (forall r, In r (query_cache c) -> qrow_query_hash r = h ->
             qrow_query_id r = id) ->
  u data = Ok v ->
  (match ttl with
   | Some hours => nanos t <= nanos now + Hours hours
   | None => True
   end ->
   hit_with v
     (GetCachedQuery t h u
        (fst (CacheQuery now id p h (Ok ps) (Ok data) n ttl c))))
  /\ (forall hours, ttl = Some hours -> nanos now + Hours hours < nanos t ->
      counted_miss (fst (CacheQuery now id p h (Ok ps) (Ok data) n ttl c))
        (GetCachedQuery t h u
           (fst (CacheQuery now id p h (Ok ps) (Ok data) n ttl c)))
      /\ forall row,
           In row (query_cache
                     (fst (GetCachedQuery t h u
                             (fst (CacheQuery now id p h (Ok ps) (Ok data)
                                     n ttl c)))))
           -> qrow_query_hash row <> h).
Proof.
  intros PK O U.
  destruct (CacheQuery_selected now id p h ps data n ttl c PK O)
    as (row & Q & D & X).
  split.
  - intros T. apply (GetCachedQuery_live _ _ _ _ row); [exact Q | |].
    + unfold query_expired. rewrite X.
      destruct ttl as [hours |]; cbn [option_map]; [|reflexivity].
      rewrite After_Add. apply Z.ltb_ge. exact T.
    + now rewrite D.
  - intros hours -> T.
    assert (E : query_expired t row = true).
    { unfold query_expired. rewrite X. cbn [option_map].
      rewrite After_Add. apply Z.ltb_lt. exact T. }
    destruct (GetCachedQuery_expired t h u _ row Q E) as (M & Tb & _).
    split; [exact M|]. intros r I H. rewrite Tb in I.
    apply delete_where_In in I. destruct I as [_ K].
    unfold query_key in K. rewrite H, String.eqb_refl in K. discriminate.
Qed.

End RoundTripsOfEntries.

Section Accounting.
Import cache time cacheprops states.

(** X10.  The statistics count the reads: a read that reports a hit adds
    one to the hits, a read that reports a miss without an error adds one
    to the misses, a read that fails to unmarshal the entry adds to
    neither; writes leave the statistics alone, and a sweep only records
    its time. *)
Theorem statistics_count_each_read_once :
  (forall A now p k (u : string -> result A) c,
     total_hits (cache_stats (fst (GetCachedMetadata now p k u c)))
     = total_hits (cache_stats c)
       + (if hit (GetCachedMetadata now p k u c) then 1 else 0)
     /\ total_misses (cache_stats (fst (GetCachedMetadata now p k u c)))
        = total_misses (cache_stats c)
          + match snd (GetCachedMetadata now p k u c) with
            | (_, false, None) => 1
            | _ => 0
            end)
  /\ (forall A now h (u : string -> result A) c,
        total_hits (cache_stats (fst (GetCachedQuery now h u c)))
        = total_hits (cache_stats c)
          + (if hit (GetCachedQuery now h u c) then 1 else 0)
        /\ total_misses (cache_stats (fst (GetCachedQuery now h u c)))
           = total_misses (cache_stats c)
             + match snd (GetCachedQuery now h u c) with
               | (_, false, None) => 1
               | _ => 0
               end)
  /\ (forall now p k d ttl c,
        cache_stats (fst (CacheMetadata now p k d ttl c)) = cache_stats c)
  /\ (forall now id p h ps d n ttl c,
        cache_stats (fst (CacheQuery now id p h ps d n ttl c))
        = cache_stats c)
  /\ (forall now c,
        total_hits (cache_stats (fst (CleanupExpiredEntries now c)))
        = total_hits (cache_stats c)
        /\ total_misses (cache_stats (fst (CleanupExpiredEntries now c)))
           = total_misses (cache_stats c)
        /\ last_cleanup (cache_stats (fst (CleanupExpiredEntries now c)))
           = Some now).
Proof.
  split; [|split; [|split; [|split]]].
  - intros A now p k u c. unfold GetCachedMetadata, hit.
    destruct (query_row _ _) as [row |]; [|cbn; lia].
    destruct (After now _); [cbn; lia|].
    destruct (u _); cbn; lia.
  - intros A now h u c. unfold GetCachedQuery, hit.
    destruct (query_row _ _) as [row |]; [|cbn; lia].
    destruct (match qrow_expires_at row with Some _ => _ | None => _ end);
      [cbn; lia|].
    destruct (u _); cbn; lia.
  - intros now p k d ttl c. destruct d; reflexivity.
  - intros now id p h ps d n ttl c. destruct ps, d; reflexivity.
  - intros now c. cbn. repeat split.
Qed.

Lemma update_where_keys {A} (k : A -> string) (p : A -> bool) (f : A -> A)
    (l : list A) :
  (forall r, k (f r) = k r) -> map k (update_where p f l) = map k l.
Proof.
  intros K. unfold update_where. rewrite map_map. apply map_ext.
  intros r. destruct (p r); [apply K | reflexivity].
Qed.

Lemma CacheMetadata_primary_keys now p k d ttl (c : CacheClient) :
  primary_keys c -> primary_keys (fst (CacheMetadata now p k d ttl c)).
Proof.
  intros [M Q]. unfold CacheMetadata. destruct d; [|split; assumption].
  split; cbn; [|assumption].
  match goal with
  | |- context [insert_or_replace _ ?row _] =>
      apply (insert_or_replace_keys mrow_property_id row)
  end. assumption.
Qed.

Lemma GetCachedMetadata_primary_keys {A} now p k (u : string -> result A)
    (c : CacheClient) :
  primary_keys c -> primary_keys (fst (GetCachedMetadata now p k u c)).
Proof.
  intros [M Q]. unfold GetCachedMetadata.
  destruct (query_row _ _) as [row |]; [|split; assumption].
  destruct (After now _).
  - split; cbn; [now apply NoDup_map_filter | assumption].
  - assert (K : NoDup (map mrow_property_id
                         (update_where (metadata_key p k)
                            (touch_metadata now) (metadata_cache c))))
      by (rewrite update_where_keys; [assumption | reflexivity]).
    destruct (u _); split; cbn; assumption.
Qed.

Lemma GetCachedQuery_primary_keys {A} now h (u : string -> result A)
    (c : CacheClient) :
  primary_keys c -> primary_keys (fst (GetCachedQuery now h u c)).
Proof.
  intros [M Q]. unfold GetCachedQuery.
  destruct (query_row _ _) as [row |]; [|split; assumption].
  destruct (match qrow_expires_at row with Some _ => _ | None => _ end).
  - split; cbn; [assumption | now apply NoDup_map_filter].
  - assert (K : NoDup (map qrow_query_id
                         (update_where (query_key h) (touch_query now)
                            (query_cache c))))
      by (rewrite update_where_keys; [assumption | reflexivity]).
    destruct (u _); split; cbn; assumption.
Qed.

(** X11.  In every state that the methods of the cache client reach from
    a new database, no two metadata entries are of one property, no two
    query results have one identifier, and the counts of hits and misses
    are not negative. *)
Theorem reachable_caches_keep_their_keys (c : CacheClient) :
  reachable c ->
  primary_keys c
  /\ 0 <= total_hits (cache_stats c) /\ 0 <= total_misses (cache_stats c).
Proof.
  induction 1 as [now | c c' R IH S].
  - split; [split; constructor | cbn; lia].
  - destruct IH as (PK & Hh & Hm).
    destruct S.
    + split; [now apply CacheMetadata_primary_keys|].
      destruct jsonData; cbn; lia.
    + split; [now apply GetCachedMetadata_primary_keys|].
      revert Hh Hm. unfold GetCachedMetadata.
      destruct (query_row _ _) as [row |]; [|cbn; lia].
      destruct (After now _); [cbn; lia|].
      destruct (unmarshal _); cbn; lia.
    + split; [now apply CacheQuery_primary_keys|].
      destruct jsonParams, jsonData; cbn; lia.
    + split; [now apply GetCachedQuery_primary_keys|].
      revert Hh Hm. unfold GetCachedQuery.
      destruct (query_row _ _) as [row |]; [|cbn; lia].
      destruct (match qrow_expires_at row with Some _ => _ | None => _ end);
        [cbn; lia|].
      destruct (unmarshal _); cbn; lia.
    + split; [now apply CleanupExpiredEntries_primary_keys | cbn; lia].
Qed.

End Accounting.

Lemma store5_primary_keys : cache.primary_keys cacheprops.store5.
Proof.
  split; simpl.
  - constructor; [simpl; intros [E | []]; discriminate|].
    constructor; [simpl; tauto | constructor].
  - constructor; [simpl; intros [E | [E | []]]; discriminate|].
    constructor; [simpl; intros [E | []]; discriminate|].
    constructor; [simpl; tauto | constructor].
Qed.

(** The store of the specification's example meets the hypotheses of X7:
    at second 20 its metadata of property 123 is a hit, and a miss once an
    event analysis of that property has been written. *)
Lemma metadata_of_another_kind_is_evicted_witness :
  cacheprops.hit_with "m1"
    (cache.GetCachedMetadata (cacheprops.at_second 20) "123" "metadata"
       cacheprops.as_text cacheprops.store5)
  /\ cacheprops.counted_miss
       (fst (cache.CacheMetadata (cacheprops.at_second 10) "123" "events_30"
               (Ok "e") 1 cacheprops.store5))
       (cache.GetCachedMetadata (cacheprops.at_second 20) "123" "metadata"
          cacheprops.as_text
          (fst (cache.CacheMetadata (cacheprops.at_second 10) "123"
                  "events_30" (Ok "e") 1 cacheprops.store5))).
Proof.
  split; [reflexivity|].
  apply (metadata_of_another_kind_is_evicted (cacheprops.at_second 10)
           (cacheprops.at_second 20) "123" "events_30" "metadata" "e" 1
           cacheprops.as_text cacheprops.store5 store5_primary_keys).
  discriminate.
Defined.

(** The same store meets the hypotheses of X8: metadata written at second
    10 for 24 hours is read back at second 86,410 and not at second
    86,411. *)
Lemma metadata_is_read_back_until_it_expires_witness :
  cacheprops.hit_with "m"
    (cache.GetCachedMetadata (cacheprops.at_second 86410) "123" "metadata"
       cacheprops.as_text
       (fst (cache.CacheMetadata (cacheprops.at_second 10) "123" "metadata"
               (Ok "m") 24 cacheprops.store5)))
  /\ cacheprops.counted_miss
       (fst (cache.CacheMetadata (cacheprops.at_second 10) "123" "metadata"
               (Ok "m") 24 cacheprops.store5))
       (cache.GetCachedMetadata (cacheprops.at_second 86411) "123" "metadata"
          cacheprops.as_text
          (fst (cache.CacheMetadata (cacheprops.at_second 10) "123"
                  "metadata" (Ok "m") 24 cacheprops.store5))).
Proof.
  split.
  - apply (metadata_is_read_back_until_it_expires (cacheprops.at_second 10)
             (cacheprops.at_second 86410) "123" "metadata" "m" 24
             cacheprops.as_text "m" cacheprops.store5 store5_primary_keys
             eq_refl).
    vm_compute. discriminate.
  - apply (metadata_is_read_back_until_it_expires (cacheprops.at_second 10)
             (cacheprops.at_second 86411) "123" "metadata" "m" 24
             cacheprops.as_text "m" cacheprops.store5 store5_primary_keys
             eq_refl).
    vm_compute. reflexivity.
Defined.

(** The same store meets the hypotheses of X9: a result written at second
    10 for one hour under a new hash is read back at second 3,610 and not
    at second 3,611. *)
Lemma query_result_is_read_back_until_it_expires_witness :
  cacheprops.hit_with "r4"
    (cache.GetCachedQuery (cacheprops.at_second 3610) "h4"
       cacheprops.as_text
       (fst (cache.CacheQuery (cacheprops.at_second 10) "query_10" "123" "h4"
               (Ok "{}") (Ok "r4") 1 (Some 1) cacheprops.store5)))
  /\ cacheprops.counted_miss
       (fst (cache.CacheQuery (cacheprops.at_second 10) "query_10" "123" "h4"
               (Ok "{}") (Ok "r4") 1 (Some 1) cacheprops.store5))
       (cache.GetCachedQuery (cacheprops.at_second 3611) "h4"
          cacheprops.as_text
          (fst (cache.CacheQuery (cacheprops.at_second 10) "query_10" "123"
                  "h4" (Ok "{}") (Ok "r4") 1 (Some 1) cacheprops.store5))).
Proof.
  assert (O : forall r, In r (cache.query_cache cacheprops.store5) ->
                        cache.qrow_query_hash r = "h4" ->
                        cache.qrow_query_id r = "query_10").
  { intros r [<- | [<- | [<- | []]]]; discriminate. }
  split.
  - apply (query_result_is_read_back_until_it_expires
             (cacheprops.at_second 10) (cacheprops.at_second 3610)
             "query_10" "123" "h4" "{}" "r4" 1 (Some 1) cacheprops.as_text
             "r4" cacheprops.store5 store5_primary_keys O eq_refl).
    vm_compute. discriminate.
  - apply (proj2 (query_result_is_read_back_until_it_expires
             (cacheprops.at_second 10) (cacheprops.at_second 3611)
             "query_10" "123" "h4" "{}" "r4" 1 (Some 1) cacheprops.as_text
             "r4" cacheprops.store5 store5_primary_keys O eq_refl)
             1 eq_refl).
    vm_compute. reflexivity.
Defined.

(** A new database into which one entry has been written is a reachable
    state. *)
Lemma reachable_caches_keep_their_keys_witness :
  states.reachable
    (fst (cache.CacheMetadata (cacheprops.at_second 10) "123" "metadata"
            (Ok "m") 24 (states.fresh (cacheprops.at_second 0))))
  /\ cache.primary_keys
       (fst (cache.CacheMetadata (cacheprops.at_second 10) "123" "metadata"
               (Ok "m") 24 (states.fresh (cacheprops.at_second 0)))).
Proof.
  assert (R : states.reachable
                (fst (cache.CacheMetadata (cacheprops.at_second 10) "123"
                        "metadata" (Ok "m") 24
                        (states.fresh (cacheprops.at_second 0))))).
  { eapply states.reach_step; [apply states.reach_fresh|].
    apply states.step_CacheMetadata. }
  split; [exact R|].
  apply (reachable_caches_keep_their_keys _ R).
Defined.

(* ====================================================================== *)
(** * Reports through the cache                                           *)
(* ====================================================================== *)

Section Reports.
Import api cache time cacheprops worlds.
Variable remote : Remote.

(** A digest is never the empty string. *)
Lemma hexdigest_nonempty (data : string) : Sha256.hexdigest data <> "".
Proof.
  unfold Sha256.hexdigest, Sha256.Sum256.
  destruct (Sha256.blocks _ _ _) as [[[[[[[a b] c] d] e] f] g] h].
  cbn [map]. change (Sha256.hex 8 a)
    with (String (Sha256.hex_digit ((Z.shiftr a (4 * Z.of_nat 7)) mod 16))
            (Sha256.hex 7 a)).
  cbn [concat append]. discriminate.
Qed.

(** A read that reports a miss leaves no row of the hash behind. *)
Lemma GetCachedQuery_miss_clears {A} (now : Time) (h : string)
    (u : string -> result A) (c : CacheClient) :
  snd (GetCachedQuery now h u c) = (None, false, None) ->
  forall r, In r (query_cache (fst (GetCachedQuery now h u c))) ->
            qrow_query_hash r <> h.
Proof.
  unfold GetCachedQuery.
  destruct (query_row _ _) as [row |] eqn:Q.
  - destruct (match qrow_expires_at row with Some _ => _ | None => _ end).
    + intros _ r I. cbn in I. apply delete_where_In in I.
      destruct I as [_ K]. unfold query_key in K.
      now apply String.eqb_neq.
    + destruct (u _); discriminate.
  - intros _ r I. cbn in I. unfold query_row in Q.
    pose proof (find_none _ _ Q r I) as K. unfold query_key in K.
    now apply String.eqb_neq.
Qed.

(** X12.  A report that the gateway answers is stored, and the same
    report asked again within the hour is served from the cache without
    a call to the gateway: this for a request that [RunReport] accepts as
    it is, a cache whose read for it was a miss, and a response that the
    codec of the cache writes and reads back. *)
Theorem a_stored_report_is_served_from_the_cache
    (request : RunReportRequest) (d : DataClient CacheClient)
    (c : CacheClient) (status body text : string)
    (response : RunReportResponse) :
  req_Property request <> "" -> req_DateRanges request <> [] ->
  0 < req_Limit request <= 250000 ->
  cacheClient d = Some c -> primary_keys c ->
  snd (cache.GetCachedQuery (clock remote (ticks d))
         (generateQueryHash request) (unmarshalResponse remote) c)
  = (None, false, None) ->
  authenticate remote = None ->
  post remote (baseURL +++ "/properties/" +++ req_Property request
               +++ ":runReport") (marshalRequest request)
  = Response 200 status body ->
  decodeResponse remote body = Ok response ->
  marshalResponse remote response = Ok text ->
  unmarshalResponse remote text = Ok response ->
  nanos (clock remote (3 + ticks d))
  <= nanos (clock remote (2 + ticks d)) + Hours 1 ->
  exists d1 d2,
    RunReport remote request d = (d1, Ok response)
    /\ trace d1
       = Post (baseURL +++ "/properties/" +++ req_Property request
               +++ ":runReport") (marshalRequest request)
         :: Authenticate :: trace d
    /\ RunReport remote request d1 = (d2, Ok response)
    /\ trace d2 = trace d1.
Proof.
  intros P DR L Cd PK Miss Au Po De Ma Un Ck.
  assert (V : forall d0 : DataClient CacheClient,
    RunReport remote request d0
    = let '(d1, queryHash, cached) := probe remote request d0 in
      match cached with
      | Some r => (d1, Ok r)
      | None =>
          (store remote request queryHash response
             (emit (Post (baseURL +++ "/properties/" +++ req_Property request
                          +++ ":runReport") (marshalRequest request))
                (emit Authenticate d1)),
           Ok response)
      end).
  { intros d0. unfold RunReport.
    replace (String.eqb (req_Property request) "") with false
      by (symmetry; now apply String.eqb_neq).
    replace (List.length (req_DateRanges request) =? 0)%nat with false
      by (destruct (req_DateRanges request); [contradiction | reflexivity]).
    replace (req_Limit request =? 0) with false
      by (symmetry; apply Z.eqb_neq; lia).
    replace (250000 <? req_Limit request) with false
      by (symmetry; apply Z.ltb_ge; lia).
    destruct (probe remote request d0) as [[d1 queryHash] [r |]];
      [reflexivity|].
    now rewrite Au, Po, De. }
  set (h := generateQueryHash request) in *.
  set (c1 := fst (cache.GetCachedQuery (clock remote (ticks d)) h
                    (unmarshalResponse remote) c)).
  assert (PK1 : primary_keys c1) by now apply GetCachedQuery_primary_keys.
  assert (Clear : forall r, In r (query_cache c1) ->
                            qrow_query_hash r <> h)
    by now apply GetCachedQuery_miss_clears.
  set (id := "query_" +++ Strconv.FormatInt (Unix (clock remote (S (ticks d))))).
  set (c2 := fst (cache.CacheQuery (clock remote (2 + ticks d)) id
                    (req_Property request) h (Ok (marshalRequest request))
                    (Ok text) (resp_RowCount response) (Some 1) c1)).
  destruct (CacheQuery_selected (clock remote (2 + ticks d)) id
              (req_Property request) h (marshalRequest request) text
              (resp_RowCount response) (Some 1) c1 PK1) as (row & Q & Dt & X).
  { intros r I E. exfalso. now apply (Clear r I). }
  fold c2 in Q.
  assert (Hit : hit_with response
                  (cache.GetCachedQuery (clock remote (3 + ticks d)) h
                     (unmarshalResponse remote) c2)).
  { apply (GetCachedQuery_live _ _ _ _ row); [exact Q | |].
    - unfold query_expired. rewrite X. cbn [option_map].
      rewrite After_Add. apply Z.ltb_ge. exact Ck.
    - now rewrite Dt. }
  set (d1 := {| cacheClient := Some c2; ticks := 3 + ticks d;
                trace := Post (baseURL +++ "/properties/"
                               +++ req_Property request +++ ":runReport")
                           (marshalRequest request)
                         :: Authenticate :: trace d |}).
  assert (R1 : RunReport remote request d = (d1, Ok response)).
  { rewrite V. unfold probe. rewrite Cd. cbn [time_Now].
    unfold dataclient.GetCachedQuery, CacheClient_CacheInterface.
    fold h. destruct (cache.GetCachedQuery _ h _ c) as [c1' res] eqn:G.
    cbn [snd] in Miss. subst res. cbn [fst] in c1. subst c1.
    unfold store. cbn [emit with_cache cacheClient ticks trace time_Now].
    replace (String.eqb h "") with false
      by (symmetry; apply String.eqb_neq; apply hexdigest_nonempty).
    unfold dataclient.CacheQuery, CacheClient_CacheInterface.
    rewrite Ma. fold id. unfold d1, c2. reflexivity. }
  unfold hit_with in Hit.
  destruct (cache.GetCachedQuery (clock remote (3 + ticks d)) h
              (unmarshalResponse remote) c2) as [c3 res] eqn:G.
  cbn [snd] in Hit. subst res.
  exists d1, {| cacheClient := Some c3; ticks := 4 + ticks d;
                trace := trace d1 |}.
  split; [exact R1|]. split; [reflexivity|].
  rewrite V. unfold probe. cbn [d1 cacheClient time_Now ticks].
  unfold dataclient.GetCachedQuery, CacheClient_CacheInterface.
  fold h. rewrite G. split; reflexivity.
Qed.

End Reports.

(** A gateway that answers, over an empty cache, meets the hypotheses of
    X12 for the request of the specification's example. *)
Lemma a_stored_report_is_served_from_the_cache_witness :
  exists d1 d2,
    RunReport worlds.online worlds.sessions_request
      (worlds.cached worlds.empty_cache)
    = (d1, Ok worlds.one_row)
    /\ RunReport worlds.online worlds.sessions_request d1
       = (d2, Ok worlds.one_row)
    /\ trace d2 = trace d1.
Proof.
  destruct (a_stored_report_is_served_from_the_cache worlds.online
              worlds.sessions_request (worlds.cached worlds.empty_cache)
              worlds.empty_cache "200 OK" "one row" "one row" worlds.one_row)
    as (d1 & d2 & R1 & _ & R2 & T2).
  - discriminate.
  - discriminate.
  - cbn. lia.
  - reflexivity.
  - split; constructor.
  - reflexivity.
  - reflexivity.
  - reflexivity.
  - reflexivity.
  - reflexivity.
  - reflexivity.
  - vm_compute. discriminate.
  - exists d1, d2. split; [exact R1|]. split; [exact R2 | exact T2].
Defined.

(* ====================================================================== *)
(** * The constructors and the translation                                *)
(* ====================================================================== *)

Section Constructors.
Import api query executor constructors Float64 floatprops.
Variable overflow : float64 -> Z.

(** X13.  The translation of the executor agrees with the constructors of
    the data client: a string filter that matches exactly, without regard
    to case, becomes the expression of [NewDimensionFilter], and a numeric
    filter whose value is the float of an integer below [2^53] in
    magnitude becomes the expression of [NewMetricFilter] for that
    integer, on every platform. *)
Theorem translation_agrees_with_the_constructors (f : FilterConfig) :
  (fc_Type f = "string" -> fc_StringMatchType f = "EXACT" ->
   fc_StringCaseSensitive f = false ->
   convertSingleFilter overflow f
   = Ok (NewDimensionFilter (fc_FieldName f) (fc_StringValue f)))
  /\ (forall n, fc_Type f = "numeric" -> Z.abs n < 2 ^ 53 ->
      fc_NumericValue f = of_int64 n ->
      convertSingleFilter overflow f
      = Ok (NewMetricFilter (fc_FieldName f) (fc_NumericOperation f) n)).
Proof.
  split.
  - intros T M C. unfold convertSingleFilter, NewDimensionFilter.
    rewrite T, M, C. reflexivity.
  - intros n T B V. unfold convertSingleFilter, NewMetricFilter.
    rewrite T, V. cbn [String.eqb Ascii.eqb Bool.eqb].
    rewrite (of_int64_small n B).
    assert (Tr : trunc (Fin (n <? 0) (Z.abs n) 0) = n).
    { unfold trunc. rewrite Z.shiftl_0_r.
      destruct (Z.ltb_spec n 0); cbn [signed]; lia. }
    destruct (integer_is_int64 overflow (n <? 0) (Z.abs n) 0) as [I E].
    + unfold valid.
      replace (0 <=? Z.abs n) with true by (symmetry; apply Z.leb_le; lia).
      replace (Z.abs n <? 2 ^ 53) with true
        by (symmetry; apply Z.ltb_lt; lia).
      reflexivity.
    + reflexivity.
    + rewrite Tr. unfold in_int64, int64_min, int64_max.
      apply andb_true_iff. split; apply Z.leb_le; lia.
    + rewrite E, I, Tr. reflexivity.
Qed.

End Constructors.

(** A filter on exactly 42 sessions meets the hypotheses of X13. *)
Lemma translation_agrees_with_the_constructors_witness :
  executor.convertSingleFilter examples.indefinite
    (examples.numeric_filter "sessions" "EQUAL" (Float64.of_int64 42))
  = Ok (constructors.NewMetricFilter "sessions" "EQUAL" 42).
Proof.
  apply (proj2 (translation_agrees_with_the_constructors examples.indefinite
                  (examples.numeric_filter "sessions" "EQUAL"
                     (Float64.of_int64 42))) 42).
  - reflexivity.
  - reflexivity.
  - reflexivity.
Defined.

(* ====================================================================== *)
(** * Metadata and event analysis through the cache                       *)
(* ====================================================================== *)

Section MetadataAndEvents.
Import api cache time cacheprops dataclient events.
Variable remote : Remote.
Variable gateway : Gateway.

(** What a report does to the cache: it keeps the metadata table and
    the primary keys. *)
Lemma probe_cache (request : RunReportRequest) (d : DataClient CacheClient)
    (c : CacheClient) :
  cacheClient d = Some c ->
  exists c', cacheClient (fst (fst (probe remote request d))) = Some c'
             /\ metadata_cache c' = metadata_cache c
             /\ (primary_keys c -> primary_keys c').
Proof.
  intros Cd. unfold probe. rewrite Cd. cbn [time_Now].
  unfold dataclient.GetCachedQuery, CacheClient_CacheInterface.
  pose proof (GetCachedQuery_no_row_written (clock remote (ticks d))
                (generateQueryHash request) (unmarshalResponse remote) c)
    as [_ M].
  pose proof (GetCachedQuery_primary_keys (clock remote (ticks d))
                (generateQueryHash request) (unmarshalResponse remote) c)
    as K.
  destruct (cache.GetCachedQuery _ _ _ c) as [c1 [[cached found] err]].
  cbn [fst] in M, K. exists c1.
  destruct err, found; cbn; auto.
Qed.

Lemma store_cache (request : RunReportRequest) (h : string)
    (response : RunReportResponse) (d : DataClient CacheClient)
    (c : CacheClient) :
  cacheClient d = Some c ->
  exists c', cacheClient (store remote request h response d) = Some c'
             /\ metadata_cache c' = metadata_cache c
             /\ (primary_keys c -> primary_keys c').
Proof.
  intros Cd. unfold store. rewrite Cd.
  destruct (String.eqb h ""); [exists c; auto|].
  cbn [time_Now cacheClient].
  unfold dataclient.CacheQuery, CacheClient_CacheInterface.
  match goal with
  | |- context [cache.CacheQuery ?now ?id ?p ?hh ?ps ?dt ?n ?ttl c] =>
      pose proof (CacheQuery_primary_keys now id p hh ps dt n ttl c) as K;
      assert (M : metadata_cache (fst (cache.CacheQuery now id p hh ps dt n
                                         ttl c)) = metadata_cache c)
        by (unfold cache.CacheQuery; destruct ps, dt; reflexivity);
      destruct (cache.CacheQuery now id p hh ps dt n ttl c) as [c1 e]
  end.
  cbn [fst] in K, M. exists c1. cbn. auto.
Qed.

Lemma RunReport_cache (request : RunReportRequest)
    (d : DataClient CacheClient) (c : CacheClient) :
  cacheClient d = Some c ->
  exists c', cacheClient (fst (RunReport remote request d)) = Some c'
             /\ metadata_cache c' = metadata_cache c
             /\ (primary_keys c -> primary_keys c').
Proof.
  intros Cd. unfold RunReport.
  destruct (String.eqb (req_Property request) ""); [exists c; auto|].
  destruct (List.length (req_DateRanges request) =? 0)%nat;
    [exists c; auto|].
  match goal with
  | |- context [probe remote ?r d] =>
      destruct (probe_cache r d c Cd) as (c1 & C1 & M1 & K1);
      destruct (probe remote r d) as [[d1 h] cached]
  end.
  cbn [fst] in C1.
  destruct (250000 <? _); [exists c; auto|].
  destruct cached as [r |]; [exists c1; auto|].
  destruct (authenticate remote); [exists c1; auto|].
  destruct (post remote _ _) as [e | code status body]; [exists c1; auto|].
  destruct (code =? 404); [exists c1; auto|].
  destruct (negb (code =? 200)); [exists c1; auto|].
  destruct (decodeResponse remote body) as [response | e];
    [|exists c1; auto].
  cbn [fst].
  match goal with
  | |- context [store remote ?r ?hh ?resp ?dd] =>
      destruct (store_cache r hh resp dd c1) as (c2 & C2 & M2 & K2);
        [exact C1|]
  end.
  exists c2. split; [exact C2|]. split; [congruence | auto].
Qed.

(** X14.  Metadata that the gateway delivers is stored for the property,
    in place of whatever entry the property had, and [GetMetadata] asked
    again within 24 hours serves it from the cache without approaching the
    gateway: this for a cache whose first read was not a hit, and metadata
    that the codec of the cache writes and reads back. *)
Theorem fetched_metadata_is_served_from_the_cache
    (p : string) (d : DataClient CacheClient) (c : CacheClient)
    (status body text : string) (metadata : MetadataResponse) :
  cacheClient d = Some c -> primary_keys c ->
  hit (cache.GetCachedMetadata (clock remote (ticks d)) p "metadata"
         (unmarshalMetadata gateway) c) = false ->
  authenticate remote = None ->
  get gateway (baseURL +++ "/properties/" +++ p +++ "/metadata")
  = GetResponse 200 status body ->
  decodeMetadata gateway body = Ok metadata ->
  marshalMetadata gateway metadata = Ok text ->
  unmarshalMetadata gateway text = Ok metadata ->
  nanos (clock remote (2 + ticks d))
  <= nanos (clock remote (1 + ticks d)) + Hours 24 ->
  exists d1 d2,
    GetMetadata remote gateway p d = (d1, Ok metadata)
    /\ trace d1 = Authenticate :: trace d
    /\ GetMetadata remote gateway p d1 = (d2, Ok metadata)
    /\ trace d2 = trace d1.
Proof.
  intros Cd PK Miss Au Ge De Ma Un Ck.
  set (c1 := fst (cache.GetCachedMetadata (clock remote (ticks d)) p
                    "metadata" (unmarshalMetadata gateway) c)).
  assert (PK1 : primary_keys c1) by now apply GetCachedMetadata_primary_keys.
  set (c2 := fst (cache.CacheMetadata (clock remote (1 + ticks d)) p
                    "metadata" (Ok text) 24 c1)).
  destruct (CacheMetadata_selected (clock remote (1 + ticks d)) p "metadata"
              text 24 c1 PK1) as (row & Q & Dt & X).
  fold c2 in Q.
  assert (Hit : hit_with metadata
                  (cache.GetCachedMetadata (clock remote (2 + ticks d)) p
                     "metadata" (unmarshalMetadata gateway) c2)).
  { apply (GetCachedMetadata_live _ _ _ _ _ row); [exact Q | |].
    - unfold metadata_expired. rewrite X, After_Add.
      apply Z.ltb_ge. exact Ck.
    - now rewrite Dt. }
  unfold hit_with in Hit.
  destruct (cache.GetCachedMetadata (clock remote (2 + ticks d)) p
              "metadata" (unmarshalMetadata gateway) c2) as [c3 res] eqn:G.
  cbn [snd] in Hit. subst res.
  set (d1 := {| cacheClient := Some c2; ticks := 2 + ticks d;
                trace := Authenticate :: trace d |}).
  exists d1, {| cacheClient := Some c3; ticks := 3 + ticks d;
                trace := trace d1 |}.
  assert (R1 : GetMetadata remote gateway p d = (d1, Ok metadata)).
  { unfold GetMetadata. rewrite Cd. cbn [time_Now].
    unfold dataclient.GetCachedMetadata, CacheClient_CacheInterface.
    unfold hit in Miss.
    destruct (cache.GetCachedMetadata _ p "metadata" _ c)
      as [c1' [[cached found] err]] eqn:G1.
    cbn [snd fst] in Miss. subst found. cbn [fst] in c1. subst c1.
    destruct err; cbn [emit with_cache cacheClient ticks trace];
      rewrite Au, Ge; cbn [Z.eqb Pos.eqb negb]; rewrite De;
      cbn [time_Now cacheClient ticks trace];
      unfold dataclient.CacheMetadata, CacheClient_CacheInterface;
      rewrite Ma; reflexivity. }
  split; [exact R1|]. split; [reflexivity|].
  unfold GetMetadata. cbn [d1 cacheClient time_Now ticks].
  unfold dataclient.GetCachedMetadata, CacheClient_CacheInterface.
  rewrite G. split; reflexivity.
Qed.

(** After a hit, the row that was read is still there. *)
Lemma GetCachedMetadata_hit_row {A} (now : Time) (p k : string)
    (u : string -> result A) (c : CacheClient) (v : option A) (e : error) :
  snd (cache.GetCachedMetadata now p k u c) = (v, true, e) ->
  exists row, In row (metadata_cache (fst (cache.GetCachedMetadata now p k u c)))
              /\ mrow_property_id row = p /\ mrow_cache_type row = k.
Proof.
  unfold cache.GetCachedMetadata.
  destruct (query_row _ _) as [row |] eqn:Q; [|discriminate].
  apply query_row_some in Q. destruct Q as [I K].
  unfold metadata_key in K. apply andb_true_iff in K. destruct K as [K1 K2].
  apply String.eqb_eq in K1. apply String.eqb_eq in K2.
  destruct (After now _); [discriminate|].
  destruct (u _); [|discriminate]. intros _.
  exists (touch_metadata now row). split; [|split; assumption].
  cbn. unfold update_where. apply in_map_iff. exists row. split; [|exact I].
  unfold metadata_key. now rewrite K1, K2, !String.eqb_refl.
Qed.

(** An analysis that [AnalyzeEvents] returns and that can be marshalled
    is in the cache afterwards, as the entry of its property. *)
Lemma AnalyzeEvents_row (p : string) (days : Z)
    (d d1 : DataClient CacheClient) (c : CacheClient) (a : EventAnalysis)
    (text : string) :
  cacheClient d = Some c -> primary_keys c ->
  AnalyzeEvents remote gateway p days d = (d1, Ok a) ->
  marshalAnalysis a = Ok text ->
  exists c1 row,
    cacheClient d1 = Some c1 /\ primary_keys c1
    /\ In row (metadata_cache c1) /\ mrow_property_id row = p
    /\ mrow_cache_type row = "events_" +++ Strconv.FormatInt days.
Proof.
  intros Cd PK R Ma. unfold AnalyzeEvents in R.
  destruct ((days <=? 0) || (365 <? days)); [discriminate|].
  rewrite Cd in R. cbn [time_Now] in R.
  unfold dataclient.GetCachedMetadata, CacheClient_CacheInterface in R.
  set (key := "events_" +++ Strconv.FormatInt days) in *.
  pose proof (GetCachedMetadata_primary_keys (clock remote (ticks d)) p key
                (unmarshalAnalysis gateway) c PK) as PK0.
  pose proof (GetCachedMetadata_hit_row (clock remote (ticks d)) p key
                (unmarshalAnalysis gateway) c) as HR.
  destruct (cache.GetCachedMetadata (clock remote (ticks d)) p key
              (unmarshalAnalysis gateway) c)
    as [c0 [[cached found] err]].
  cbn [fst snd] in PK0, HR.
  assert (Computed :
    forall d0 : DataClient CacheClient, cacheClient d0 = Some c0 ->
      (let '(d3, res) :=
         RunReport remote
           {| req_Property := p;
              req_Dimensions := [{| dim_Name := "eventName";
                                    dim_DimensionExpression := "" |}];
              req_Metrics := [{| met_Name := "eventCount";
                                 met_Expression := "" |};
                              {| met_Name := "activeUsers";
                                 met_Expression := "" |}];
              req_DateRanges :=
                [{| dr_StartDate := Strconv.FormatInt days +++ "daysAgo";
                    dr_EndDate := "yesterday"; dr_Name := "" |}];
              req_DimensionFilter := None; req_MetricFilter := None;
              req_Offset := 0; req_Limit := 100;
              req_MetricAggregations := [];
              req_OrderBys :=
                [{| ob_Desc := true; ob_Dimension := None;
                    ob_Metric :=
                      Some {| mob_MetricName := "eventCount" |} |}];
              req_CurrencyCode := ""; req_KeepEmptyRows := false;
              req_ReturnPropertyQuota := false |} d0 in
       match res with
       | Err err0 =>
           (d3, Err (wrap "failed to run event analysis report" err0))
       | Ok reportResponse =>
           let '(analyzedAt, d4) := time_Now remote d3 in
           let '(totalEventCount, totalUsers, evs) :=
             summarise (resp_Rows reportResponse) 0 0 [] in
           let analysis :=
             {| ea_PropertyID := p;
                ea_DateRange := Strconv.FormatInt days +++ " days";
                ea_TotalEvents :=
                  Z.of_nat (List.length (resp_Rows reportResponse));
                ea_TotalEventCount := totalEventCount;
                ea_TotalActiveUsers := totalUsers;
                ea_AnalyzedAt := analyzedAt;
                ea_Events := evs |} in
           (match cacheClient d4 with
            | None => d4
            | Some c4 =>
                let '(now, d5) := time_Now remote d4 in
                let '(c5, _) :=
                  dataclient.CacheMetadata now p key
                    (marshalAnalysis analysis) 1 c4 in
                with_cache d5 c5
            end, Ok analysis)
       end) = (d1, Ok a) ->
      exists c1 row,
        cacheClient d1 = Some c1 /\ primary_keys c1
        /\ In row (metadata_cache c1) /\ mrow_property_id row = p
        /\ mrow_cache_type row = key).
  { intros d0 C0.
    match goal with
    | |- context [RunReport remote ?r d0] =>
        destruct (RunReport_cache r d0 c0 C0) as (c3 & C3 & _ & K3);
        destruct (RunReport remote r d0) as [d3 [response | e]]
    end; [|discriminate].
    cbn [fst] in C3. cbn [time_Now].
    destruct (summarise (resp_Rows response) 0 0 [])
      as [[totalEventCount totalUsers] evs].
    cbn [cacheClient]. rewrite C3. cbn [time_Now].
    unfold dataclient.CacheMetadata, CacheClient_CacheInterface.
    intros E. injection E as <- <-. rewrite Ma.
    eexists. eexists. cbn [with_cache cacheClient fst].
    split; [reflexivity|]. split.
    - refine (CacheMetadata_primary_keys (clock remote (S (ticks d3))) p key
                (Ok text) 1 c3 _). now apply K3.
    - split; [cbn; apply insert_or_replace_has|]. split; reflexivity. }
  destruct err as [e |];
    [exact (Computed (with_cache _ c0) eq_refl R)|].
  destruct found; [|exact (Computed (with_cache _ c0) eq_refl R)].
  injection R as <- _. destruct (HR cached None eq_refl) as (row & I & P & K).
  exists c0, row. cbn. auto.
Qed.

(** X15.  Event analysis and metadata share the one entry a property has
    in the metadata table: when [AnalyzeEvents] has returned an analysis
    that can be marshalled, read from the cache or stored in it, the
    cache holds no metadata of that property, and [GetMetadata] for it
    approaches the gateway. *)
Theorem an_analysis_in_the_cache_leaves_no_metadata
    (p : string) (days : Z) (d d1 : DataClient CacheClient)
    (c : CacheClient) (a : EventAnalysis) (text : string) :
  cacheClient d = Some c -> primary_keys c ->
  AnalyzeEvents remote gateway p days d = (d1, Ok a) ->
  marshalAnalysis a = Ok text ->
  (exists c1, cacheClient d1 = Some c1
              /\ forall row, In row (metadata_cache c1) ->
                             mrow_property_id row = p ->
                             mrow_cache_type row
                             = "events_" +++ Strconv.FormatInt days)
  /\ trace (fst (GetMetadata remote gateway p d1))
     = Authenticate :: trace d1.
Proof.
  intros Cd PK R Ma.
  destruct (AnalyzeEvents_row p days d d1 c a text Cd PK R Ma)
    as (c1 & row & C1 & PK1 & I & P & K).
  assert (U : forall r, In r (metadata_cache c1) -> mrow_property_id r = p ->
                        mrow_cache_type r
                        = "events_" +++ Strconv.FormatInt days).
  { intros r Ir Pr.
    rewrite (unique_key mrow_property_id (metadata_cache c1) r row);
      [exact K | apply PK1 | exact Ir | exact I | congruence]. }
  split; [exists c1; split; [exact C1 | exact U]|].
  unfold GetMetadata. rewrite C1. cbn [time_Now].
  unfold dataclient.GetCachedMetadata, CacheClient_CacheInterface.
  unfold cache.GetCachedMetadata.
  rewrite (find_nothing (metadata_key p "metadata")).
  - cbn [emit with_cache cacheClient ticks trace].
    destruct (authenticate remote); [reflexivity|].
    destruct (get gateway _) as [e | code status body]; [reflexivity|].
    destruct (code =? 404); [reflexivity|].
    destruct (negb (code =? 200)); [reflexivity|].
    destruct (decodeMetadata gateway body); [|reflexivity].
    cbn [time_Now cacheClient ticks trace].
    unfold dataclient.CacheMetadata, CacheClient_CacheInterface.
    destruct (cache.CacheMetadata _ _ _ _ _ _). reflexivity.
  - intros r Ir. unfold metadata_key.
    destruct (String.eqb_spec (mrow_property_id r) p) as [Pr | Pr];
      [|reflexivity].
    rewrite (U r Ir Pr). reflexivity.
Qed.

Lemma wrap64_in_range (z : Z) : in_int64 (wrap64 z) = true.
Proof.
  unfold in_int64, wrap64, int64_min, int64_max.
  pose proof (Z.mod_pos_bound (z + 2 ^ 63) (2 ^ 64)).
  apply andb_true_iff. split; apply Z.leb_le; lia.
Qed.

Lemma wrap64_add (a b : Z) : wrap64 (wrap64 a + b) = wrap64 (a + b).
Proof.
  unfold wrap64. f_equal.
  replace ((a + 2 ^ 63) mod 2 ^ 64 - 2 ^ 63 + b + 2 ^ 63)
    with ((a + 2 ^ 63) mod 2 ^ 64 + b) by ring.
  rewrite Zplus_mod_idemp_l. f_equal. ring.
Qed.

(** The loop of [AnalyzeEvents]: the events of the rows it keeps, in
    order, and their counts added up in [int64]. *)
Lemma summarise_spec (rows : list Row) :
  forall tc tu evs,
    summarise rows tc tu evs
    = (match eventprops.summaries rows with
       | [] => tc
       | es => wrap64 (tc + fold_right Z.add 0 (map es_EventCount es))
       end,
       match eventprops.summaries rows with
       | [] => tu
       | es => wrap64 (tu + fold_right Z.add 0 (map es_ActiveUsers es))
       end,
       (evs ++ eventprops.summaries rows)%list).
Proof.
  induction rows as [| row rows IH]; intros tc tu evs; cbn [summarise].
  - cbn. now rewrite app_nil_r.
  - unfold eventprops.summaries. cbn [flat_map].
    fold (eventprops.summaries rows).
    destruct (summary row) as [e |]; [|apply IH].
    rewrite IH. cbn [app map fold_right]. rewrite <- app_assoc. cbn [app].
    destruct (eventprops.summaries rows) as [| e' es].
    + cbn [map fold_right]. now rewrite !Z.add_0_r.
    + rewrite !wrap64_add.
      repeat match goal with |- (_, _) = (_, _) => f_equal end;
        f_equal; cbn [map fold_right]; ring.
Qed.



(** Events per user, for an event without users: not a number for no
    events either, an infinity otherwise. *)
Lemma div_by_no_users (n : Z) :
  Fdiv.div (Float64.of_int64 n) (Float64.of_int64 0)
  = if n =? 0 then Float64.NaN else Float64.Inf (n <? 0).
Proof.
  change (Float64.of_int64 0) with (Float64.Fin false 0 0).
  unfold Float64.of_int64.
  destruct (Z.ltb_spec (Z.abs n) (2 ^ 53)) as [A | A]; cbn [Fdiv.div].
  - cbn [Z.eqb]. rewrite xorb_false_r.
    destruct (Z.eqb_spec (Z.abs n) 0), (Z.eqb_spec n 0); try lia;
      reflexivity.
  - cbn [Z.eqb]. rewrite xorb_false_r.
    set (k := Z.log2 (Z.abs n) - 52).
    assert (L : 53 <= Z.log2 (Z.abs n)) by (apply Z.log2_le_pow2; lia).
    assert (P : 0 < 2 ^ k) by (apply Z.pow_pos_nonneg; unfold k; lia).
    assert (Q : 1 <= Z.abs n / 2 ^ k).
    { apply Z.div_le_lower_bound; [exact P|]. rewrite Z.mul_1_r.
      transitivity (2 ^ Z.log2 (Z.abs n)).
      - apply Z.pow_le_mono_r; unfold k; lia.
      - apply Z.log2_spec. lia. }
    replace (n =? 0) with false by (symmetry; apply Z.eqb_neq; lia).
    destruct ((2 ^ (k - 1) <? Z.abs n mod 2 ^ k)
              || ((Z.abs n mod 2 ^ k =? 2 ^ (k - 1))
                  && Z.odd (Z.abs n / 2 ^ k)));
      match goal with
      | |- context [?q =? 0] =>
          replace (q =? 0) with false by (symmetry; apply Z.eqb_neq; lia)
      end; reflexivity.
Qed.

Lemma summaries_per_user (rows : list Row) (e : EventSummary) :
  In e (eventprops.summaries rows) ->
  es_EventsPerUser e
  = Fdiv.div (Float64.of_int64 (es_EventCount e))
      (Float64.of_int64 (es_ActiveUsers e)).
Proof.
  unfold eventprops.summaries. rewrite in_flat_map.
  intros (row & _ & I). unfold summary in I.
  destruct (row_DimensionValues row) as [| dv ?]; [contradiction|].
  destruct (row_MetricValues row) as [| m0 [| m1 ?]]; try contradiction.
  destruct I as [<- | []]. reflexivity.
Qed.

(** An analysis that lists an event without users cannot be
    marshalled. *)
Lemma marshalAnalysis_no_users (a : EventAnalysis) :
  (forall e, In e (ea_Events a) ->
             es_EventsPerUser e
             = Fdiv.div (Float64.of_int64 (es_EventCount e))
                 (Float64.of_int64 (es_ActiveUsers e))) ->
  Exists (fun e => es_ActiveUsers e = 0) (ea_Events a) ->
  exists msg, marshalAnalysis a = Err msg.
Proof.
  intros PU X. unfold marshalAnalysis.
  destruct (time.MarshalText (ea_AnalyzedAt a)); [|eexists; reflexivity].
  assert (J : exists msg, json_of_summaries (ea_Events a) = Err msg).
  { clear - PU X. induction X as [e es Z0 | e es X IH].
    - cbn [json_of_summaries]. unfold json_of_EventSummary.
      rewrite (PU e) by now left. rewrite Z0, div_by_no_users.
      destruct (es_EventCount e =? 0); eexists; reflexivity.
    - cbn [json_of_summaries]. destruct (json_of_EventSummary e);
        [|eexists; reflexivity].
      destruct IH as [msg ->]; [|eexists; reflexivity].
      intros e' I. apply PU. now right. }
  destruct J as [msg ->]. eexists. reflexivity.
Qed.

(** X17.  An analysis in which an event has no active users is not
    stored: its events per user are an infinity or not a number, which
    [json.Marshal] refuses, and [AnalyzeEvents] drops the error of the
    write.  The metadata table is then as the read at the start of the
    call left it, so the next call computes the analysis anew. *)
Theorem an_event_without_users_keeps_the_analysis_uncached
    (p : string) (days : Z) (d d1 : DataClient CacheClient)
    (c : CacheClient) (a : EventAnalysis) :
  cacheClient d = Some c ->
  hit (cache.GetCachedMetadata (clock remote (ticks d)) p
         ("events_" +++ Strconv.FormatInt days)
         (unmarshalAnalysis gateway) c) = false ->
  AnalyzeEvents remote gateway p days d = (d1, Ok a) ->
  Exists (fun e => es_ActiveUsers e = 0) (ea_Events a) ->
  (exists msg, marshalAnalysis a = Err msg)
  /\ exists c1,
       cacheClient d1 = Some c1
       /\ metadata_cache c1
          = metadata_cache
              (fst (cache.GetCachedMetadata (clock remote (ticks d)) p
                      ("events_" +++ Strconv.FormatInt days)
                      (unmarshalAnalysis gateway) c)).
Proof.
  intros Cd Miss R X. unfold AnalyzeEvents in R.
  destruct ((days <=? 0) || (365 <? days)); [discriminate|].
  rewrite Cd in R. cbn [time_Now] in R.
  unfold dataclient.GetCachedMetadata, CacheClient_CacheInterface in R.
  set (key := "events_" +++ Strconv.FormatInt days) in *.
  unfold hit in Miss.
  destruct (cache.GetCachedMetadata (clock remote (ticks d)) p key
              (unmarshalAnalysis gateway) c)
    as [c0 [[cached found] err]].
  cbn [fst snd] in Miss. subst found. cbn [fst].
  assert (Computed :
    forall d0 : DataClient CacheClient, cacheClient d0 = Some c0 ->
      (let '(d3, res) :=
         RunReport remote
           {| req_Property := p;
              req_Dimensions := [{| dim_Name := "eventName";
                                    dim_DimensionExpression := "" |}];
              req_Metrics := [{| met_Name := "eventCount";
                                 met_Expression := "" |};
                              {| met_Name := "activeUsers";
                                 met_Expression := "" |}];
              req_DateRanges :=
                [{| dr_StartDate := Strconv.FormatInt days +++ "daysAgo";
                    dr_EndDate := "yesterday"; dr_Name := "" |}];
              req_DimensionFilter := None; req_MetricFilter := None;
              req_Offset := 0; req_Limit := 100;
              req_MetricAggregations := [];
              req_OrderBys :=
                [{| ob_Desc := true; ob_Dimension := None;
                    ob_Metric :=
                      Some {| mob_MetricName := "eventCount" |} |}];
              req_CurrencyCode := ""; req_KeepEmptyRows := false;
              req_ReturnPropertyQuota := false |} d0 in
       match res with
       | Err err0 =>
           (d3, Err (wrap "failed to run event analysis report" err0))
       | Ok reportResponse =>
           let '(analyzedAt, d4) := time_Now remote d3 in
           let '(totalEventCount, totalUsers, evs) :=
             summarise (resp_Rows reportResponse) 0 0 [] in
           let analysis :=
             {| ea_PropertyID := p;
                ea_DateRange := Strconv.FormatInt days +++ " days";
                ea_TotalEvents :=
                  Z.of_nat (List.length (resp_Rows reportResponse));
                ea_TotalEventCount := totalEventCount;
                ea_TotalActiveUsers := totalUsers;
                ea_AnalyzedAt := analyzedAt;
                ea_Events := evs |} in
           (match cacheClient d4 with
            | None => d4
            | Some c4 =>
                let '(now, d5) := time_Now remote d4 in
                let '(c5, _) :=
                  dataclient.CacheMetadata now p key
                    (marshalAnalysis analysis) 1 c4 in
                with_cache d5 c5
            end, Ok analysis)
       end) = (d1, Ok a) ->
      (exists msg, marshalAnalysis a = Err msg)
      /\ exists c1, cacheClient d1 = Some c1
                    /\ metadata_cache c1 = metadata_cache c0).
  { intros d0 C0.
    match goal with
    | |- context [RunReport remote ?r d0] =>
        destruct (RunReport_cache r d0 c0 C0) as (c3 & C3 & M3 & _);
        destruct (RunReport remote r d0) as [d3 [response | e]]
    end; [|discriminate].
    cbn [fst] in C3. cbn [time_Now]. rewrite summarise_spec. cbn [app].
    cbn [cacheClient]. rewrite C3. cbn [time_Now].
    unfold dataclient.CacheMetadata, CacheClient_CacheInterface.
    intros E.
    assert (A : {| ea_PropertyID := p;
                   ea_DateRange := Strconv.FormatInt days +++ " days";
                   ea_TotalEvents :=
                     Z.of_nat (List.length (resp_Rows response));
                   ea_TotalEventCount :=
                     match eventprops.summaries (resp_Rows response) with
                     | [] => 0
                     | es => wrap64 (0 + fold_right Z.add 0
                                           (map es_EventCount es))
                     end;
                   ea_TotalActiveUsers :=
                     match eventprops.summaries (resp_Rows response) with
                     | [] => 0
                     | es => wrap64 (0 + fold_right Z.add 0
                                           (map es_ActiveUsers es))
                     end;
                   ea_AnalyzedAt := clock remote (ticks d3);
                   ea_Events := eventprops.summaries (resp_Rows response) |}
                = a)
      by (destruct (cache.CacheMetadata _ _ _ _ _ _); now injection E).
    assert (Ma : exists msg, marshalAnalysis a = Err msg).
    { apply marshalAnalysis_no_users; [|exact X].
      rewrite <- A. cbn [ea_Events]. intros e.
      apply summaries_per_user. }
    split; [exact Ma|]. destruct Ma as [msg Ma].
    rewrite A, Ma in E. cbn in E. injection E as <-.
    exists c3. split; [reflexivity | exact M3]. }
  destruct err; exact (Computed (with_cache _ c0) eq_refl R).
Qed.

End MetadataAndEvents.

Lemma empty_cache_primary_keys : cache.primary_keys worlds.empty_cache.
Proof. split; constructor. Qed.

(** A gateway that delivers metadata meets the hypotheses of X14 over an
    empty cache: the first call authenticates, the second does not. *)
Lemma fetched_metadata_is_served_from_the_cache_witness :
  exists d1 d2,
    events.GetMetadata worlds.online eventprops.serving "123"
      (worlds.cached worlds.empty_cache)
    = (d1, Go.Ok eventprops.some_metadata)
    /\ dataclient.trace d1
       = dataclient.Authenticate
           :: dataclient.trace (worlds.cached worlds.empty_cache)
    /\ events.GetMetadata worlds.online eventprops.serving "123" d1
       = (d2, Go.Ok eventprops.some_metadata)
    /\ dataclient.trace d2 = dataclient.trace d1.
Proof.
  apply (fetched_metadata_is_served_from_the_cache worlds.online
           eventprops.serving "123" (worlds.cached worlds.empty_cache)
           worlds.empty_cache "200 OK" "metadata" "metadata"
           eventprops.some_metadata eq_refl empty_cache_primary_keys
           eq_refl eq_refl eq_refl eq_refl eq_refl eq_refl).
  vm_compute. discriminate.
Defined.

(** The analysis of a week of page views over an empty cache meets the
    hypotheses of X15: it is stored, and the cache holds no metadata of
    property 123. *)
Lemma an_analysis_in_the_cache_leaves_no_metadata_witness :
  (exists c1,
     dataclient.cacheClient (fst (eventprops.week eventprops.page_views))
     = Some c1
     /\ forall row, In row (cache.metadata_cache c1) ->
                    cache.mrow_property_id row = "123" ->
                    cache.mrow_cache_type row
                    = "events_" +++ Strconv.FormatInt 7)
  /\ dataclient.trace
       (fst (events.GetMetadata (eventprops.answering eventprops.page_views)
               eventprops.serving "123"
               (fst (eventprops.week eventprops.page_views))))
     = dataclient.Authenticate
         :: dataclient.trace (fst (eventprops.week eventprops.page_views)).
Proof.
  apply (an_analysis_in_the_cache_leaves_no_metadata
           (eventprops.answering eventprops.page_views) eventprops.serving
           "123" 7 (worlds.cached worlds.empty_cache)
           (fst (eventprops.week eventprops.page_views)) worlds.empty_cache
           (eventprops.returned events.zero_analysis
              (snd (eventprops.week eventprops.page_views)))
           (eventprops.returned EmptyString
              (events.marshalAnalysis
                 (eventprops.returned events.zero_analysis
                    (snd (eventprops.week eventprops.page_views)))))
           eq_refl empty_cache_primary_keys).
  - vm_compute. reflexivity.
  - vm_compute. reflexivity.
Defined.

(** The analysis of a week of [three_rows] over an empty cache meets the
    hypotheses of X17: the heartbeat event has no users, and nothing is
    stored. *)
Lemma an_event_without_users_keeps_the_analysis_uncached_witness :
  (exists msg,
     events.marshalAnalysis
       (eventprops.returned events.zero_analysis
          (snd (eventprops.week eventprops.three_rows)))
     = Go.Err msg)
  /\ exists c1,
       dataclient.cacheClient (fst (eventprops.week eventprops.three_rows))
       = Some c1
       /\ cache.metadata_cache c1
          = cache.metadata_cache
              (fst (cache.GetCachedMetadata
                      (dataclient.clock
                         (eventprops.answering eventprops.three_rows)
                         (dataclient.ticks
                            (worlds.cached worlds.empty_cache)))
                      "123" ("events_" +++ Strconv.FormatInt 7)
                      (events.unmarshalAnalysis eventprops.serving)
                      worlds.empty_cache)).
Proof.
  apply (an_event_without_users_keeps_the_analysis_uncached
           (eventprops.answering eventprops.three_rows) eventprops.serving
           "123" 7 (worlds.cached worlds.empty_cache)
           (fst (eventprops.week eventprops.three_rows)) worlds.empty_cache
           (eventprops.returned events.zero_analysis
              (snd (eventprops.week eventprops.three_rows)))
           eq_refl eq_refl).
  - vm_compute. reflexivity.
  - vm_compute. right. left. reflexivity.
Defined.
